(** * Employee onboarding: Active Directory account provisioning

    A shallow embedding of [employee_onboarding/models/hr_employee.py]
    (class [HrEmployee]) and the properties of its provisioning flow.

    Conventions of the embedding:
    - a Python [str] is a [string]: the sequence of its code points, each
      below 256 (the [ascii] type holds eight bits);
    - an Odoo [Char] field is an [option string]: [None] is the [False]
      that the ORM returns for an empty field;
    - [ir.config_parameter] is a finite map from keys to values;
    - the directory server, the random source, the host platform and the
      mail gateway are environments given as arguments: the directory
      gives, for each step of the pipeline, the answer of the server or
      the exception raised; every call made on the LDAP connection is
      recorded, with its arguments, in a trace;
    - the translation function [_] is the identity.

    What the embedding takes from its environment: the writes of the ORM
    ([write], [message_post]) and [conn.unbind()] return normally; every
    other call on the connection, and the external [net user] command,
    may raise. *)

From Stdlib Require Import ZArith Ascii String List Permutation Lia DecimalString.
From stdpp Require Import base option list gmap strings.

Local Open Scope Z_scope.

(* ===================================================================== *)
(** * Python string primitives                                            *)
(* ===================================================================== *)

Module Py.

(** The double quote, spelled by its code. *)
Definition dquote : ascii := "034"%char.

Definition str1 (c : ascii) : string := String c "".

(** [bool(s)] of a string. *)
Definition nonempty (s : string) : bool :=
  match s with "" => false | String _ _ => true end.

(** [bool(f)] of a [Char] field, and [f or ''] . *)
Definition truthy (f : option string) : bool :=
  match f with Some s => nonempty s | None => false end.

Definition or_empty (f : option string) : string := default "" f.

(** [x or d] on a field. *)
Definition or_else (f : option string) (d : string) : string :=
  if truthy f then or_empty f else d.

(** [str.isspace] on one code point below 256. *)
Definition is_space (c : ascii) : bool :=
  match c with
  | "009" | "010" | "011" | "012" | "013"
  | "028" | "029" | "030" | "031" | " " | "133" | "160" => true
  | _ => false
  end%char.

Fixpoint lstrip (s : string) : string :=
  match s with
  | "" => ""
  | String c s' => if is_space c then lstrip s' else s
  end.

Definition rstrip (s : string) : string :=
  String.rev (lstrip (String.rev s)).

(** [s.strip()] *)
Definition strip (s : string) : string := rstrip (lstrip s).

(** [str.lower] on one code point below 256: the ASCII capitals and
    the Latin-1 capitals (all of 192..222 but the multiplication sign). *)
Definition lower_char (c : ascii) : ascii :=
  let n := N_of_ascii c in
  if ((65 <=? n) && (n <=? 90) ||
      (192 <=? n) && (n <=? 222) && negb (n =? 215))%N
  then ascii_of_N (n + 32) else c.

Fixpoint lower (s : string) : string :=
  match s with
  | "" => ""
  | String c s' => String (lower_char c) (lower s')
  end.

(** [c in s] for a one-character [c]. *)
Fixpoint contains (c : ascii) (s : string) : bool :=
  match s with
  | "" => false
  | String d s' => Ascii.eqb d c || contains c s'
  end.

(** [s.split(sep)] for a one-character separator: never empty. *)
Fixpoint split (sep : ascii) (s : string) : list string :=
  match s with
  | "" => [""]
  | String c s' =>
      if Ascii.eqb c sep then "" :: split sep s'
      else match split sep s' with
           | w :: ws => String c w :: ws
           | [] => [str1 c]
           end
  end.

(** [sep.join(l)] *)
Definition join (sep : string) (l : list string) : string :=
  String.concat sep l.

(** [s.replace(c, by)] for a one-character [c]. *)
Fixpoint replace (c : ascii) (by_ : string) (s : string) : string :=
  match s with
  | "" => ""
  | String d s' =>
      if Ascii.eqb d c then by_ +:+ replace c by_ s'
      else String d (replace c by_ s')
  end.

(** The first whitespace-delimited word of [s] and what follows it. *)
Fixpoint span_word (s : string) : string * string :=
  match s with
  | "" => ("", "")
  | String c s' =>
      if is_space c then ("", s)
      else let '(w, r) := span_word s' in (String c w, r)
  end.

(** [s.split(None, 1)]: leading whitespace is skipped, the first word
    is cut, the whitespace after it is skipped, and what is left (if
    anything) is kept whole. *)
Definition split_ws_1 (s : string) : list string :=
  match lstrip s with
  | "" => []
  | s1 =>
      let '(w, r) := span_word s1 in
      match lstrip r with
      | "" => [w]
      | r1 => [w; r1]
      end
  end.

(** [int(s)] on a string: surrounding whitespace, an optional sign, and
    decimal digits that single underscores may separate.  [None] is the
    [ValueError]. *)
Fixpoint digits (acc : Z) (after_digit : bool) (s : string) : option Z :=
  match s with
  | "" => if after_digit then Some acc else None
  | String c s' =>
      match Ascii.is_nat c with
      | Some d => digits (10 * acc + Z.of_nat d) true s'
      | None =>
          if Ascii.eqb c "_" && after_digit then digits acc false s'
          else None
      end
  end.

Definition int (s : string) : option Z :=
  match strip s with
  | String "-" s' => Z.opp <$> digits 0 false s'
  | String "+" s' => digits 0 false s'
  | s' => digits 0 false s'
  end.

(** [repr(s)] for a string without quotes, backslashes or control
    characters. *)
Definition repr (s : string) : string := "'" +:+ s +:+ "'".

(** [s.encode('utf-16-le')] for code points below 256. *)
Fixpoint utf16le (s : string) : string :=
  match s with
  | "" => ""
  | String c s' => String c (String "000" (utf16le s'))
  end.

End Py.

(* ===================================================================== *)
(** * Exceptions and results                                              *)
(* ===================================================================== *)

Inductive exn_class :=
| ValueError | IndexError | LDAPException
| CalledProcessError | FileNotFoundError | TimeoutExpired
| OtherException.

(** A raised exception: its class and its [str(e)]. *)
Record exn := Exn { exn_cls : exn_class; exn_str : string }.

Inductive res (A : Type) :=
| Ok (a : A)
| Raise (e : exn).
Arguments Ok {A} a.
Arguments Raise {A} e.

Definition res_bind {A B} (r : res A) (k : A -> res B) : res B :=
  match r with Ok a => k a | Raise e => Raise e end.

(** [int(s)], raising [ValueError] as Python words it. *)
Definition py_int (s : string) : res Z :=
  match Py.int s with
  | Some z => Ok z
  | None =>
      Raise (Exn ValueError
               ("invalid literal for int() with base 10: " +:+ Py.repr s))
  end.

(* ===================================================================== *)
(** * Data model                                                          *)
(* ===================================================================== *)

(** [ad_sync_status]: the three keys of the selection field. *)
Inductive sync_status := pending | success | error.

(** One chatter message, as [message_post] receives it. *)
Record mail_message := {
  body : string;
  body_is_markup : bool;
  message_type : string;
  subtype_xmlid : string
}.

(** The [hr.employee] fields the module reads and writes. *)
Record hr_employee := {
  emp_id : Z;
  name : option string;
  work_email : option string;
  work_phone : option string;
  ad_username : option string;
  ad_sync_status : sync_status;
  message_ids : list mail_message
}.

(** The dictionary that [_get_ad_config] returns. *)
Record ad_config := {
  ad_server : string;
  domain : string;
  admin_user : string;
  admin_password : string;
  base_dn : string;
  users_ou : string;
  ldap_secure : string;
  ldaps_port : Z;
  ldaps_validate_cert : bool;
  connect_timeout : Z;
  default_groups : list string
}.

(* ===================================================================== *)
(** * Configuration                                                       *)
(* ===================================================================== *)

(** [IrConfig.get_param(key)] of Odoo: the stored value, or [False] when
    the key is absent or its value is empty. *)
Definition get_param (p : gmap string string) (key : string) : option string :=
  match p !! key with
  | Some v => if Py.nonempty v then Some v else None
  | None => None
  end.

(** [IrConfig.get_param(key, d)] *)
Definition get_param_d (p : gmap string string) (key d : string) : string :=
  default d (get_param p key).

Definition dc_of_domain (dom : string) : string :=
  Py.join "," (map (fun part => "DC=" +:+ part) (Py.split "." dom)).

(** The segments of an OU path: split on the slash, trimmed, empty ones
    dropped. *)
Definition ou_parts (ou_path : string) : list string :=
  map Py.strip (filter (fun p => Py.nonempty (Py.strip p) = true) (Py.split "/" ou_path)).

Definition resolve_users_ou (p : gmap string string) (base : string) : string :=
  match get_param p "employee_onboarding.users_ou" with
  | Some ou => ou
  | None =>
      let ou_path :=
        Py.strip (Py.or_empty (get_param p "employee_onboarding.ou_path")) in
      if Py.nonempty ou_path then
        Py.join "," (map (fun s => "OU=" +:+ s) (rev (ou_parts ou_path)))
          +:+ "," +:+ base
      else "CN=Users," +:+ base
  end.

Definition parse_groups (s : string) : list string :=
  map Py.strip (filter (fun g => Py.nonempty (Py.strip g) = true) (Py.split "," s)).

Definition is_yes (s : string) : bool :=
  bool_decide (s = "true") || bool_decide (s = "1") || bool_decide (s = "yes").

Definition _get_ad_config (p : gmap string string) : res ad_config :=
  let domain := get_param_d p "employee_onboarding.domain" "employee.local" in
  let admin_login := get_param_d p "employee_onboarding.admin_user" "administrator" in
  let admin_user :=
    if Py.contains "@" admin_login then admin_login
    else admin_login +:+ "@" +:+ domain in
  let base_dn := dc_of_domain domain in
  let users_ou := resolve_users_ou p base_dn in
  res_bind (py_int (get_param_d p "employee_onboarding.ldaps_port" "636")) (fun port =>
  res_bind (py_int (get_param_d p "employee_onboarding.ldap_connect_timeout" "10")) (fun tmo =>
  Ok {| ad_server := get_param_d p "employee_onboarding.ad_server" "172.16.27.140";
        domain := domain;
        admin_user := admin_user;
        admin_password := get_param_d p "employee_onboarding.admin_password" "";
        base_dn := base_dn;
        users_ou := users_ou;
        ldap_secure := Py.lower (get_param_d p "employee_onboarding.ldap_secure" "ldaps");
        ldaps_port := port;
        ldaps_validate_cert :=
          is_yes (Py.lower (get_param_d p "employee_onboarding.ldaps_validate_cert" "false"));
        connect_timeout := tmo;
        default_groups :=
          parse_groups
            (Py.or_else (get_param p "employee_onboarding.default_groups") "ABC") |})).

(** The account login: [email.split('@')[0].lower().replace('.', '')]. *)
Definition login_of_email (email : string) : string :=
  Py.replace "." "" (Py.lower (hd "" (Py.split "@" email))).

(* ===================================================================== *)
(** * DN and filter escaping                                              *)
(* ===================================================================== *)

(** The characters [_ldap_escape_dn] prefixes with a backslash. *)
Definition dn_special : string :=
  String "\" (String "," (String "#" (String "+" (String ";"
    (String Py.dquote (String "<" (String ">" (String "=" "")))))))).

Fixpoint escape_dn_chars (s : string) : string :=
  match s with
  | "" => ""
  | String c s' =>
      if Py.contains c dn_special then String "\" (String c (escape_dn_chars s'))
      else String c (escape_dn_chars s')
  end.

Definition _ldap_escape_dn (s : string) : string :=
  if Py.nonempty s then escape_dn_chars s else s.

Definition _ldap_escape_filter (s : string) : string :=
  if Py.nonempty s then
    Py.replace "000" "\00"
      (Py.replace ")" "\29"
        (Py.replace "(" "\28"
          (Py.replace "*" "\2a"
            (Py.replace "\" "\5c" s))))
  else s.

(* ===================================================================== *)
(** * The random source and the password generator                        *)
(* ===================================================================== *)

(** The random source is a stream of raw draws; [randbelow n] reduces the
    next one into [0, n). *)
Definition rng := nat -> nat.

Definition Rand (A : Type) := rng -> A * rng.

Definition rand_ret {A} (a : A) : Rand A := fun r => (a, r).

Definition rand_bind {A B} (m : Rand A) (k : A -> Rand B) : Rand B :=
  fun r => let '(a, r') := m r in k a r'.

Notation "x <~ m ;; k" := (rand_bind m (fun x => k))
  (at level 100, m at next level, right associativity).

Definition randbelow (n : nat) : Rand nat :=
  fun r => ((r 0 mod n)%nat, fun k => r (S k)).

(** [random.choice(seq)] *)
Definition choice (seq : list ascii) : Rand ascii :=
  i <~ randbelow (length seq) ;; rand_ret (nth i seq "000"%char).

(** [random.randint(a, b)] *)
Definition randint (a b : nat) : Rand nat :=
  i <~ randbelow (b - a + 1) ;; rand_ret (a + i)%nat.

(** [random.choices(population, k=k)] *)
Fixpoint choices (population : list ascii) (k : nat) : Rand (list ascii) :=
  match k with
  | O => rand_ret []
  | S k' =>
      c <~ choice population ;;
      cs <~ choices population k' ;;
      rand_ret (c :: cs)
  end.

(** [x[i], x[j] = x[j], x[i]] *)
Definition swap (x : list ascii) (i j : nat) : list ascii :=
  match x !! i, x !! j with
  | Some a, Some b => <[i := b]> (<[j := a]> x)
  | _, _ => x
  end.

(** The loop of [random.shuffle]: [for i in reversed(range(1, len(x)))]
    with [j = randbelow(i + 1)]. *)
Fixpoint shuffle_from (i : nat) (x : list ascii) : Rand (list ascii) :=
  match i with
  | O => rand_ret x
  | S i' => j <~ randbelow (i + 1) ;; shuffle_from i' (swap x i j)
  end.

Definition shuffle (x : list ascii) : Rand (list ascii) :=
  shuffle_from (length x - 1) x.

Definition ascii_uppercase : list ascii := list_ascii_of_string "ABCDEFGHIJKLMNOPQRSTUVWXYZ".
Definition ascii_lowercase : list ascii := list_ascii_of_string "abcdefghijklmnopqrstuvwxyz".
Definition py_digits : list ascii := list_ascii_of_string "0123456789".
Definition symbols : list ascii := list_ascii_of_string "!@#$%".
(** [string.ascii_letters] is the lowercase letters, then the capitals. *)
Definition ascii_letters : list ascii := ascii_lowercase ++ ascii_uppercase.

Definition generate_password_chars : Rand (list ascii) :=
  let chars := ascii_letters ++ py_digits ++ symbols in
  u <~ choice ascii_uppercase ;;
  l <~ choice ascii_lowercase ;;
  d <~ choice py_digits ;;
  s <~ choice symbols ;;
  k <~ randint 8 12 ;;
  more <~ choices chars k ;;
  shuffle ([u; l; d; s] ++ more).

Definition _generate_ad_password : Rand string :=
  pwd <~ generate_password_chars ;; rand_ret (string_of_list_ascii pwd).

(* ===================================================================== *)
(** * The directory session                                               *)
(* ===================================================================== *)

Inductive attr_value := Text (s : string) | Bytes (s : string) | Int (z : Z).

Inductive mod_op := MODIFY_ADD | MODIFY_REPLACE.

(** The arguments of [Server(...)]; [srv_tls] is the certificate
    validation flag of the [Tls] object when one is passed. *)
Record server := {
  srv_host : string;
  srv_port : Z;
  srv_use_ssl : bool;
  srv_tls : option bool;
  srv_connect_timeout : Z
}.

(** The calls the orchestrator makes on the connection (and the external
    [net user] command), with their arguments. *)
Inductive call :=
| CallConnection (srv : server) (user password : string) (auto_bind : bool)
| CallOpen
| CallStartTls (validate : bool)
| CallBind
| CallSearch (search_base search_filter : string) (attributes : list string)
| CallAdd (dn : string) (object_class : list string)
          (attributes : list (string * string))
| CallModify (dn : string) (changes : list (string * (mod_op * list attr_value)))
| CallNetUser (argv : list string) (timeout : Z)
| CallUnbind.

(** [conn.result]: the two keys the code reads, and the dictionary
    printed by [%s]. *)
Record ldap_result := {
  description : option string;
  result_code : option Z;
  shown : string
}.

Definition is_success (r : ldap_result) : bool :=
  bool_decide (description r = Some "success").

(** One entry of [conn.entries]: what reading each requested attribute
    gives ([_ldap_attr_value], and [int(...)] over it for the account
    control), a value or the exception raised. *)
Record ldap_entry := {
  distinguishedName : res string;
  userAccountControl : res Z
}.

(** The directory server (and the host's [net] command) as seen during
    one attempt: the answer to each step of the pipeline.  The group
    steps are indexed by the position of the group in [default_groups]. *)
Record directory := {
  on_connect : res unit;
  on_open : res unit;
  on_start_tls : res bool;
  on_bind : res bool;
  on_search_existing : res (list ldap_entry);
  on_add : res ldap_result;
  on_set_password : res ldap_result;
  on_net_user : res unit;
  on_enable : res ldap_result;
  on_verify : res (list ldap_entry);
  on_group_search : nat -> res (list ldap_entry);
  on_group_modify : nat -> res ldap_result
}.

Inductive log_level := INFO | WARNING | EXCEPTION.

(** The state of one attempt: the calls made so far, the log records,
    and the connection ([None] while [conn is None], else its [bound]
    flag). *)
Record session := {
  calls : list call;
  logs : list (log_level * string);
  conn : option bool
}.

Definition no_session : session := {| calls := []; logs := []; conn := None |}.

Definition Sess (A : Type) := session -> res A * session.

Definition ret {A} (a : A) : Sess A := fun s => (Ok a, s).

Definition bind {A B} (m : Sess A) (k : A -> Sess B) : Sess B :=
  fun s => match m s with
           | (Ok a, s') => k a s'
           | (Raise e, s') => (Raise e, s')
           end.

Notation "x <- m ;; k" := (bind m (fun x => k))
  (at level 100, m at next level, right associativity).
Notation "m ;;; k" := (bind m (fun _ => k))
  (at level 100, right associativity).

(** [try: m except Exception as e: h e] *)
Definition catch {A} (m : Sess A) (h : exn -> Sess A) : Sess A :=
  fun s => match m s with
           | (Ok a, s') => (Ok a, s')
           | (Raise e, s') => h e s'
           end.

Definition lift {A} (r : res A) : Sess A := fun s => (r, s).

Definition record_call (c : call) : Sess unit :=
  fun s => (Ok tt, {| calls := calls s ++ [c]; logs := logs s; conn := conn s |}).

Definition log (lvl : log_level) (msg : string) : Sess unit :=
  fun s => (Ok tt, {| calls := calls s; logs := logs s ++ [(lvl, msg)]; conn := conn s |}).

Definition set_conn (c : option bool) : Sess unit :=
  fun s => (Ok tt, {| calls := calls s; logs := logs s; conn := c |}).

(** One call on the connection: recorded, then answered. *)
Definition invoke {A} (c : call) (answer : res A) : Sess A :=
  record_call c ;;; lift answer.

Definition string_of_Z (z : Z) : string :=
  DecimalString.NilZero.string_of_int (Z.to_int z).

(* ===================================================================== *)
(** * [_create_ad_user_ldap]                                              *)
(* ===================================================================== *)

(** What is fixed for the process: the configuration parameters, whether
    [ldap3] could be imported, [sys.platform], and whether the
    credentials mail template exists. *)
Record environment := {
  params : gmap string string;
  ldap3_available : bool;
  platform : string;
  mail_template : bool
}.

(** The triple [(ad_username, error_message, initial_password)]. *)
Definition outcome := (option string * option string * option string)%type.

Definition failed (msg : string) : outcome := (None, Some msg, None).

Definition created (login password : string) : outcome :=
  (Some login, None, Some password).

(** The data derived from the employee before the connection is made
    ([login] is the local variable [ad_username]). *)
Record account_request := {
  first_name : string;
  last_name : string;
  email : string;
  login : string;
  upn : string;
  display_name : string;
  user_dn : string;
  search_filter : string;
  password : string
}.

Definition derive_request (cfg : ad_config) (self : hr_employee) (r : rng)
  : res (outcome + account_request) :=
  let name_parts := Py.split_ws_1 (Py.strip (Py.or_empty (name self))) in
  let first := match name_parts with f :: _ => f | [] => "User" end in
  res_bind
    (match name_parts with
     | _ :: l :: _ => Ok l
     | [f] => Ok (if Py.nonempty f then f else "Unknown")
     | [] => Raise (Exn IndexError "list index out of range")
     end)
    (fun last =>
       let email := Py.strip (Py.or_empty (work_email self)) in
       if negb (Py.nonempty email) then
         Ok (inl (failed "Work email is required for AD account."))
       else
         let ad_username := login_of_email email in
         let display := first +:+ " " +:+ last in
         Ok (inr {| first_name := first;
                    last_name := last;
                    email := email;
                    login := ad_username;
                    upn := ad_username +:+ "@" +:+ domain cfg;
                    display_name := display;
                    user_dn := "CN=" +:+ _ldap_escape_dn display +:+ "," +:+ users_ou cfg;
                    search_filter :=
                      "(sAMAccountName=" +:+ _ldap_escape_filter ad_username +:+ ")";
                    password := fst (_generate_ad_password r) |})).

(** The [Server(...)] of the TLS mode. *)
Definition make_server (cfg : ad_config) : server :=
  if bool_decide (ldap_secure cfg = "ldaps") then
    {| srv_host := ad_server cfg; srv_port := ldaps_port cfg;
       srv_use_ssl := true; srv_tls := Some (ldaps_validate_cert cfg);
       srv_connect_timeout := connect_timeout cfg |}
  else
    {| srv_host := ad_server cfg; srv_port := 389;
       srv_use_ssl := false; srv_tls := None;
       srv_connect_timeout := connect_timeout cfg |}.

Definition is_starttls (cfg : ad_config) : bool :=
  bool_decide (ldap_secure cfg = "starttls").

(** The message of a password write refused on a plaintext channel. *)
Definition plaintext_channel_message : string :=
  "AD refused password set over LDAP. Enable LDAPS/StartTLS on the DC.".

Section Attempt.

Variable env : environment.
Variable d : directory.
Variable self : hr_employee.
Variable cfg : ad_config.
Variable req : account_request.

(** A step of the pipeline either returns from the function
    ([Some] outcome) or falls through to the next one. *)
Definition and_then (st : Sess (option outcome)) (k : Sess outcome) : Sess outcome :=
  o <- st ;; match o with Some r => ret r | None => k end.

(** [Connection(...)], and for STARTTLS [open], [start_tls], [bind]. *)
Definition connect : Sess unit :=
  let auto_bind := negb (is_starttls cfg) in
  record_call (CallConnection (make_server cfg) (admin_user cfg)
                 (admin_password cfg) auto_bind) ;;;
  _ <- lift (on_connect d) ;;
  set_conn (Some auto_bind) ;;;
  if is_starttls cfg then
    invoke CallOpen (on_open d) ;;;
    _ <- invoke (CallStartTls (ldaps_validate_cert cfg)) (on_start_tls d) ;;
    bound <- invoke CallBind (on_bind d) ;;
    set_conn (Some bound)
  else ret tt.

(** Check if user already exists *)
Definition check_existing : Sess (option outcome) :=
  entries <- invoke (CallSearch (users_ou cfg) (search_filter req)
                       ["distinguishedName"]) (on_search_existing d) ;;
  match entries with
  | e :: _ =>
      existing_dn <- lift (distinguishedName e) ;;
      ret (Some (failed ("User already exists: " +:+ existing_dn)))
  | [] => ret None
  end.

(** The [conn.add(...)] request. *)
Definition add_request : call :=
  CallAdd (user_dn req)
    ["top"; "person"; "organizationalPerson"; "user"]
    [("givenName", first_name req);
     ("sn", last_name req);
     ("displayName", display_name req);
     ("sAMAccountName", login req);
     ("userPrincipalName", upn req);
     ("mail", email req);
     ("telephoneNumber", Py.or_else (work_phone self) "")].

(** Create user *)
Definition create_user : Sess (option outcome) :=
  r <- invoke add_request (on_add d) ;;
  if is_success r then ret None
  else ret (Some (failed ("Create user failed: " +:+ shown r))).

(** The three exceptions of [subprocess.run] that the fallback handles. *)
Definition fallback_handled (c : exn_class) : bool :=
  match c with
  | CalledProcessError | FileNotFoundError | TimeoutExpired => true
  | _ => false
  end.

(** Set password, with the [net user] fallback on Windows *)
Definition set_password : Sess (option outcome) :=
  let quoted := String Py.dquote (password req +:+ Py.str1 Py.dquote) in
  r <- invoke (CallModify (user_dn req)
                 [("unicodePwd", (MODIFY_REPLACE, [Bytes (Py.utf16le quoted)]))])
         (on_set_password d) ;;
  if is_success r then ret None
  else if bool_decide (result_code r = Some 53)
          && bool_decide (platform env = "win32") then
    catch
      (invoke (CallNetUser ["net"; "user"; login req; password req; "/domain"] 15)
         (on_net_user d) ;;;
       ret None)
      (fun e =>
         if fallback_handled (exn_cls e) then
           ret (Some (failed plaintext_channel_message))
         else lift (Raise e))
  else ret (Some (failed ("Set password failed: " +:+ shown r))).

(** Enable account (userAccountControl = 512 = normal user) *)
Definition enable_account : Sess (option outcome) :=
  r <- invoke (CallModify (user_dn req)
                 [("userAccountControl", (MODIFY_REPLACE, [Int 512]))])
         (on_enable d) ;;
  if is_success r then ret None
  else ret (Some (failed ("Enable account failed: " +:+ shown r))).

(** Verify user is enabled *)
Definition verify_enabled : Sess (option outcome) :=
  entries <- invoke (CallSearch (user_dn req) "(objectClass=user)"
                       ["userAccountControl"]) (on_verify d) ;;
  match entries with
  | e :: _ =>
      uac <- lift (userAccountControl e) ;;
      if negb (Z.land uac 2 =? 0) then
        ret (Some (failed ("User created but still disabled (userAccountControl="
                             +:+ string_of_Z uac +:+ ")")))
      else ret None
  | [] => ret (Some (failed "Could not verify user after creation."))
  end.

(** [_find_ad_group_dn] for the group at position [i]. *)
Definition _find_ad_group_dn (i : nat) (group_name : string) : Sess (option string) :=
  let escaped := _ldap_escape_filter group_name in
  entries <- invoke (CallSearch (base_dn cfg)
                       ("(|(sAMAccountName=" +:+ escaped +:+ ")(cn=" +:+ escaped +:+ "))")
                       ["distinguishedName"]) (on_group_search d i) ;;
  match entries with
  | e :: _ => dn <- lift (distinguishedName e) ;; ret (Some dn)
  | [] => ret None
  end.

(** The body of the loop over the default groups, with its own
    [try ... except Exception]. *)
Definition add_to_group (i : nat) (group_name : string) : Sess unit :=
  catch
    (group_dn <- _find_ad_group_dn i group_name ;;
     if Py.truthy group_dn then
       r <- invoke (CallModify (Py.or_empty group_dn)
                      [("member", (MODIFY_ADD, [Text (user_dn req)]))])
              (on_group_modify d i) ;;
       if is_success r then
         log INFO ("Added AD user '" +:+ login req +:+ "' to group '"
                     +:+ group_name +:+ "'")
       else
         log WARNING ("Could not add AD user '" +:+ login req +:+ "' to group '"
                        +:+ group_name +:+ "': " +:+ shown r)
     else
       log WARNING ("AD group '" +:+ group_name +:+ "' not found, skipping"))
    (fun e =>
       log WARNING ("Failed to add AD user '" +:+ login req +:+ "' to group '"
                      +:+ group_name +:+ "': " +:+ exn_str e)).

Fixpoint add_to_groups (i : nat) (groups : list string) : Sess unit :=
  match groups with
  | [] => ret tt
  | g :: gs => add_to_group i g ;;; add_to_groups (S i) gs
  end.

(** The pipeline once the connection is made. *)
Definition provision : Sess outcome :=
  and_then check_existing (
  and_then create_user (
  and_then set_password (
  and_then enable_account (
  and_then verify_enabled (
    add_to_groups 0 (default_groups cfg) ;;;
    log INFO ("AD user '" +:+ login req +:+ "' created and enabled for employee "
                +:+ string_of_Z (emp_id self)) ;;;
    ret (created (login req) (password req))))))).

(** The body of the [try]. *)
Definition try_body : Sess outcome := connect ;;; provision.

(** The two [except] clauses: both return [(None, str(e), None)]. *)
Definition on_exception (e : exn) : Sess outcome :=
  log EXCEPTION
    ((if match exn_cls e with LDAPException => true | _ => false end
      then "LDAP error for employee " else "AD creation error for employee ")
       +:+ string_of_Z (emp_id self) +:+ ": " +:+ exn_str e) ;;;
  ret (failed (exn_str e)).

(** [finally: if conn is not None and conn.bound: conn.unbind()] *)
Definition finally_unbind (s : session) : session :=
  match conn s with
  | Some true =>
      {| calls := calls s ++ [CallUnbind]; logs := logs s; conn := Some false |}
  | _ => s
  end.

Definition ldap_session : res outcome * session :=
  let '(r, s) := catch try_body on_exception no_session in
  (r, finally_unbind s).

End Attempt.

Definition _create_ad_user_ldap (env : environment) (d : directory) (r : rng)
    (self : hr_employee) : res outcome * session :=
  if negb (ldap3_available env) then
    (Ok (failed "Module 'ldap3' is not installed. Install it with: pip install ldap3"),
     no_session)
  else
    match _get_ad_config (params env) with
    | Raise e => (Raise e, no_session)
    | Ok cfg =>
        if negb (Py.nonempty (admin_password cfg)) then
          (Ok (failed "AD admin password not configured (employee_onboarding.admin_password)."),
           no_session)
        else if negb (Py.nonempty (ad_server cfg)) || negb (Py.nonempty (domain cfg)) then
          (Ok (failed "AD server and domain must be set (employee_onboarding.ad_server, .domain)."),
           no_session)
        else
          match derive_request cfg self r with
          | Raise e => (Raise e, no_session)
          | Ok (inl early) => (Ok early, no_session)
          | Ok (inr req) => ldap_session env d self cfg req
          end
    end.

(* ===================================================================== *)
(** * Reporting: employee record, credentials mail, chatter               *)
(* ===================================================================== *)

(** A credentials mail handed to the mail gateway: the record it is
    rendered for, the recipient, and the password in the template's
    context.  Mails are kept apart from the chatter. *)
Record mail_mail := {
  mail_res_id : Z;
  email_to : string;
  ad_initial_password : string
}.

(** The records one attempt writes: the employee and the mails sent. *)
Record store := {
  employee : hr_employee;
  outbox : list mail_mail
}.

(** What one attempt meets: the directory, the random draws, and the
    answer of the mail gateway to [send_mail]. *)
Record attempt := {
  dir : directory;
  draws : rng;
  gateway : res unit
}.

Definition _validate_employee_for_ad (self : hr_employee) : option string :=
  if negb (Py.truthy (work_email self)) then
    Some "Work email is required to create an Active Directory account."
  else if negb (Py.truthy (name self)) then
    Some "Employee name is required."
  else None.

(** [employee.sudo().write({'ad_sync_status': st})] *)
Definition write_status (st : sync_status) (e : hr_employee) : hr_employee :=
  {| emp_id := emp_id e; name := name e; work_email := work_email e;
     work_phone := work_phone e; ad_username := ad_username e;
     ad_sync_status := st; message_ids := message_ids e |}.

Definition _update_employee_after_ad_creation (login : option string)
    (e : hr_employee) : hr_employee :=
  {| emp_id := emp_id e; name := name e; work_email := work_email e;
     work_phone := work_phone e;
     ad_username := if Py.truthy login then login else ad_username e;
     ad_sync_status := success; message_ids := message_ids e |}.

(** [super().message_post(body=..., message_type=..., subtype_xmlid=...)]:
    the message joins the chatter of the record, newest first. *)
Definition post (m : mail_message) (e : hr_employee) : hr_employee :=
  {| emp_id := emp_id e; name := name e; work_email := work_email e;
     work_phone := work_phone e; ad_username := ad_username e;
     ad_sync_status := ad_sync_status e; message_ids := m :: message_ids e |}.

(** Modelled from the spec: the mail template
    [employee_onboarding.mail_template_ad_credentials] and the effect of
    [template.send_mail] on it, which are not among the sources.  The
    mail carries the password of the template context to the work email
    and is not linked to the employee: it joins the mails sent, never
    the chatter (the test [test_ad_email_not_in_chatter] of the module
    asserts it).  [gw] is the answer of the mail gateway. *)
Definition send_mail (gw : res unit) (res_id : Z) (to initial_password : string)
    (out : list mail_mail) : res (list mail_mail) :=
  match gw with
  | Ok _ =>
      Ok (out ++ [{| mail_res_id := res_id; email_to := to;
                     ad_initial_password := initial_password |}])
  | Raise e => Raise e
  end.

Section Reporting.

Variable env : environment.

(** Returns whether the mail went out, and the outbox after it. *)
Definition _send_ad_credentials_email (gw : res unit) (self : hr_employee)
    (login initial_password : string) (out : list mail_mail)
  : bool * list mail_mail :=
  if negb (Py.truthy (work_email self)) then (false, out)
  else if negb (mail_template env) then (false, out)
  else match send_mail gw (emp_id self) (Py.or_empty (work_email self))
               initial_password out with
       | Ok out' => (true, out')
       | Raise _ => (false, out)
       end.

Definition success_body (login : option string) (self : hr_employee) : string :=
  "Active Directory account created successfully.<br/>Username: <strong>"
    +:+ Py.or_else login "N/A"
    +:+ "</strong><br/>Credentials have been sent to the employee's email (<strong>"
    +:+ Py.or_else (work_email self) "N/A" +:+ "</strong>).".

Definition failure_body (message : option string) : string :=
  "Active Directory account creation failed: " +:+ Py.or_else message "Unknown error".

Definition _log_ad_onboarding_result (gw : res unit) (ok : bool)
    (message login initial_password : option string) (st : store) : store :=
  let self := employee st in
  if ok then
    let out :=
      if Py.truthy initial_password && Py.truthy login then
        snd (_send_ad_credentials_email gw self (Py.or_empty login)
               (Py.or_empty initial_password) (outbox st))
      else outbox st in
    {| employee :=
         post {| body := success_body login self; body_is_markup := true;
                 message_type := "notification"; subtype_xmlid := "mail.mt_note" |} self;
       outbox := out |}
  else
    {| employee :=
         post {| body := failure_body message; body_is_markup := false;
                 message_type := "notification"; subtype_xmlid := "mail.mt_note" |} self;
       outbox := outbox st |}.

Definition with_employee (f : hr_employee -> hr_employee) (st : store) : store :=
  {| employee := f (employee st); outbox := outbox st |}.

(** The body of the loop of [_onboarding_activity_create_ad_done] for
    one employee.  The only call of the [try] that can raise in this
    embedding is [_create_ad_user_ldap]. *)
Definition onboard (a : attempt) (st : store) : store :=
  match _validate_employee_for_ad (employee st) with
  | Some err => _log_ad_onboarding_result (gateway a) false (Some err) None None st
  | None =>
      match fst (_create_ad_user_ldap env (dir a) (draws a) (employee st)) with
      | Ok (login, err, initial_password) =>
          if Py.truthy err then
            _log_ad_onboarding_result (gateway a) false err None None
              (with_employee (write_status error) st)
          else
            _log_ad_onboarding_result (gateway a) true None login initial_password
              (with_employee (_update_employee_after_ad_creation login) st)
      | Raise e =>
          _log_ad_onboarding_result (gateway a) false (Some (exn_str e)) None None
            (with_employee (write_status error) st)
      end
  end.

(** [for employee in self]: the records of the set, each with what its
    attempt meets; the outbox is shared. *)
Fixpoint _onboarding_activity_create_ad_done
    (self : list (hr_employee * attempt)) (out : list mail_mail)
  : list hr_employee * list mail_mail :=
  match self with
  | [] => ([], out)
  | (e, a) :: rest =>
      let st := onboard a {| employee := e; outbox := out |} in
      let '(es, out') := _onboarding_activity_create_ad_done rest (outbox st) in
      (employee st :: es, out')
  end.

(** The override of [message_post]: the message is posted by [super()],
    and when the keyword arguments name the "Create AD User" activity
    type ([create_ad_type] is what [env.ref] finds) the onboarding runs
    on the record.  [_log_ad_onboarding_result] passes no activity type,
    so that its own posts are [post]. *)
Definition message_post (create_ad_type mail_activity_type_id : option Z)
    (m : mail_message) (a : attempt) (st : store) : store :=
  let st1 := with_employee (post m) st in
  match mail_activity_type_id, create_ad_type with
  | Some tid, Some t =>
      if negb (tid =? 0) && (tid =? t) then onboard a st1 else st1
  | _, _ => st1
  end.

End Reporting.

(** The entries an attempt added to the chatter of its employee. *)
Definition new_messages (before after : hr_employee) : list mail_message :=
  take (length (message_ids after) - length (message_ids before)) (message_ids after).


(* ===================================================================== *)
(** * Predicates of the statements                                       *)
(* ===================================================================== *)

(** A segment of an OU path as the administrator means it: not empty,
    without a slash, and without surrounding whitespace. *)
Definition clean_segment (s : string) : Prop :=
  Py.nonempty s = true /\ Py.contains "/" s = false /\ Py.strip s = s.

(** The character classes of a password, by code point, and the test
    that a string holds a character of a class. *)
Definition is_upper (c : ascii) : bool := let n := N_of_ascii c in ((65 <=? n) && (n <=? 90))%N.
Definition is_lower (c : ascii) : bool := let n := N_of_ascii c in ((97 <=? n) && (n <=? 122))%N.
Definition is_digit (c : ascii) : bool := let n := N_of_ascii c in ((48 <=? n) && (n <=? 57))%N.
Definition is_symbol (c : ascii) : bool := Py.contains c "!@#$%".
Definition has_class (p : ascii -> bool) (s : string) : bool := existsb p (list_ascii_of_string s).

(** The connection phase raises nothing: [Connection(...)] returns and,
    under STARTTLS, so do [open], [start_tls] and [bind]. *)
Definition connect_returns (cfg : ad_config) (d : directory) : bool :=
  match on_connect d with
  | Raise _ => false
  | Ok _ =>
      if is_starttls cfg then
        match on_open d, on_start_tls d, on_bind d with
        | Ok _, Ok _, Ok _ => true
        | _, _, _ => false
        end
      else true
  end.

(** The connection is bound when the attempt ends: [Connection(...)]
    returned and, under STARTTLS, [open] and [start_tls] returned and
    [bind] answered [True]. *)
Definition bound_at_exit (cfg : ad_config) (d : directory) : bool :=
  match on_connect d with
  | Raise _ => false
  | Ok _ =>
      if is_starttls cfg then
        match on_open d, on_start_tls d, on_bind d with
        | Ok _, Ok _, Ok b => b
        | _, _, _ => false
        end
      else true
  end.

Definition is_unbind (c : call) : bool :=
  match c with CallUnbind => true | _ => false end.

Definition is_add (c : call) : bool :=
  match c with CallAdd _ _ _ => true | _ => false end.

(** The search that resolves a default group. *)
Definition group_search (cfg : ad_config) (group_name : string) : call :=
  let escaped := _ldap_escape_filter group_name in
  CallSearch (base_dn cfg)
    ("(|(sAMAccountName=" +:+ escaped +:+ ")(cn=" +:+ escaped +:+ "))")
    ["distinguishedName"].

(** The value sent for an attribute of an add request, if it is sent. *)
Fixpoint lookup_attr (key : string) (attrs : list (string * string)) : option string :=
  match attrs with
  | [] => None
  | (k, v) :: rest => if String.eqb k key then Some v else lookup_attr key rest
  end.

(** An add request carries the telephone number of the employee, empty
    when there is none. *)
Definition carries_phone (self : hr_employee) (c : call) : Prop :=
  match c with
  | CallAdd _ _ attrs =>
      lookup_attr "telephoneNumber" attrs = Some (Py.or_else (work_phone self) "")
  | _ => True
  end.

(** Two directories that answer alike at every step but the group step. *)
Definition same_but_groups (d1 d2 : directory) : Prop :=
  on_connect d1 = on_connect d2 /\ on_open d1 = on_open d2 /\
  on_start_tls d1 = on_start_tls d2 /\ on_bind d1 = on_bind d2 /\
  on_search_existing d1 = on_search_existing d2 /\ on_add d1 = on_add d2 /\
  on_set_password d1 = on_set_password d2 /\ on_net_user d1 = on_net_user d2 /\
  on_enable d1 = on_enable d2 /\ on_verify d1 = on_verify d2.

(** The outcome of an attempt, the password left out. *)
Definition without_password (r : res outcome) : res (option string * option string) :=
  match r with
  | Ok (l, e, _) => Ok (l, e)
  | Raise x => Raise x
  end.

(* ===================================================================== *)
(** * Devices of the proofs                                              *)
(* ===================================================================== *)

(** A property of the session state that a computation keeps. *)
Definition preserves (P : session -> Prop) {A : Type} (m : Sess A) : Prop :=
  forall s, P s -> P (snd (m s)).

(** Every call made so far satisfies [g]. *)
Definition all_calls (g : call -> Prop) (s : session) : Prop :=
  Forall g (calls s).

(** Two computations whose results are related, whatever the states
    they start from. *)
Definition related {A : Type} (R : res A -> res A -> Prop) (m1 m2 : Sess A) : Prop :=
  forall s1 s2, R (fst (m1 s1)) (fst (m2 s2)).

(** What the [except] clauses of [_create_ad_user_ldap] make of the
    result of the body. *)
Definition handled (r : res outcome) : res outcome :=
  match r with
  | Ok o => Ok o
  | Raise x => Ok (failed (exn_str x))
  end.

(* ===================================================================== *)
(** * Sample inputs                                                      *)
(* ===================================================================== *)

(** The configuration when no parameter is stored. *)
Definition default_config : ad_config :=
  {| ad_server := "172.16.27.140"; domain := "employee.local";
     admin_user := "administrator@employee.local"; admin_password := "";
     base_dn := "DC=employee,DC=local";
     users_ou := "CN=Users,DC=employee,DC=local";
     ldap_secure := "ldaps"; ldaps_port := 636;
     ldaps_validate_cert := false; connect_timeout := 10;
     default_groups := ["ABC"] |}.

Definition c8_params : gmap string string :=
  <["employee_onboarding.ou_path" := "Employees/NewHires"]>
    (<["employee_onboarding.domain" := "corp.local"]> ∅).

Definition c8_config : ad_config :=
  {| ad_server := "172.16.27.140"; domain := "corp.local";
     admin_user := "administrator@corp.local"; admin_password := "";
     base_dn := "DC=corp,DC=local";
     users_ou := "OU=NewHires,OU=Employees,DC=corp,DC=local";
     ldap_secure := "ldaps"; ldaps_port := 636;
     ldaps_validate_cert := false; connect_timeout := 10;
     default_groups := ["ABC"] |}.

(** A TLS mode that neither the code nor its documentation names. *)
Definition unrecognized_mode_params : gmap string string :=
  {[ "employee_onboarding.ldap_secure" := "bogus" ]}.

(** No TLS mode, and the global-catalog LDAPS port. *)
Definition other_port_params : gmap string string :=
  {[ "employee_onboarding.ldaps_port" := "3269" ]}.

Definition linux_env : environment :=
  {| params := {[ "employee_onboarding.admin_password" := "s3cret" ]};
     ldap3_available := true; platform := "linux"; mail_template := true |}.

Definition windows_env : environment :=
  {| params := {[ "employee_onboarding.admin_password" := "s3cret" ]};
     ldap3_available := true; platform := "win32"; mail_template := true |}.

Definition starttls_env : environment :=
  {| params := <[ "employee_onboarding.ldap_secure" := "starttls" ]>
                 {[ "employee_onboarding.admin_password" := "s3cret" ]};
     ldap3_available := true; platform := "linux"; mail_template := true |}.

(** Three default groups: the first is not found, the search for the
    second raises, and the modify of the third is rejected. *)
Definition groups_env : environment :=
  {| params := <[ "employee_onboarding.default_groups" := "Staff, VPN ,Printers" ]>
                 {[ "employee_onboarding.admin_password" := "s3cret" ]};
     ldap3_available := true; platform := "linux"; mail_template := true |}.

(** The configuration of [linux_env] and of [windows_env]. *)
Definition sample_config : ad_config :=
  {| ad_server := "172.16.27.140"; domain := "employee.local";
     admin_user := "administrator@employee.local"; admin_password := "s3cret";
     base_dn := "DC=employee,DC=local";
     users_ou := "CN=Users,DC=employee,DC=local";
     ldap_secure := "ldaps"; ldaps_port := 636;
     ldaps_validate_cert := false; connect_timeout := 10;
     default_groups := ["ABC"] |}.

(** The configuration of [starttls_env]. *)
Definition starttls_config : ad_config :=
  {| ad_server := "172.16.27.140"; domain := "employee.local";
     admin_user := "administrator@employee.local"; admin_password := "s3cret";
     base_dn := "DC=employee,DC=local";
     users_ou := "CN=Users,DC=employee,DC=local";
     ldap_secure := "starttls"; ldaps_port := 636;
     ldaps_validate_cert := false; connect_timeout := 10;
     default_groups := ["ABC"] |}.

Definition groups_config : ad_config :=
  {| ad_server := "172.16.27.140"; domain := "employee.local";
     admin_user := "administrator@employee.local"; admin_password := "s3cret";
     base_dn := "DC=employee,DC=local";
     users_ou := "CN=Users,DC=employee,DC=local";
     ldap_secure := "ldaps"; ldaps_port := 636;
     ldaps_validate_cert := false; connect_timeout := 10;
     default_groups := ["Staff"; "VPN"; "Printers"] |}.

Definition john : hr_employee :=
  {| emp_id := 7; name := Some "John Doe";
     work_email := Some "john.doe@corp.com"; work_phone := None;
     ad_username := None; ad_sync_status := pending; message_ids := [] |}.

(** An employee without a work email. *)
Definition jane : hr_employee :=
  {| emp_id := 8; name := Some "Jane Roe"; work_email := None;
     work_phone := None; ad_username := None; ad_sync_status := pending;
     message_ids := [] |}.

Definition sample_draws : rng := fun n => (7 * n + 3)%nat.

Definition success_result : ldap_result :=
  {| description := Some "success"; result_code := Some 0;
     shown := "{'result': 0, 'description': 'success'}" |}.

(** The answer of a domain controller that refuses a password write on
    a channel without encryption. *)
Definition unwilling_result : ldap_result :=
  {| description := Some "unwillingToPerform"; result_code := Some 53;
     shown := "{'result': 53, 'description': 'unwillingToPerform'}" |}.

Definition rejected_result : ldap_result :=
  {| description := Some "insufficientAccessRights"; result_code := Some 50;
     shown := "{'result': 50, 'description': 'insufficientAccessRights'}" |}.

Definition entry_of (dn : string) (uac : Z) : ldap_entry :=
  {| distinguishedName := Ok dn; userAccountControl := Ok uac |}.

(** A directory on which every step succeeds and every group exists. *)
Definition willing_directory : directory :=
  {| on_connect := Ok tt; on_open := Ok tt; on_start_tls := Ok true;
     on_bind := Ok true; on_search_existing := Ok [];
     on_add := Ok success_result; on_set_password := Ok success_result;
     on_net_user := Ok tt; on_enable := Ok success_result;
     on_verify := Ok [entry_of "CN=John Doe,CN=Users,DC=employee,DC=local" 512];
     on_group_search := fun _ => Ok [entry_of "CN=ABC,DC=employee,DC=local" 0];
     on_group_modify := fun _ => Ok success_result |}.

(** The account is already there. *)
Definition existing_directory : directory :=
  {| on_connect := Ok tt; on_open := Ok tt; on_start_tls := Ok true;
     on_bind := Ok true;
     on_search_existing :=
       Ok [entry_of "CN=John Doe,OU=Staff,DC=employee,DC=local" 512;
           entry_of "CN=John Doe,CN=Users,DC=employee,DC=local" 514];
     on_add := Ok success_result; on_set_password := Ok success_result;
     on_net_user := Ok tt; on_enable := Ok success_result;
     on_verify := Ok [];
     on_group_search := fun _ => Ok [];
     on_group_modify := fun _ => Ok success_result |}.

(** The domain controller refuses the password write, on a host that is
    not Windows. *)
Definition refusing_directory : directory :=
  {| on_connect := Ok tt; on_open := Ok tt; on_start_tls := Ok true;
     on_bind := Ok true; on_search_existing := Ok [];
     on_add := Ok success_result; on_set_password := Ok unwilling_result;
     on_net_user := Raise (Exn FileNotFoundError "[Errno 2] No such file or directory: 'net'");
     on_enable := Ok success_result;
     on_verify := Ok [entry_of "CN=John Doe,CN=Users,DC=employee,DC=local" 512];
     on_group_search := fun _ => Ok [];
     on_group_modify := fun _ => Ok success_result |}.

(** The TLS upgrade fails after the connection was opened. *)
Definition failing_starttls_directory : directory :=
  {| on_connect := Ok tt; on_open := Ok tt;
     on_start_tls := Raise (Exn LDAPException "startTLS failed");
     on_bind := Ok true; on_search_existing := Ok [];
     on_add := Ok success_result; on_set_password := Ok success_result;
     on_net_user := Ok tt; on_enable := Ok success_result;
     on_verify := Ok [entry_of "CN=John Doe,CN=Users,DC=employee,DC=local" 512];
     on_group_search := fun _ => Ok [entry_of "CN=ABC,DC=employee,DC=local" 0];
     on_group_modify := fun _ => Ok success_result |}.

Definition failing_groups_directory : directory :=
  {| on_connect := Ok tt; on_open := Ok tt; on_start_tls := Ok true;
     on_bind := Ok true; on_search_existing := Ok [];
     on_add := Ok success_result; on_set_password := Ok success_result;
     on_net_user := Ok tt; on_enable := Ok success_result;
     on_verify := Ok [entry_of "CN=John Doe,CN=Users,DC=employee,DC=local" 512];
     on_group_search := fun i =>
       match i with
       | O => Ok []
       | S O => Raise (Exn LDAPException "socket receive error")
       | _ => Ok [entry_of "CN=Printers,DC=employee,DC=local" 0]
       end;
     on_group_modify := fun _ => Ok rejected_result |}.

(** The connection fails with an exception whose [str] is empty. *)
Definition silent_directory : directory :=
  {| on_connect := Raise (Exn OtherException "");
     on_open := Ok tt; on_start_tls := Ok true;
     on_bind := Ok true; on_search_existing := Ok [];
     on_add := Ok success_result; on_set_password := Ok success_result;
     on_net_user := Ok tt; on_enable := Ok success_result;
     on_verify := Ok [];
     on_group_search := fun _ => Ok [];
     on_group_modify := fun _ => Ok success_result |}.

Definition sample_attempt (d : directory) : attempt :=
  {| dir := d; draws := sample_draws; gateway := Ok tt |}.

(* ===================================================================== *)
(** * Reading escaped values back                                         *)
(* ===================================================================== *)

(** What [_ldap_escape_filter] makes of one character when the five
    replacements are taken as one substitution. *)
Definition filter_escape_char (c : ascii) : string :=
  if Ascii.eqb c "\" then "\5c"
  else if Ascii.eqb c "*" then "\2a"
  else if Ascii.eqb c "(" then "\28"
  else if Ascii.eqb c ")" then "\29"
  else if Ascii.eqb c "000" then "\00"
  else Py.str1 c.

(** The substitution applied to every character in one pass. *)
Fixpoint escape_filter_pass (s : string) : string :=
  match s with
  | "" => ""
  | String c s' => filter_escape_char c +:+ escape_filter_pass s'
  end.

(** The value of a hexadecimal digit. *)
Definition hex_value (c : ascii) : option N :=
  let n := N_of_ascii c in
  if ((48 <=? n) && (n <=? 57))%N then Some (n - 48)%N
  else if ((97 <=? n) && (n <=? 102))%N then Some (n - 87)%N
  else if ((65 <=? n) && (n <=? 70))%N then Some (n - 55)%N
  else None.

(** RFC 4515 reading of a filter value: a backslash and two hexadecimal
    digits stand for the character of that code. *)
Fixpoint unescape_filter (s : string) : string :=
  match s with
  | "" => ""
  | String c s1 =>
      if Ascii.eqb c "\" then
        match s1 with
        | String h1 (String h2 rest) =>
            match hex_value h1, hex_value h2 with
            | Some a, Some b => String (ascii_of_N (16 * a + b)) (unescape_filter rest)
            | _, _ => String c (unescape_filter s1)
            end
        | _ => String c (unescape_filter s1)
        end
      else String c (unescape_filter s1)
  end.

(** A filter value that cannot change the structure of the filter:
    every backslash opens a two-digit escape, and no asterisk,
    parenthesis or NUL stands unescaped. *)
Fixpoint filter_safe (s : string) : bool :=
  match s with
  | "" => true
  | String c s1 =>
      if Ascii.eqb c "\" then
        match s1 with
        | String h1 (String h2 rest) =>
            match hex_value h1, hex_value h2 with
            | Some _, Some _ => filter_safe rest
            | _, _ => false
            end
        | _ => false
        end
      else negb (Py.contains c (String "*" (String "(" (String ")" (String "000" "")))))
           && filter_safe s1
  end.

(** The five replacements of [_ldap_escape_filter], in their order. *)
Definition five_replacements (s : string) : string :=
    Py.replace "000" "\00"
      (Py.replace ")" "\29"
        (Py.replace "(" "\28"
          (Py.replace "*" "\2a"
            (Py.replace "\" "\5c" s)))).

(** RFC 4514 reading of an escaped value: a backslash makes the next
    character literal. *)
Fixpoint unescape_dn (s : string) : string :=
  match s with
  | "" => ""
  | String c s1 =>
      if Ascii.eqb c "\" then
        match s1 with
        | String c2 rest => String c2 (unescape_dn rest)
        | "" => String c ""
        end
      else String c (unescape_dn s1)
  end.

(** The first relative distinguished name of a DN: up to the first comma
    that no backslash escapes. *)
Fixpoint first_rdn (s : string) : string :=
  match s with
  | "" => ""
  | String c s1 =>
      if Ascii.eqb c "\" then
        match s1 with
        | String c2 rest => String c (String c2 (first_rdn rest))
        | "" => String c ""
        end
      else if Ascii.eqb c "," then ""
      else String c (first_rdn s1)
  end.


(** An employee whose name holds a comma, and the request derived for
    him under [sample_config]. *)
Definition comma_employee : hr_employee :=
  {| emp_id := 9; name := Some "Doe, John"; work_email := Some "j.doe@corp.com";
     work_phone := None; ad_username := None; ad_sync_status := pending;
     message_ids := [] |}.

Definition comma_request : account_request :=
  {| first_name := "Doe,"; last_name := "John"; email := "j.doe@corp.com";
     login := "jdoe"; upn := "jdoe@employee.local"; display_name := "Doe, John";
     user_dn := "CN=Doe\, John,CN=Users,DC=employee,DC=local";
     search_filter := "(sAMAccountName=jdoe)"; password := "kM0Bg7%u%7TDn" |}.

(* ===================================================================== *)
(** * The stages of the pipeline                                         *)
(* ===================================================================== *)

(** The attribute that a modify with one change is about. *)
Definition modified_attr (c : call) : option string :=
  match c with
  | CallModify _ [(a, _)] => Some a
  | _ => None
  end.

Definition is_net_user (c : call) : bool :=
  match c with CallNetUser _ _ => true | _ => false end.

(** The stages of the pipeline, each with the ones before it.  The
    existence search returned and found no entry. *)
Definition account_absent (d : directory) : Prop := on_search_existing d = Ok [].

(** ... and the add was accepted. *)
Definition account_added (d : directory) : Prop :=
  account_absent d /\ exists ra, on_add d = Ok ra /\ is_success ra = true.

(** On Windows, the password modify was refused with result code 53. *)
Definition refused_53 (env : environment) (d : directory) : Prop :=
  platform env = "win32" /\
  exists rp, on_set_password d = Ok rp /\ is_success rp = false /\ result_code rp = Some 53.

(** ... and the password was set, by the modify or by [net user]. *)
Definition password_was_set (env : environment) (d : directory) : Prop :=
  account_added d /\
  ((exists rp, on_set_password d = Ok rp /\ is_success rp = true) \/
   (refused_53 env d /\ exists u, on_net_user d = Ok u)).

(** ... and the enabling was accepted. *)
Definition account_enabled (env : environment) (d : directory) : Prop :=
  password_was_set env d /\ exists re, on_enable d = Ok re /\ is_success re = true.

(** ... and the entry was read back without the disabled bit. *)
Definition account_verified (env : environment) (d : directory) : Prop :=
  account_enabled env d /\
  exists e es uac, on_verify d = Ok (e :: es) /\ userAccountControl e = Ok uac /\
                   Z.land uac 2 = 0.

(** The guard of each kind of call: the stage that must have been
    reached for the call to be made. *)
Definition guarded (env : environment) (d : directory) (c : call) : Prop :=
  (is_add c = true -> account_absent d) /\
  (modified_attr c = Some "unicodePwd" -> account_added d) /\
  (is_net_user c = true -> account_added d /\ refused_53 env d) /\
  (modified_attr c = Some "userAccountControl" -> password_was_set env d) /\
  (modified_attr c = Some "member" -> account_verified env d).


Definition calls_guarded (env : environment) (d : directory) (s : session) : Prop :=
  Forall (guarded env d) (calls s).

(** What a step of the pipeline owes: under [Pre], it keeps the calls
    guarded, falls through only under [Post], and when it returns, it
    returns a failure. *)
Definition step_spec (env : environment) (d : directory) (Pre Post : Prop) (st : Sess (option outcome)) : Prop :=
  Pre -> forall s, calls_guarded env d s ->
    calls_guarded env d (snd (st s)) /\
    match fst (st s) with
    | Ok None => Post
    | Ok (Some o) => exists msg, o = failed msg
    | Raise _ => True
    end.

(** What the pipeline owes at its end: the login and the password only
    when the account was verified, else a failure. *)
Definition final (env : environment) (d : directory) (req : account_request)
    (r : res outcome) : Prop :=
  match r with
  | Ok o => (o = created (login req) (password req) /\ account_verified env d)
            \/ exists msg, o = failed msg
  | Raise _ => True
  end.

Definition tail_spec (env : environment) (d : directory) (req : account_request)
    (k : Sess outcome) : Prop :=
  forall s, calls_guarded env d s ->
    calls_guarded env d (snd (k s)) /\ final env d req (fst (k s)).


(* ===================================================================== *)
(** * What an attempt reports                                             *)
(* ===================================================================== *)

(** The mail that carries the password [pw] to the employee [e]. *)
Definition credentials_mail (e : hr_employee) (pw : string) : mail_mail :=
  {| mail_res_id := emp_id e; email_to := Py.or_empty (work_email e);
     ad_initial_password := pw |}.

(** The chatter entry of a failure with a text that is not empty. *)
Definition failure_message (text : string) : mail_message :=
  {| body := "Active Directory account creation failed: " +:+ text;
     body_is_markup := false; message_type := "notification";
     subtype_xmlid := "mail.mt_note" |}.

(** The chatter entry of a success. *)
Definition success_message (login : option string) (e : hr_employee) : mail_message :=
  {| body := success_body login e; body_is_markup := true;
     message_type := "notification"; subtype_xmlid := "mail.mt_note" |}.

(** The attempt gets past the checks of the configuration: [ldap3] is
    installed, the parameters are read as [cfg], and an administrator
    password is set. *)
Definition configured (env : environment) (cfg : ad_config) : Prop :=
  ldap3_available env = true /\ _get_ad_config (params env) = Ok cfg /\
  Py.nonempty (admin_password cfg) = true.

(** A group name as the administrator means it: not empty, without a
    comma, and without surrounding whitespace. *)
Definition clean_group (g : string) : Prop :=
  Py.nonempty g = true /\ Py.contains "," g = false /\ Py.strip g = g.

(** The environment with another answer of [env.ref] for the mail
    template, and the attempt with another answer of the mail gateway. *)
Definition with_mail_template (env : environment) (found : bool) : environment :=
  {| params := params env; ldap3_available := ldap3_available env;
     platform := platform env; mail_template := found |}.

Definition with_gateway (a : attempt) (gw : res unit) : attempt :=
  {| dir := dir a; draws := draws a; gateway := gw |}.

(** The directory with another answer of [conn.start_tls], and with
    another answer of [conn.bind]. *)
Definition with_start_tls (d : directory) (answer : res bool) : directory :=
  {| on_connect := on_connect d; on_open := on_open d; on_start_tls := answer;
     on_bind := on_bind d; on_search_existing := on_search_existing d;
     on_add := on_add d; on_set_password := on_set_password d;
     on_net_user := on_net_user d; on_enable := on_enable d;
     on_verify := on_verify d; on_group_search := on_group_search d;
     on_group_modify := on_group_modify d |}.

Definition with_bind (d : directory) (answer : res bool) : directory :=
  {| on_connect := on_connect d; on_open := on_open d; on_start_tls := on_start_tls d;
     on_bind := answer; on_search_existing := on_search_existing d;
     on_add := on_add d; on_set_password := on_set_password d;
     on_net_user := on_net_user d; on_enable := on_enable d;
     on_verify := on_verify d; on_group_search := on_group_search d;
     on_group_modify := on_group_modify d |}.

(** The characters a password is drawn from:
    [string.ascii_letters + string.digits + '!@#$%']. *)
Definition password_alphabet : list ascii :=
  list_ascii_of_string "abcdefghijklmnopqrstuvwxyzABCDEFGHIJKLMNOPQRSTUVWXYZ0123456789!@#$%".

(* ===================================================================== *)
(** * What an attempt logs                                                *)
(* ===================================================================== *)

(** The record logged when an attempt succeeds. *)
Definition created_record (l : string) (self : hr_employee) : log_level * string :=
  (INFO, "AD user '" +:+ l +:+ "' created and enabled for employee "
           +:+ string_of_Z (emp_id self)).

(** The record of a default group: an [info] or a [warning]. *)
Definition group_record (rec : log_level * string) : Prop :=
  fst rec = INFO \/ fst rec = WARNING.

(** A step that logs nothing and, when it returns, returns a failure. *)
Definition quiet_step (st : Sess (option outcome)) : Prop :=
  forall s, logs (snd (st s)) = logs s /\
    match fst (st s) with
    | Ok (Some o) => exists msg, o = failed msg
    | _ => True
    end.

(** What the pipeline has logged when it ends: nothing if it returns a
    failure or raises; one record for each default group and the record
    of the success if it returns the login and the password. *)
Definition logged (self : hr_employee) (cfg : ad_config) (req : account_request)
    (k : Sess outcome) : Prop :=
  forall s,
    match fst (k s) with
    | Ok o =>
        ((exists msg, o = failed msg) /\ logs (snd (k s)) = logs s) \/
        (o = created (login req) (password req) /\
         exists gl, logs (snd (k s)) = logs s ++ gl ++ [created_record (login req) self] /\
                    length gl = length (default_groups cfg) /\
                    Forall group_record gl)
    | Raise _ => logs (snd (k s)) = logs s
    end.

(* ===================================================================== *)
(** * Where the password goes                                             *)
(* ===================================================================== *)

(** The request with another password. *)
Definition with_password (req : account_request) (p : string) : account_request :=
  {| first_name := first_name req; last_name := last_name req; email := email req;
     login := login req; upn := upn req; display_name := display_name req;
     user_dn := user_dn req; search_filter := search_filter req; password := p |}.

(** A call with the two places that hold the password blanked: the
    value written to [unicodePwd], and the fourth word of the
    [net user] command. *)
Definition redact (c : call) : call :=
  match c with
  | CallModify dn [(attr, (op, _))] =>
      if String.eqb attr "unicodePwd" then CallModify dn [(attr, (op, []))] else c
  | CallNetUser [a; b; l; _; flag] t => CallNetUser [a; b; l; EmptyString; flag] t
  | _ => c
  end.

(** What is seen of a session when the password is left out: the calls
    redacted, the log, and the state of the connection. *)
Definition public (s : session) : list call * list (log_level * string) * option bool :=
  (map redact (calls s), logs s, conn s).

(** Two computations that, started from sessions that look the same,
    end in sessions that look the same, with results related by [R]. *)
Definition indistinguishable {A : Type} (R : res A -> res A -> Prop) (m1 m2 : Sess A) : Prop :=
  forall s1 s2, public s1 = public s2 ->
    R (fst (m1 s1)) (fst (m2 s2)) /\ public (snd (m1 s1)) = public (snd (m2 s2)).

Definition same_but_password (r1 r2 : res outcome) : Prop :=
  without_password r1 = without_password r2.

(* ===================================================================== *)
(** * The filters of the searches                                         *)
(* ===================================================================== *)

(** A search whose filter holds nothing but escaped values: the fixed
    filter of the verification, or one of the two filters built around
    a value that is safe in a filter. *)
Definition search_escaped (c : call) : Prop :=
  match c with
  | CallSearch _ f _ =>
      f = "(objectClass=user)" \/
      exists v, filter_safe v = true /\
        (f = "(sAMAccountName=" +:+ v +:+ ")" \/
         f = "(|(sAMAccountName=" +:+ v +:+ ")(cn=" +:+ v +:+ "))")
  | _ => True
  end.

(* ===================================================================== *)
(** * More sample inputs                                                  *)
(* ===================================================================== *)

Definition store_of (e : hr_employee) : store := {| employee := e; outbox := [] |}.

(** An employee whose name is made of spaces. *)
Definition blank_name_employee : hr_employee :=
  {| emp_id := 9; name := Some "   "; work_email := Some "ann@corp.com";
     work_phone := None; ad_username := None; ad_sync_status := pending;
     message_ids := [] |}.

(** An employee whose work email holds no login: the part before the
    [@] is a dot. *)
Definition dotted_employee : hr_employee :=
  {| emp_id := 10; name := Some "Dot Matrix"; work_email := Some ".@corp.com";
     work_phone := None; ad_username := Some "dmatrix"; ad_sync_status := pending;
     message_ids := [] |}.

(** An LDAPS port that is not a number. *)
Definition bad_port_env : environment :=
  {| params := <[ "employee_onboarding.ldaps_port" := "ldaps" ]>
                 {[ "employee_onboarding.admin_password" := "s3cret" ]};
     ldap3_available := true; platform := "linux"; mail_template := true |}.

(** Two default groups, written without spaces. *)
Definition two_groups_params : gmap string string :=
  {[ "employee_onboarding.default_groups" := "Staff,VPN" ]}.

Definition two_groups_config : ad_config :=
  {| ad_server := "172.16.27.140"; domain := "employee.local";
     admin_user := "administrator@employee.local"; admin_password := "";
     base_dn := "DC=employee,DC=local";
     users_ou := "CN=Users,DC=employee,DC=local";
     ldap_secure := "ldaps"; ldaps_port := 636;
     ldaps_validate_cert := false; connect_timeout := 10;
     default_groups := ["Staff"; "VPN"] |}.

(** The message that marks the "Create AD User" activity as done. *)
Definition activity_done_message : mail_message :=
  {| body := "Create AD User done"; body_is_markup := false;
     message_type := "notification"; subtype_xmlid := "mail.mt_activities" |}.

(* ===================================================================== *)
(** * Sanity checks of the embedding                                      *)
(* ===================================================================== *)

Example split_dots : Py.split "." "corp.local" = ["corp"; "local"].
Proof. reflexivity. Qed.

Example split_name : Py.split_ws_1 (Py.strip "  Ada  Lovelace King ") = ["Ada"; "Lovelace King"].
Proof. reflexivity. Qed.

Example int_port : Py.int " 636 " = Some 636 /\ Py.int "6_36" = Some 636 /\ Py.int "63x" = None /\ Py.int "" = None.
Proof. repeat split; reflexivity. Qed.

Example cfg_default : _get_ad_config ∅ = Ok default_config.
Proof. vm_compute. reflexivity. Qed.

Example cfg_ou_path :
  users_ou <$> (match _get_ad_config
          (<["employee_onboarding.ou_path" := " Employees / NewHires/ "]>
            (<["employee_onboarding.domain" := "corp.local"]> ∅)) with Ok c => Some c | Raise _ => None end)
  = Some "OU=NewHires,OU=Employees,DC=corp,DC=local".
Proof. vm_compute. reflexivity. Qed.

Example escape_filter_spec :
  _ldap_escape_filter "a*b(c)d\e" = "a\2ab\28c\29d\5ce".
Proof. reflexivity. Qed.

Example password_sample :
  fst (_generate_ad_password (fun n => (7 * n + 3)%nat)) = "kM0Bg7%u%7TDn".
Proof. vm_compute. reflexivity. Qed.

(* ===================================================================== *)
(** * Facts about the string primitives                                   *)
(* ===================================================================== *)

Section StringFacts.

Lemma app_cons (c : ascii) (s t : string) : String c s +:+ t = String c (s +:+ t).
Proof. reflexivity. Qed.

Lemma app_empty_l (t : string) : "" +:+ t = t.
Proof. reflexivity. Qed.

Lemma app_empty_r (s : string) : s +:+ "" = s.
Proof. induction s as [|c s IH]; [reflexivity|]. rewrite app_cons, IH. reflexivity. Qed.

Lemma split_not_nil (sep : ascii) (s : string) : Py.split sep s ≠ [].
Proof.
  destruct s as [|c s]; simpl; [discriminate|].
  destruct (Ascii.eqb c sep); [discriminate|].
  destruct (Py.split sep s); discriminate.
Qed.

(** A piece without the separator, then the separator: the piece is
    the first field. *)
Lemma split_app_sep (sep : ascii) (a b : string) :
  Py.contains sep a = false ->
  Py.split sep (a +:+ String sep b) = a :: Py.split sep b.
Proof.
  induction a as [|c a IH]; intros Hno.
  - rewrite app_empty_l. simpl. rewrite Ascii.eqb_refl. reflexivity.
  - simpl in Hno. apply orb_false_iff in Hno as [Hc Ha].
    rewrite app_cons. simpl. rewrite Hc, (IH Ha). reflexivity.
Qed.

Lemma split_no_sep (sep : ascii) (a : string) :
  Py.contains sep a = false -> Py.split sep a = [a].
Proof.
  induction a as [|c a IH]; intros Hno; [reflexivity|].
  simpl in Hno. apply orb_false_iff in Hno as [Hc Ha].
  simpl. rewrite Hc, (IH Ha). reflexivity.
Qed.

(** Splitting undoes joining when no field holds the separator. *)
Lemma split_join (sep : ascii) (fields : list string) :
  fields ≠ [] ->
  Forall (fun f => Py.contains sep f = false) fields ->
  Py.split sep (Py.join (Py.str1 sep) fields) = fields.
Proof.
  induction fields as [|f fs IH]; intros Hne Hall; [congruence|].
  apply Forall_cons in Hall as [Hf Hfs].
  destruct fs as [|g gs].
  - simpl. apply split_no_sep, Hf.
  - change (Py.join (Py.str1 sep) (f :: g :: gs))
      with (f +:+ String sep (Py.join (Py.str1 sep) (g :: gs))).
    rewrite (split_app_sep _ _ _ Hf), IH; [reflexivity|discriminate|exact Hfs].
Qed.

Lemma lower_char_idem (c : ascii) : Py.lower_char (Py.lower_char c) = Py.lower_char c.
Proof. destruct c as [[] [] [] [] [] [] [] []]; reflexivity. Qed.

Lemma lower_idem (s : string) : Py.lower (Py.lower s) = Py.lower s.
Proof.
  induction s as [|c s IH]; [reflexivity|].
  simpl. rewrite lower_char_idem, IH. reflexivity.
Qed.

End StringFacts.


Lemma ou_parts_join (segs : list string) :
  segs ≠ [] -> Forall clean_segment segs ->
  ou_parts (Py.join "/" segs) = segs.
Proof.
  intros Hne Hall. unfold ou_parts.
  change "/"%string with (Py.str1 "/").
  rewrite split_join; [|exact Hne|].
  - clear Hne. induction Hall as [|s segs (Hn & _ & Hs) _ IH]; [reflexivity|].
    rewrite filter_cons. rewrite Hs.
    destruct (decide (Py.nonempty s = true)) as [_|Hc]; [|congruence].
    rewrite map_cons, Hs. f_equal. exact IH.
  - eapply Forall_impl; [exact Hall|]. intros s (_ & H & _). exact H.
Qed.

(* ===================================================================== *)
(** * Attribute derivation                                                *)
(* ===================================================================== *)

Lemma login_of_local_part (local rest : string) :
  Py.contains "@" local = false ->
  login_of_email (local +:+ "@" +:+ rest) = Py.replace "." "" (Py.lower local).
Proof.
  intros Hno. unfold login_of_email.
  change (local +:+ "@" +:+ rest) with (local +:+ String "@" rest).
  rewrite (split_app_sep _ _ _ Hno). reflexivity.
Qed.

Lemma join_nonempty (sep s : string) (l : list string) :
  Py.nonempty s = true -> Py.nonempty (Py.join sep (s :: l)) = true.
Proof.
  intros Hs. destruct s as [|c s]; [discriminate|].
  destruct l; reflexivity.
Qed.

(** The fields of the configuration that do not depend on the two
    integers. *)
Lemma get_ad_config_fields (p : gmap string string) (cfg : ad_config) :
  _get_ad_config p = Ok cfg ->
  domain cfg = get_param_d p "employee_onboarding.domain" "employee.local" /\
  base_dn cfg = dc_of_domain (domain cfg) /\
  users_ou cfg = resolve_users_ou p (base_dn cfg) /\
  ldap_secure cfg = Py.lower (get_param_d p "employee_onboarding.ldap_secure" "ldaps") /\
  py_int (get_param_d p "employee_onboarding.ldaps_port" "636") = Ok (ldaps_port cfg).
Proof.
  unfold _get_ad_config. intros H.
  destruct (py_int (get_param_d p "employee_onboarding.ldaps_port" "636")) as [port|e];
    simpl in H; [|discriminate].
  destruct (py_int (get_param_d p "employee_onboarding.ldap_connect_timeout" "10")) as [tmo|e];
    simpl in H; [|discriminate].
  injection H as <-. simpl. repeat split; reflexivity.
Qed.

(** C8. Attribute derivation: the login of [john.doe@corp.com] is
    [johndoe], and in general the lower-cased local part with its dots
    removed; the base DN of [corp.local] is [DC=corp,DC=local], and in
    general one [DC=] component per label; [users_ou] is the explicit
    override when there is one, else the OU path with one [OU=] component
    per segment, the last segment leftmost, followed by the base DN (so
    [Employees/NewHires] gives [OU=NewHires,OU=Employees,<base_dn>]),
    else [CN=Users,<base_dn>]. *)
Theorem C8_attribute_derivation (p : gmap string string) (cfg : ad_config) :
  _get_ad_config p = Ok cfg ->
  (login_of_email "john.doe@corp.com" = "johndoe" /\
   (forall local rest, Py.contains "@" local = false ->
      login_of_email (local +:+ "@" +:+ rest) = Py.replace "." "" (Py.lower local)) /\
   (forall self r req,
      derive_request cfg self r = Ok (inr req) ->
      work_email self = Some "john.doe@corp.com" -> login req = "johndoe"))
  /\
  ((domain cfg = "corp.local" -> base_dn cfg = "DC=corp,DC=local") /\
   (forall labels, labels ≠ [] ->
      Forall (fun l => Py.contains "." l = false) labels ->
      domain cfg = Py.join "." labels ->
      base_dn cfg = Py.join "," (map (fun l => "DC=" +:+ l) labels)))
  /\
  ((forall ou, get_param p "employee_onboarding.users_ou" = Some ou ->
      users_ou cfg = ou) /\
   (get_param p "employee_onboarding.users_ou" = None ->
    Py.strip (Py.or_empty (get_param p "employee_onboarding.ou_path"))
      = "Employees/NewHires" ->
    users_ou cfg = "OU=NewHires,OU=Employees," +:+ base_dn cfg) /\
   (get_param p "employee_onboarding.users_ou" = None ->
    forall segs, segs ≠ [] -> Forall clean_segment segs ->
      Py.strip (Py.or_empty (get_param p "employee_onboarding.ou_path"))
        = Py.join "/" segs ->
      users_ou cfg
        = Py.join "," (map (fun s => "OU=" +:+ s) (rev segs)) +:+ "," +:+ base_dn cfg) /\
   (get_param p "employee_onboarding.users_ou" = None ->
    Py.strip (Py.or_empty (get_param p "employee_onboarding.ou_path")) = "" ->
    users_ou cfg = "CN=Users," +:+ base_dn cfg)).
Proof.
  intros Hcfg.
  destruct (get_ad_config_fields p cfg Hcfg) as (Hdom & Hbase & Hou & _ & _).
  split; [|split].
  - split; [reflexivity|]. split; [exact login_of_local_part|].
    intros self r req Hreq Hmail. unfold derive_request in Hreq. rewrite Hmail in Hreq.
    destruct (match Py.split_ws_1 _ with [] => _ | _ => _ end) as [last|e];
      simpl in Hreq; [|discriminate].
    injection Hreq as <-. reflexivity.
  - split.
    + intros Hd. rewrite Hbase, Hd. reflexivity.
    + intros labels Hne Hall Hd. rewrite Hbase, Hd. unfold dc_of_domain.
      change "."%string with (Py.str1 ".").
      rewrite split_join; [reflexivity|exact Hne|exact Hall].
  - rewrite Hou. unfold resolve_users_ou. repeat split.
    + intros ou ->. reflexivity.
    + intros -> ->. reflexivity.
    + intros -> segs Hne Hall ->.
      destruct segs as [|s segs]; [congruence|].
      rewrite join_nonempty; [|apply (Forall_inv Hall)].
      rewrite ou_parts_join; [reflexivity|exact Hne|exact Hall].
    + intros -> ->. reflexivity.
Qed.


Lemma C8_attribute_derivation_witness :
  _get_ad_config c8_params = Ok c8_config /\
  base_dn c8_config = "DC=corp,DC=local" /\
  users_ou c8_config = "OU=NewHires,OU=Employees," +:+ base_dn c8_config.
Proof.
  assert (H : _get_ad_config c8_params = Ok c8_config) by (vm_compute; reflexivity).
  destruct (C8_attribute_derivation c8_params c8_config H)
    as (_ & (Hbase & _) & (_ & Hou & _)).
  split; [exact H|]. split.
  - apply Hbase. reflexivity.
  - apply Hou; vm_compute; reflexivity.
Defined.

(* ===================================================================== *)
(** * The password generator                                              *)
(* ===================================================================== *)

Lemma insert_swap_head (l : list ascii) (k : nat) (b c : ascii) :
  l !! k = Some b -> b :: <[k := c]> l ≡ₚ c :: l.
Proof.
  revert k. induction l as [|d l IH]; intros [|k] Hk; simplify_eq/=.
  - apply Permutation_swap.
  - rewrite (Permutation_swap d b), (IH k Hk). apply Permutation_swap.
Qed.

Lemma swap_perm (x : list ascii) (i j : nat) : swap x i j ≡ₚ x.
Proof.
  unfold swap.
  destruct (x !! i) as [a|] eqn:Hi; [|reflexivity].
  destruct (x !! j) as [b|] eqn:Hj; [|reflexivity].
  revert i j Hi Hj. induction x as [|c x IH]; intros [|i] [|j] Hi Hj; simplify_eq/=.
  - reflexivity.
  - apply insert_swap_head, Hj.
  - apply insert_swap_head, Hi.
  - f_equiv. apply IH; assumption.
Qed.

Lemma shuffle_from_perm (i : nat) (x : list ascii) (r : rng) :
  fst (shuffle_from i x r) ≡ₚ x.
Proof.
  revert x r. induction i as [|i IH]; intros x r; [reflexivity|].
  simpl. unfold rand_bind, randbelow. rewrite IH. apply swap_perm.
Qed.

Lemma choice_in (seq : list ascii) (r : rng) :
  seq ≠ [] -> In (fst (choice seq r)) seq.
Proof.
  intros Hne. unfold choice, rand_bind, randbelow, rand_ret. simpl.
  apply nth_In. apply Nat.mod_upper_bound. destruct seq; [congruence|discriminate].
Qed.

Lemma choices_length (pop : list ascii) (k : nat) (r : rng) :
  length (fst (choices pop k r)) = k.
Proof.
  revert r. induction k as [|k IH]; intros r; [reflexivity|].
  simpl. unfold rand_bind at 1. destruct (choice pop r) as [c r1].
  unfold rand_bind. specialize (IH r1). destruct (choices pop k r1) as [cs r2].
  simpl in *. congruence.
Qed.

Lemma randint_range (a b : nat) (r : rng) :
  (a <= b)%nat -> (a <= fst (randint a b r) <= b)%nat.
Proof.
  intros Hab. unfold randint, rand_bind, randbelow, rand_ret. cbn [fst].
  pose proof (Nat.mod_upper_bound (r 0%nat) (b - a + 1)). lia.
Qed.

Lemma generate_password_chars_spec (r : rng) :
  exists u l d s more,
    In u ascii_uppercase /\ In l ascii_lowercase /\ In d py_digits /\ In s symbols /\
    (8 <= length more <= 12)%nat /\
    fst (generate_password_chars r) ≡ₚ [u; l; d; s] ++ more.
Proof.
  unfold generate_password_chars.
  unfold rand_bind at 1. pose proof (choice_in ascii_uppercase r) as Hu.
  destruct (choice ascii_uppercase r) as [u r1].
  unfold rand_bind at 1. pose proof (choice_in ascii_lowercase r1) as Hl.
  destruct (choice ascii_lowercase r1) as [l r2].
  unfold rand_bind at 1. pose proof (choice_in py_digits r2) as Hd.
  destruct (choice py_digits r2) as [d r3].
  unfold rand_bind at 1. pose proof (choice_in symbols r3) as Hs.
  destruct (choice symbols r3) as [s r4].
  unfold rand_bind at 1. pose proof (randint_range 8 12 r4) as Hk.
  destruct (randint 8 12 r4) as [k r5].
  unfold rand_bind.
  pose proof (choices_length (ascii_letters ++ py_digits ++ symbols) k r5) as Hm.
  destruct (choices _ k r5) as [more r6].
  exists u, l, d, s, more. cbn [fst] in *.
  split; [apply Hu; discriminate|]. split; [apply Hl; discriminate|].
  split; [apply Hd; discriminate|]. split; [apply Hs; discriminate|].
  split; [lia|].
  - apply shuffle_from_perm.
Qed.

Lemma length_string_of_list (l : list ascii) : String.length (string_of_list_ascii l) = length l.
Proof. induction l as [|c l IH]; simpl; congruence. Qed.

Lemma existsb_member (p : ascii -> bool) (pool l : list ascii) (c : ascii) :
  forallb p pool = true -> In c pool -> In c l -> existsb p l = true.
Proof.
  intros Hpool Hc Hl. apply existsb_exists. exists c. split; [exact Hl|].
  rewrite forallb_forall in Hpool. apply Hpool, Hc.
Qed.

(** C9. Every generated password is 12 to 16 characters long and holds
    at least one capital, one lowercase letter, one digit and one symbol
    of [!@#$%], whatever the random source draws. *)
Theorem C9_password_shape (r : rng) :
  let pwd := fst (_generate_ad_password r) in
  (12 <= String.length pwd <= 16)%nat /\
  has_class is_upper pwd = true /\ has_class is_lower pwd = true /\
  has_class is_digit pwd = true /\ has_class is_symbol pwd = true.
Proof.
  destruct (generate_password_chars_spec r) as (u & l & d & s & more & Hu & Hl & Hd & Hs & Hk & Hp).
  unfold _generate_ad_password, rand_bind, rand_ret, has_class.
  destruct (generate_password_chars r) as [pwd r']. cbn [fst] in *.
  rewrite length_string_of_list, list_ascii_of_string_of_list_ascii.
  split.
  - rewrite (Permutation_length Hp). rewrite length_app. simpl. lia.
  - repeat split.
    + apply (existsb_member _ ascii_uppercase _ u); [reflexivity|exact Hu|].
      apply (Permutation_in _ (Permutation_sym Hp)). simpl. auto.
    + apply (existsb_member _ ascii_lowercase _ l); [reflexivity|exact Hl|].
      apply (Permutation_in _ (Permutation_sym Hp)). simpl. auto.
    + apply (existsb_member _ py_digits _ d); [reflexivity|exact Hd|].
      apply (Permutation_in _ (Permutation_sym Hp)). simpl. auto.
    + apply (existsb_member _ symbols _ s); [reflexivity|exact Hs|].
      apply (Permutation_in _ (Permutation_sym Hp)). simpl. auto.
Qed.

(* ===================================================================== *)
(** * TLS mode                                                            *)
(* ===================================================================== *)

(** C3, as the claim states it, fails twice: an unrecognized TLS mode
    resolves to port 389 without TLS of either kind, and with no TLS
    mode stored the port is the stored LDAPS port, here 3269. *)
Lemma C3_counterexample :
  (exists cfg, _get_ad_config unrecognized_mode_params = Ok cfg /\
     ldap_secure cfg = "bogus" /\
     srv_use_ssl (make_server cfg) = false /\
     srv_port (make_server cfg) = 389 /\
     is_starttls cfg = false) /\
  (exists cfg, _get_ad_config other_port_params = Ok cfg /\
     get_param other_port_params "employee_onboarding.ldap_secure" = None /\
     srv_use_ssl (make_server cfg) = true /\
     srv_port (make_server cfg) = 3269).
Proof.
  split.
  - eexists. split; [vm_compute; reflexivity|]. vm_compute. repeat split; reflexivity.
  - eexists. split; [vm_compute; reflexivity|]. vm_compute. repeat split; reflexivity.
Qed.

(** C3 (amended). The TLS mode is stored lower-cased.  With no TLS mode
    configured the mode is [ldaps]; under [ldaps] the server is reached
    with implicit TLS on the configured LDAPS port, which is 636 when
    no port is configured.  Under every other mode, recognized or not,
    the server is reached on port 389 without implicit TLS. *)
Theorem C3_tls_mode_resolution (p : gmap string string) (cfg : ad_config) :
  _get_ad_config p = Ok cfg ->
  (ldap_secure cfg = Py.lower (get_param_d p "employee_onboarding.ldap_secure" "ldaps") /\
   Py.lower (ldap_secure cfg) = ldap_secure cfg) /\
  (get_param p "employee_onboarding.ldap_secure" = None -> ldap_secure cfg = "ldaps") /\
  (ldap_secure cfg = "ldaps" ->
     srv_use_ssl (make_server cfg) = true /\
     srv_port (make_server cfg) = ldaps_port cfg /\
     (get_param p "employee_onboarding.ldaps_port" = None ->
      srv_port (make_server cfg) = 636)) /\
  (ldap_secure cfg ≠ "ldaps" ->
     srv_use_ssl (make_server cfg) = false /\ srv_port (make_server cfg) = 389).
Proof.
  intros Hcfg.
  destruct (get_ad_config_fields p cfg Hcfg) as (_ & _ & _ & Hmode & Hport).
  split; [|split; [|split]].
  - split; [exact Hmode|]. rewrite Hmode. apply lower_idem.
  - intros Hunset. rewrite Hmode. unfold get_param_d. rewrite Hunset. reflexivity.
  - intros Hldaps. unfold make_server. rewrite Hldaps. simpl.
    split; [reflexivity|]. split; [reflexivity|].
    intros Hnoport. unfold get_param_d in Hport. rewrite Hnoport in Hport.
    change (py_int (default "636" None)) with (Ok 636 : res Z) in Hport.
    injection Hport as <-. reflexivity.
  - intros Hother. unfold make_server.
    rewrite bool_decide_eq_false_2 by exact Hother. split; reflexivity.
Qed.

Lemma C3_tls_mode_resolution_witness :
  _get_ad_config ∅ = Ok default_config /\
  srv_use_ssl (make_server default_config) = true /\
  srv_port (make_server default_config) = 636.
Proof.
  assert (H : _get_ad_config ∅ = Ok default_config) by (vm_compute; reflexivity).
  destruct (C3_tls_mode_resolution ∅ default_config H) as (_ & _ & Hldaps & _).
  destruct (Hldaps eq_refl) as (Hssl & _ & H636).
  split; [exact H|]. split; [exact Hssl|]. apply H636. reflexivity.
Defined.

(* ===================================================================== *)
(** * Properties that the steps of a session keep                         *)
(* ===================================================================== *)

Section Preservation.

Variable P : session -> Prop.

Lemma preserves_ret {A} (a : A) : preserves P (ret a).
Proof. intros s Hs. exact Hs. Qed.

Lemma preserves_lift {A} (r : res A) : preserves P (lift r).
Proof. intros s Hs. exact Hs. Qed.

Lemma preserves_bind {A B} (m : Sess A) (k : A -> Sess B) :
  preserves P m -> (forall a, preserves P (k a)) -> preserves P (bind m k).
Proof.
  intros Hm Hk s Hs. unfold bind. specialize (Hm s Hs).
  destruct (m s) as [[a|e] s']; simpl in *; [apply Hk, Hm|exact Hm].
Qed.

Lemma preserves_catch {A} (m : Sess A) (h : exn -> Sess A) :
  preserves P m -> (forall e, preserves P (h e)) -> preserves P (catch m h).
Proof.
  intros Hm Hh s Hs. unfold catch. specialize (Hm s Hs).
  destruct (m s) as [[a|e] s']; simpl in *; [exact Hm|apply Hh, Hm].
Qed.

Lemma preserves_and_then (st : Sess (option outcome)) (k : Sess outcome) :
  preserves P st -> preserves P k -> preserves P (and_then st k).
Proof.
  intros Hst Hk. unfold and_then. apply preserves_bind; [exact Hst|].
  intros [o|]; [apply preserves_ret|exact Hk].
Qed.

Lemma preserves_if {A} (b : bool) (m1 m2 : Sess A) :
  preserves P m1 -> preserves P m2 -> preserves P (if b then m1 else m2).
Proof. destruct b; auto. Qed.

Variable ok : call -> Prop.
Hypothesis Hlog : forall lvl msg, preserves P (log lvl msg).
Hypothesis Hrec : forall c, ok c -> preserves P (record_call c).

Lemma preserves_invoke {A} (c : call) (answer : res A) :
  ok c -> preserves P (invoke c answer).
Proof.
  intros Hc. unfold invoke. apply preserves_bind; [apply Hrec, Hc|].
  intros _. apply preserves_lift.
Qed.

Variable env : environment.
Variable d : directory.
Variable self : hr_employee.
Variable cfg : ad_config.
Variable req : account_request.

Hypothesis Hother : forall c, is_unbind c = false -> is_add c = false -> ok c.
Hypothesis Hadd : ok (add_request self req).

Lemma preserves_check_existing : preserves P (check_existing d cfg req).
Proof.
  unfold check_existing. apply preserves_bind.
  - apply preserves_invoke, Hother; reflexivity.
  - intros [|e es]; [apply preserves_ret|].
    apply preserves_bind; [apply preserves_lift|]. intros dn. apply preserves_ret.
Qed.

Lemma preserves_create_user : preserves P (create_user d self req).
Proof.
  unfold create_user. apply preserves_bind; [apply preserves_invoke, Hadd|].
  intros r. apply preserves_if; apply preserves_ret.
Qed.

Lemma preserves_set_password : preserves P (set_password env d req).
Proof.
  unfold set_password. apply preserves_bind.
  - apply preserves_invoke, Hother; reflexivity.
  - intros r. apply preserves_if; [apply preserves_ret|].
    apply preserves_if; [|apply preserves_ret].
    apply preserves_catch.
    + apply preserves_bind; [|intros _; apply preserves_ret].
      apply preserves_invoke, Hother; reflexivity.
    + intros e. apply preserves_if; [apply preserves_ret|apply preserves_lift].
Qed.

Lemma preserves_enable_account : preserves P (enable_account d req).
Proof.
  unfold enable_account. apply preserves_bind.
  - apply preserves_invoke, Hother; reflexivity.
  - intros r. apply preserves_if; apply preserves_ret.
Qed.

Lemma preserves_verify_enabled : preserves P (verify_enabled d req).
Proof.
  unfold verify_enabled. apply preserves_bind.
  - apply preserves_invoke, Hother; reflexivity.
  - intros [|e es]; [apply preserves_ret|].
    apply preserves_bind; [apply preserves_lift|].
    intros uac. apply preserves_if; apply preserves_ret.
Qed.

Lemma preserves_add_to_group (i : nat) (g : string) :
  preserves P (add_to_group d cfg req i g).
Proof.
  unfold add_to_group. apply preserves_catch; [|intros e; apply Hlog].
  apply preserves_bind.
  - unfold _find_ad_group_dn. apply preserves_bind.
    + apply preserves_invoke, Hother; reflexivity.
    + intros [|e es]; [apply preserves_ret|].
      apply preserves_bind; [apply preserves_lift|]. intros dn. apply preserves_ret.
  - intros group_dn. apply preserves_if; [|apply Hlog].
    apply preserves_bind; [apply preserves_invoke, Hother; reflexivity|].
    intros r. apply preserves_if; apply Hlog.
Qed.

Lemma preserves_add_to_groups (i : nat) (groups : list string) :
  preserves P (add_to_groups d cfg req i groups).
Proof.
  revert i. induction groups as [|g gs IH]; intros i; simpl.
  - apply preserves_ret.
  - apply preserves_bind; [apply preserves_add_to_group|]. intros _. apply IH.
Qed.

Lemma preserves_provision : preserves P (provision env d self cfg req).
Proof.
  unfold provision.
  apply preserves_and_then; [apply preserves_check_existing|].
  apply preserves_and_then; [apply preserves_create_user|].
  apply preserves_and_then; [apply preserves_set_password|].
  apply preserves_and_then; [apply preserves_enable_account|].
  apply preserves_and_then; [apply preserves_verify_enabled|].
  apply preserves_bind; [apply preserves_add_to_groups|]. intros _.
  apply preserves_bind; [apply Hlog|]. intros _. apply preserves_ret.
Qed.

Lemma preserves_on_exception (e : exn) : preserves P (on_exception self e).
Proof.
  unfold on_exception. apply preserves_bind; [apply Hlog|].
  intros _. apply preserves_ret.
Qed.

(** Whatever holds once the connection phase is over still holds when
    the [try] statement is left. *)
Lemma preserves_after_connect (s : session) :
  P (snd (connect d cfg s)) ->
  P (snd (catch (try_body env d self cfg req) (on_exception self) s)).
Proof.
  intros Hc. unfold catch, try_body, bind.
  destruct (connect d cfg s) as [[[]|e] s1]; simpl in Hc.
  - pose proof (preserves_provision s1 Hc) as Hp.
    destruct (provision env d self cfg req s1) as [[o|e] s2]; simpl in Hp; [exact Hp|].
    apply preserves_on_exception, Hp.
  - apply preserves_on_exception, Hc.
Qed.

End Preservation.

(* ===================================================================== *)
(** * The calls of a session and the release of the connection           *)
(* ===================================================================== *)

Section Calls.

Variable g : call -> Prop.

Lemma all_calls_log (lvl : log_level) (msg : string) : preserves (all_calls g) (log lvl msg).
Proof. intros s Hs. exact Hs. Qed.

Lemma all_calls_record (c : call) : g c -> preserves (all_calls g) (record_call c).
Proof.
  intros Hc s Hs. unfold all_calls in *. simpl.
  apply Forall_app. split; [exact Hs|]. constructor; [exact Hc|constructor].
Qed.

Lemma all_calls_set_conn (c : option bool) : preserves (all_calls g) (set_conn c).
Proof. intros s Hs. exact Hs. Qed.

Variable env : environment.
Variable d : directory.
Variable self : hr_employee.
Variable cfg : ad_config.
Variable req : account_request.

Hypothesis Hother : forall c, is_unbind c = false -> is_add c = false -> g c.
Hypothesis Hadd : g (add_request self req).

Lemma all_calls_connect : preserves (all_calls g) (connect d cfg).
Proof.
  unfold connect.
  apply preserves_bind; [apply all_calls_record, Hother; reflexivity|]. intros _.
  apply preserves_bind; [apply preserves_lift|]. intros _.
  apply preserves_bind; [apply all_calls_set_conn|]. intros _.
  apply preserves_if; [|apply preserves_ret].
  apply preserves_bind.
  { apply (preserves_invoke _ g all_calls_record), Hother; reflexivity. }
  intros _. apply preserves_bind.
  { apply (preserves_invoke _ g all_calls_record), Hother; reflexivity. }
  intros _. apply preserves_bind.
  { apply (preserves_invoke _ g all_calls_record), Hother; reflexivity. }
  intros b. apply all_calls_set_conn.
Qed.

(** Every call made inside the [try] statement satisfies [g]. *)
Lemma all_calls_try :
  all_calls g (snd (catch (try_body env d self cfg req) (on_exception self) no_session)).
Proof.
  apply (preserves_after_connect _ g all_calls_log all_calls_record); try assumption.
  apply all_calls_connect. constructor.
Qed.

End Calls.

Section Release.

Variable env : environment.
Variable d : directory.
Variable self : hr_employee.
Variable cfg : ad_config.
Variable req : account_request.

Lemma conn_kept_log (x : option bool) (lvl : log_level) (msg : string) :
  preserves (fun s => conn s = x) (log lvl msg).
Proof. intros s Hs. exact Hs. Qed.

Lemma conn_kept_record (x : option bool) (c : call) :
  True -> preserves (fun s => conn s = x) (record_call c).
Proof. intros _ s Hs. exact Hs. Qed.

(** The steps after the connection phase leave [conn] as it is. *)
Lemma conn_after_try :
  conn (snd (catch (try_body env d self cfg req) (on_exception self) no_session))
  = conn (snd (connect d cfg no_session)).
Proof.
  apply (preserves_after_connect
           (fun s => conn s = conn (snd (connect d cfg no_session)))
           (fun _ => True) (conn_kept_log _) (conn_kept_record _));
    [intros; exact I | exact I | reflexivity].
Qed.

Lemma conn_after_connect :
  conn (snd (connect d cfg no_session))
  = match on_connect d with
    | Raise _ => None
    | Ok _ => Some (bound_at_exit cfg d)
    end.
Proof.
  unfold connect, bound_at_exit, invoke, bind, record_call, set_conn, lift, ret.
  simpl.
  destruct (on_connect d) as [[]|e]; simpl; [|reflexivity].
  destruct (is_starttls cfg); simpl; [|reflexivity].
  destruct (on_open d) as [[]|e]; simpl; [|reflexivity].
  destruct (on_start_tls d) as [b|e]; simpl; [|reflexivity].
  destruct (on_bind d) as [b'|e]; simpl; reflexivity.
Qed.

Lemma bound_at_exit_connected :
  bound_at_exit cfg d = true -> exists u, on_connect d = Ok u.
Proof.
  unfold bound_at_exit. destruct (on_connect d) as [u|e]; [eauto|discriminate].
Qed.

(** The [finally] clause: a bound connection is unbound as the last call
    of the attempt and nowhere before; a connection that is not bound is
    left as it is. *)
Lemma ldap_session_release :
  let s := snd (ldap_session env d self cfg req) in
  (bound_at_exit cfg d = true ->
   exists before, calls s = before ++ [CallUnbind] /\
     Forall (fun c => is_unbind c = false) before /\ conn s = Some false) /\
  (bound_at_exit cfg d = false ->
   Forall (fun c => is_unbind c = false) (calls s)).
Proof.
  unfold ldap_session.
  pose proof (all_calls_try (fun c => is_unbind c = false) env d self cfg req
                (fun c H _ => H) eq_refl) as Hcalls.
  pose proof conn_after_try as Hconn. rewrite conn_after_connect in Hconn.
  destruct (catch (try_body env d self cfg req) (on_exception self) no_session)
    as [r s]. simpl in *. unfold all_calls in Hcalls. split.
  - intros Hb. destruct (bound_at_exit_connected Hb) as [u Hu].
    rewrite Hu, Hb in Hconn. unfold finally_unbind. rewrite Hconn. simpl.
    exists (calls s). repeat split; [exact Hcalls].
  - intros Hb. unfold finally_unbind.
    destruct (on_connect d); rewrite Hconn; [rewrite Hb|]; exact Hcalls.
Qed.

End Release.

(** An attempt that made a call got past the checks on the configuration
    and on the employee, and is a session. *)
Lemma reached_directory (env : environment) (d : directory) (r : rng)
    (self : hr_employee) :
  calls (snd (_create_ad_user_ldap env d r self)) ≠ [] ->
  exists cfg req,
    _get_ad_config (params env) = Ok cfg /\
    derive_request cfg self r = Ok (inr req) /\
    _create_ad_user_ldap env d r self = ldap_session env d self cfg req.
Proof.
  unfold _create_ad_user_ldap. intros Hcalls.
  destruct (negb (ldap3_available env)); [simpl in Hcalls; congruence|].
  destruct (_get_ad_config (params env)) as [cfg|e] eqn:Hcfg;
    [|simpl in Hcalls; congruence].
  destruct (negb (Py.nonempty (admin_password cfg))); [simpl in Hcalls; congruence|].
  destruct (negb (Py.nonempty (ad_server cfg)) || negb (Py.nonempty (domain cfg)));
    [simpl in Hcalls; congruence|].
  destruct (derive_request cfg self r) as [[early|req]|e] eqn:Hreq;
    [simpl in Hcalls; congruence| |simpl in Hcalls; congruence].
  exists cfg, req. split; [reflexivity|]. split; [exact Hreq|reflexivity].
Qed.

(** C4, as the claim states it, fails: under STARTTLS the connection is
    opened, the TLS upgrade fails, and the attempt ends without any
    [unbind] on the opened connection. *)
Lemma C4_counterexample :
  let s := snd (_create_ad_user_ldap starttls_env failing_starttls_directory
                  sample_draws john) in
  _get_ad_config (params starttls_env) = Ok starttls_config /\
  bound_at_exit starttls_config failing_starttls_directory = false /\
  In CallOpen (calls s) /\ ~ In CallUnbind (calls s) /\ conn s = Some false.
Proof.
  split; [vm_compute; reflexivity|]. split; [reflexivity|].
  vm_compute. split; [|split; [|reflexivity]].
  - right. left. reflexivity.
  - intros [H|[H|[H|[]]]]; discriminate H.
Qed.

(** C4 (amended). On every exit path of an attempt whose connection is
    bound, the connection is unbound exactly once, as the last call of
    the attempt; when the connection is not bound (it was never made, or
    it was opened and the TLS upgrade or the bind did not succeed) no
    unbind is performed. *)
Theorem C4_session_release (env : environment) (d : directory) (r : rng)
    (self : hr_employee) (cfg : ad_config) :
  _get_ad_config (params env) = Ok cfg ->
  let s := snd (_create_ad_user_ldap env d r self) in
  (calls s ≠ [] -> bound_at_exit cfg d = true ->
   exists before, calls s = before ++ [CallUnbind] /\
     Forall (fun c => is_unbind c = false) before /\ conn s = Some false) /\
  (bound_at_exit cfg d = false ->
   Forall (fun c => is_unbind c = false) (calls s)).
Proof.
  intros Hcfg s. split.
  - intros Hcalls Hb. subst s.
    destruct (reached_directory env d r self Hcalls) as (cfg' & req & Hcfg' & _ & ->).
    assert (cfg' = cfg) as -> by congruence.
    apply ldap_session_release, Hb.
  - intros Hb. destruct (decide (calls s = [])) as [->|Hcalls]; [constructor|].
    subst s.
    destruct (reached_directory env d r self Hcalls) as (cfg' & req & Hcfg' & _ & ->).
    assert (cfg' = cfg) as -> by congruence.
    apply ldap_session_release, Hb.
Qed.

Lemma C4_session_release_witness :
  let s := snd (_create_ad_user_ldap linux_env willing_directory sample_draws john) in
  exists before, calls s = before ++ [CallUnbind] /\
    Forall (fun c => is_unbind c = false) before /\ conn s = Some false.
Proof.
  assert (H : _get_ad_config (params linux_env) = Ok sample_config)
    by (vm_compute; reflexivity).
  apply (C4_session_release linux_env willing_directory sample_draws john
           sample_config H).
  - vm_compute. discriminate.
  - reflexivity.
Defined.

(* ===================================================================== *)
(** * The add request                                                     *)
(* ===================================================================== *)

Lemma ldap_session_calls (g : call -> Prop) (env : environment) (d : directory)
    (self : hr_employee) (cfg : ad_config) (req : account_request) :
  (forall c, is_add c = false -> g c) -> g (add_request self req) ->
  Forall g (calls (snd (ldap_session env d self cfg req))).
Proof.
  intros Hother Hadd. unfold ldap_session.
  pose proof (all_calls_try g env d self cfg req (fun c _ H => Hother c H) Hadd) as H.
  destruct (catch (try_body env d self cfg req) (on_exception self) no_session) as [r s].
  simpl in *. unfold all_calls in H. unfold finally_unbind.
  destruct (conn s) as [[]|]; simpl; [|exact H|exact H].
  apply Forall_app. split; [exact H|]. constructor; [|constructor].
  apply Hother. reflexivity.
Qed.

(** C10. Every add request of an attempt carries a [telephoneNumber]
    attribute: the work phone of the employee, and the empty string when
    the employee has none. *)
Theorem C10_add_carries_telephone (env : environment) (d : directory) (r : rng)
    (self : hr_employee) (dn : string) (oc : list string)
    (attrs : list (string * string)) :
  In (CallAdd dn oc attrs) (calls (snd (_create_ad_user_ldap env d r self))) ->
  (exists v, lookup_attr "telephoneNumber" attrs = Some v) /\
  (Py.truthy (work_phone self) = false ->
   lookup_attr "telephoneNumber" attrs = Some "") /\
  (forall ph, work_phone self = Some ph -> ph ≠ "" ->
   lookup_attr "telephoneNumber" attrs = Some ph).
Proof.
  intros Hin.
  assert (Hcalls : calls (snd (_create_ad_user_ldap env d r self)) ≠ []).
  { intros E. rewrite E in Hin. exact Hin. }
  destruct (reached_directory env d r self Hcalls) as (cfg & req & _ & _ & Hs).
  rewrite Hs in Hin.
  pose proof (ldap_session_calls (carries_phone self) env d self cfg req) as Hall.
  rewrite Forall_forall in Hall.
  assert (Hphone : carries_phone self (CallAdd dn oc attrs)).
  { apply Hall; [| reflexivity | apply list_elem_of_In, Hin].
    intros [] Hc; try exact I. discriminate Hc. }
  simpl in Hphone. split; [eauto|]. split.
  - intros Hno. rewrite Hphone. unfold Py.or_else. rewrite Hno. reflexivity.
  - intros ph Hph Hne. rewrite Hphone, Hph. unfold Py.or_else. simpl.
    destruct ph; [congruence|reflexivity].
Qed.

Lemma C10_add_carries_telephone_witness :
  In (add_request john
        {| first_name := "John"; last_name := "Doe"; email := "john.doe@corp.com";
           login := "johndoe"; upn := "johndoe@employee.local";
           display_name := "John Doe";
           user_dn := "CN=John Doe,CN=Users,DC=employee,DC=local";
           search_filter := "(sAMAccountName=johndoe)";
           password := "kM0Bg7%u%7TDn" |})
     (calls (snd (_create_ad_user_ldap linux_env willing_directory sample_draws john))) /\
  lookup_attr "telephoneNumber"
    [("givenName", "John"); ("sn", "Doe"); ("displayName", "John Doe");
     ("sAMAccountName", "johndoe"); ("userPrincipalName", "johndoe@employee.local");
     ("mail", "john.doe@corp.com"); ("telephoneNumber", "")] = Some "".
Proof.
  match goal with |- ?A /\ _ => assert (Hin : A) end.
  { vm_compute. right. right. left. reflexivity. }
  split; [exact Hin|].
  exact (proj1 (proj2 (C10_add_carries_telephone _ _ _ _ _ _ _ Hin)) eq_refl).
Defined.

(* ===================================================================== *)
(** * The paths of a session                                              *)
(* ===================================================================== *)

Section Paths.

Variable env : environment.
Variable d : directory.
Variable self : hr_employee.
Variable cfg : ad_config.
Variable req : account_request.

Lemma connect_ok (s : session) :
  connect_returns cfg d = true -> exists s', connect d cfg s = (Ok tt, s').
Proof.
  unfold connect_returns, connect, invoke, bind, record_call, set_conn, lift, ret.
  destruct (on_connect d) as [[]|e]; simpl; [|discriminate].
  destruct (is_starttls cfg); simpl; [|eauto].
  destruct (on_open d) as [[]|e]; simpl; [|discriminate].
  destruct (on_start_tls d) as [b|e]; simpl; [|discriminate].
  destruct (on_bind d) as [b'|e]; simpl; [eauto|discriminate].
Qed.

(** What the two [except] clauses make of the body of the [try]. *)
Lemma catch_on_exception (m : Sess outcome) (s : session) :
  fst (catch m (on_exception self) s)
    = match fst (m s) with
      | Ok o => Ok o
      | Raise x => Ok (failed (exn_str x))
      end /\
  calls (snd (catch m (on_exception self) s)) = calls (snd (m s)).
Proof.
  unfold catch. destruct (m s) as [[o|x] s']; simpl; split; reflexivity.
Qed.

Lemma calls_finally_unbind (s : session) :
  exists tail, calls (finally_unbind s) = calls s ++ tail /\
    (tail = [] \/ tail = [CallUnbind]).
Proof.
  unfold finally_unbind. destruct (conn s) as [[]|]; simpl.
  - exists [CallUnbind]. auto.
  - exists []. rewrite app_nil_r. auto.
  - exists []. rewrite app_nil_r. auto.
Qed.

(** Once the connection phase has returned, the session is the pipeline
    run from there, under the handlers and the [finally] clause. *)
Lemma ldap_session_connected (s1 : session) :
  connect d cfg no_session = (Ok tt, s1) ->
  fst (ldap_session env d self cfg req)
    = match fst (provision env d self cfg req s1) with
      | Ok o => Ok o
      | Raise x => Ok (failed (exn_str x))
      end /\
  exists tail,
    calls (snd (ldap_session env d self cfg req))
      = calls (snd (provision env d self cfg req s1)) ++ tail /\
    (tail = [] \/ tail = [CallUnbind]).
Proof.
  intros Hc. unfold ldap_session.
  assert (Hbody : forall s, catch (try_body env d self cfg req) (on_exception self) no_session = s ->
            s = catch (provision env d self cfg req) (on_exception self) s1).
  { intros s <-. unfold catch, try_body, bind. rewrite Hc. reflexivity. }
  rewrite (Hbody _ eq_refl).
  destruct (catch_on_exception (provision env d self cfg req) s1) as [Hr Hcalls].
  destruct (catch (provision env d self cfg req) (on_exception self) s1) as [r s].
  simpl in *. split; [exact Hr|].
  destruct (calls_finally_unbind s) as (tail & Ht & Hcases).
  exists tail. rewrite Ht, Hcalls. auto.
Qed.

(** The calls of the connection phase are not add requests. *)
Lemma connect_no_add (s1 : session) :
  connect d cfg no_session = (Ok tt, s1) ->
  Forall (fun c => is_add c = false) (calls s1).
Proof.
  intros Hc.
  pose proof (all_calls_connect (fun c => is_add c = false) d cfg
                (fun c _ H => H) no_session) as H.
  rewrite Hc in H. apply H. constructor.
Qed.

Lemma provision_existing (s : session) (e : ldap_entry) (es : list ldap_entry) :
  on_search_existing d = Ok (e :: es) ->
  calls (snd (provision env d self cfg req s))
    = calls s ++ [CallSearch (users_ou cfg) (search_filter req) ["distinguishedName"]] /\
  fst (provision env d self cfg req s)
    = match distinguishedName e with
      | Ok dn => Ok (failed ("User already exists: " +:+ dn))
      | Raise x => Raise x
      end.
Proof.
  intros Hs. unfold provision, and_then, check_existing, invoke, bind, record_call, lift, ret.
  simpl. rewrite Hs. simpl. destruct (distinguishedName e); simpl; split; reflexivity.
Qed.

(** The existing-account path of a session. *)
Lemma ldap_session_existing (e : ldap_entry) (es : list ldap_entry) :
  connect_returns cfg d = true ->
  on_search_existing d = Ok (e :: es) ->
  Forall (fun c => is_add c = false) (calls (snd (ldap_session env d self cfg req))) /\
  In (CallSearch (users_ou cfg) (search_filter req) ["distinguishedName"])
     (calls (snd (ldap_session env d self cfg req))) /\
  (forall dn, distinguishedName e = Ok dn ->
     fst (ldap_session env d self cfg req)
       = Ok (failed ("User already exists: " +:+ dn))).
Proof.
  intros Hconn Hsearch.
  destruct (connect_ok no_session Hconn) as [s1 Hs1].
  destruct (ldap_session_connected s1 Hs1) as (Hr & tail & Hcalls & Htail).
  destruct (provision_existing s1 e es Hsearch) as [Hpc Hpr].
  rewrite Hpc in Hcalls. rewrite Hpr in Hr. rewrite Hcalls. split; [|split].
  - apply Forall_app. split; [apply Forall_app; split|].
    + apply connect_no_add, Hs1.
    + constructor; [reflexivity|constructor].
    + destruct Htail as [-> | ->]; [constructor|].
      constructor; [reflexivity|constructor].
  - apply in_or_app. left. apply in_or_app. right. left. reflexivity.
  - intros dn Hdn. rewrite Hr, Hdn. reflexivity.
Qed.

End Paths.

(** C5. When the existence check, a search under [users_ou], returns at
    least one entry, the attempt ends with the existing-account outcome
    that carries the distinguished name of the first entry, and no add
    request is made during the attempt. *)
Theorem C5_existing_account (env : environment) (d : directory) (r : rng)
    (self : hr_employee) (cfg : ad_config) (e : ldap_entry) (es : list ldap_entry) :
  _get_ad_config (params env) = Ok cfg ->
  calls (snd (_create_ad_user_ldap env d r self)) ≠ [] ->
  connect_returns cfg d = true ->
  on_search_existing d = Ok (e :: es) ->
  Forall (fun c => is_add c = false) (calls (snd (_create_ad_user_ldap env d r self))) /\
  (exists filter, In (CallSearch (users_ou cfg) filter ["distinguishedName"])
                    (calls (snd (_create_ad_user_ldap env d r self)))) /\
  (forall dn, distinguishedName e = Ok dn ->
     fst (_create_ad_user_ldap env d r self)
       = Ok (failed ("User already exists: " +:+ dn))).
Proof.
  intros Hcfg Hcalls Hconn Hsearch.
  destruct (reached_directory env d r self Hcalls) as (cfg' & req & Hcfg' & _ & ->).
  assert (cfg' = cfg) as -> by congruence.
  destruct (ldap_session_existing env d self cfg req e es Hconn Hsearch)
    as (Hadd & Hin & Hres).
  split; [exact Hadd|]. split; [eauto|exact Hres].
Qed.

Lemma C5_existing_account_witness :
  Forall (fun c => is_add c = false)
    (calls (snd (_create_ad_user_ldap linux_env existing_directory sample_draws john))) /\
  fst (_create_ad_user_ldap linux_env existing_directory sample_draws john)
    = Ok (failed "User already exists: CN=John Doe,OU=Staff,DC=employee,DC=local").
Proof.
  assert (Hcfg : _get_ad_config (params linux_env) = Ok sample_config)
    by (vm_compute; reflexivity).
  assert (Hcalls : calls (snd (_create_ad_user_ldap linux_env existing_directory
                                 sample_draws john)) ≠ [])
    by (vm_compute; discriminate).
  destruct (C5_existing_account linux_env existing_directory sample_draws john
              sample_config _ _ Hcfg Hcalls eq_refl eq_refl) as (Hadd & _ & Hres).
  split; [exact Hadd|]. apply Hres. reflexivity.
Defined.

Section MorePaths.

Variable env : environment.
Variable d : directory.
Variable self : hr_employee.
Variable cfg : ad_config.
Variable req : account_request.

Lemma provision_password_refused (s : session) (ra rp : ldap_result) :
  on_search_existing d = Ok [] ->
  on_add d = Ok ra -> is_success ra = true ->
  on_set_password d = Ok rp -> is_success rp = false -> result_code rp = Some 53 ->
  (platform env = "win32" ->
   forall e, on_net_user d = Raise e -> fallback_handled (exn_cls e) = true ->
   fst (provision env d self cfg req s)
     = Ok (failed "AD refused password set over LDAP. Enable LDAPS/StartTLS on the DC.")) /\
  (platform env ≠ "win32" ->
   fst (provision env d self cfg req s)
     = Ok (failed ("Set password failed: " +:+ shown rp))).
Proof.
  intros Hs Ha Hsa Hp Hsp Hcode.
  unfold provision, and_then, check_existing, create_user, set_password,
    invoke, bind, catch, record_call, lift, ret.
  simpl. rewrite Hs. simpl. rewrite Ha. simpl. rewrite Hsa. simpl.
  rewrite Hp. simpl. rewrite Hsp, Hcode. simpl. split.
  - intros Hwin e He Hh. rewrite Hwin. simpl. rewrite He. simpl. rewrite Hh. reflexivity.
  - intros Hnot. rewrite (bool_decide_eq_false_2 _ Hnot). reflexivity.
Qed.

Lemma add_to_group_returns (i : nat) (g : string) (s : session) :
  exists s' extra, add_to_group d cfg req i g s = (Ok tt, s') /\
    calls s' = calls s ++ group_search cfg g :: extra.
Proof.
  unfold add_to_group, _find_ad_group_dn, invoke, bind, catch, record_call, lift, ret, log,
    group_search.
  simpl. destruct (on_group_search d i) as [[|e es]|x]; simpl.
  - eexists _, []. split; reflexivity.
  - destruct (distinguishedName e) as [dn|x]; simpl.
    + destruct (Py.nonempty dn); simpl.
      * destruct (on_group_modify d i) as [rm|x]; simpl.
        -- destruct (is_success rm); simpl; eexists _, [_]; split; try reflexivity;
             simpl; rewrite <- app_assoc; reflexivity.
        -- eexists _, [_]; split; try reflexivity; simpl; rewrite <- app_assoc; reflexivity.
      * eexists _, []. split; reflexivity.
    + eexists _, []. split; reflexivity.
  - eexists _, []. split; reflexivity.
Qed.

Lemma add_to_groups_returns (groups : list string) (i : nat) (s : session) :
  exists s' extra, add_to_groups d cfg req i groups s = (Ok tt, s') /\
    calls s' = calls s ++ extra /\
    forall k g, groups !! k = Some g -> In (group_search cfg g) extra.
Proof.
  revert i s. induction groups as [|g gs IH]; intros i s.
  - exists s, []. simpl. rewrite app_nil_r. repeat split. intros k g Hk. discriminate Hk.
  - destruct (add_to_group_returns i g s) as (s1 & ex1 & H1 & Hc1).
    destruct (IH (S i) s1) as (s2 & ex2 & H2 & Hc2 & Hin).
    exists s2, (group_search cfg g :: ex1 ++ ex2). split; [|split].
    + simpl. unfold bind. rewrite H1. exact H2.
    + rewrite Hc2, Hc1. rewrite <- app_assoc. reflexivity.
    + intros [|k] g' Hk; simpl in Hk.
      * injection Hk as <-. left. reflexivity.
      * right. apply in_or_app. right. eapply Hin, Hk.
Qed.

Lemma provision_created (s : session) (ra rp re : ldap_result)
    (e : ldap_entry) (es : list ldap_entry) (uac : Z) :
  on_search_existing d = Ok [] ->
  on_add d = Ok ra -> is_success ra = true ->
  on_set_password d = Ok rp -> is_success rp = true ->
  on_enable d = Ok re -> is_success re = true ->
  on_verify d = Ok (e :: es) -> userAccountControl e = Ok uac -> Z.land uac 2 = 0 ->
  fst (provision env d self cfg req s) = Ok (created (login req) (password req)) /\
  forall k g, default_groups cfg !! k = Some g ->
    In (group_search cfg g) (calls (snd (provision env d self cfg req s))).
Proof.
  intros Hs Ha Hsa Hp Hsp He Hse Hv Hu Hbit.
  unfold provision, and_then, check_existing, create_user, set_password, enable_account,
    verify_enabled, invoke, bind, catch, record_call, lift, ret, log.
  simpl. rewrite Hs. simpl. rewrite Ha. simpl. rewrite Hsa. simpl.
  rewrite Hp. simpl. rewrite Hsp. simpl. rewrite He. simpl. rewrite Hse. simpl.
  rewrite Hv. simpl. rewrite Hu. simpl. rewrite Hbit. simpl.
  match goal with |- context [add_to_groups d cfg req 0 (default_groups cfg) ?s0] =>
    destruct (add_to_groups_returns (default_groups cfg) 0 s0) as (s' & extra & Hg & Hc & Hin)
  end.
  rewrite Hg. simpl. split; [reflexivity|].
  intros k g Hk. rewrite Hc. apply in_or_app. right. eapply Hin, Hk.
Qed.

(** From the pipeline to the session, for a path that returns. *)
Lemma ldap_session_returns (o : outcome) :
  connect_returns cfg d = true ->
  (forall s, fst (provision env d self cfg req s) = Ok o) ->
  fst (ldap_session env d self cfg req) = Ok o.
Proof.
  intros Hconn Hp.
  destruct (connect_ok d cfg no_session Hconn) as [s1 Hs1].
  destruct (ldap_session_connected env d self cfg req s1 Hs1) as (Hr & _).
  rewrite Hr, Hp. reflexivity.
Qed.

End MorePaths.

Lemma derive_request_fields (cfg : ad_config) (self : hr_employee) (r : rng)
    (req : account_request) :
  derive_request cfg self r = Ok (inr req) ->
  login req = login_of_email (Py.strip (Py.or_empty (work_email self))) /\
  password req = fst (_generate_ad_password r).
Proof.
  unfold derive_request. intros H.
  destruct (match Py.split_ws_1 _ with [] => _ | _ => _ end) as [last|e];
    simpl in H; [|discriminate].
  destruct (negb (Py.nonempty (Py.strip (Py.or_empty (work_email self)))));
    [discriminate|].
  injection H as <-. split; reflexivity.
Qed.

(* ===================================================================== *)
(** * Two attempts compared                                               *)
(* ===================================================================== *)

Section Related.

Lemma related_ret {A} (a : A) : related eq (ret a) (ret a).
Proof. intros s1 s2. reflexivity. Qed.

Lemma related_lift {A} (r : res A) : related eq (lift r) (lift r).
Proof. intros s1 s2. reflexivity. Qed.

Lemma related_log (l1 l2 : log_level) (m1 m2 : string) : related eq (log l1 m1) (log l2 m2).
Proof. intros s1 s2. reflexivity. Qed.

Lemma related_bind {A B} (R : res B -> res B -> Prop)
    (m1 m2 : Sess A) (k1 k2 : A -> Sess B) :
  (forall e, R (Raise e) (Raise e)) ->
  related eq m1 m2 -> (forall a, related R (k1 a) (k2 a)) ->
  related R (bind m1 k1) (bind m2 k2).
Proof.
  intros Hrefl Hm Hk s1 s2. unfold bind. specialize (Hm s1 s2).
  destruct (m1 s1) as [[a1|e1] s1'], (m2 s2) as [[a2|e2] s2']; simpl in Hm;
    try discriminate.
  - injection Hm as ->. apply Hk.
  - injection Hm as ->. apply Hrefl.
Qed.

Lemma related_catch {A} (m1 m2 : Sess A) (h1 h2 : exn -> Sess A) :
  related eq m1 m2 -> (forall e, related eq (h1 e) (h2 e)) ->
  related eq (catch m1 h1) (catch m2 h2).
Proof.
  intros Hm Hh s1 s2. unfold catch. specialize (Hm s1 s2).
  destruct (m1 s1) as [[a1|e1] s1'], (m2 s2) as [[a2|e2] s2']; simpl in Hm;
    try discriminate.
  - exact Hm.
  - injection Hm as ->. apply Hh.
Qed.

Lemma related_invoke {A} (c1 c2 : call) (answer : res A) :
  related eq (invoke c1 answer) (invoke c2 answer).
Proof. intros s1 s2. reflexivity. Qed.

Lemma related_and_then (R : res outcome -> res outcome -> Prop)
    (st1 st2 : Sess (option outcome)) (k1 k2 : Sess outcome) :
  (forall r, R r r) ->
  related eq st1 st2 -> related R k1 k2 ->
  related R (and_then st1 k1) (and_then st2 k2).
Proof.
  intros Hrefl Hst Hk. unfold and_then.
  apply related_bind; [intros e; apply Hrefl|exact Hst|].
  intros [o|]; [intros s1 s2; apply Hrefl|exact Hk].
Qed.

Variable env : environment.
Variable self : hr_employee.
Variable cfg : ad_config.
Variables d1 d2 : directory.
Variables req1 req2 : account_request.
Hypothesis Hsame : same_but_groups d1 d2.

Lemma related_connect : related eq (connect d1 cfg) (connect d2 cfg).
Proof.
  destruct Hsame as (H1 & H2 & H3 & H4 & _).
  unfold connect. rewrite <- H1, <- H2, <- H3, <- H4.
  apply related_bind; [reflexivity|intros s1 s2; reflexivity|]. intros _.
  apply related_bind; [reflexivity|apply related_lift|]. intros _.
  apply related_bind; [reflexivity|intros s1 s2; reflexivity|]. intros _.
  destruct (is_starttls cfg); [|apply related_ret].
  apply related_bind; [reflexivity|apply related_invoke|]. intros _.
  apply related_bind; [reflexivity|apply related_invoke|]. intros _.
  apply related_bind; [reflexivity|apply related_invoke|]. intros b.
  intros s1 s2; reflexivity.
Qed.

Lemma related_check_existing :
  related eq (check_existing d1 cfg req1) (check_existing d2 cfg req2).
Proof.
  destruct Hsame as (_ & _ & _ & _ & H5 & _).
  unfold check_existing. rewrite <- H5.
  apply related_bind; [reflexivity|apply related_invoke|].
  intros [|e es]; [apply related_ret|].
  apply related_bind; [reflexivity|apply related_lift|]. intros dn. apply related_ret.
Qed.

Lemma related_create_user :
  related eq (create_user d1 self req1) (create_user d2 self req2).
Proof.
  destruct Hsame as (_ & _ & _ & _ & _ & H6 & _).
  unfold create_user. rewrite <- H6.
  apply related_bind; [reflexivity|apply related_invoke|].
  intros r. destruct (is_success r); apply related_ret.
Qed.

Lemma related_set_password :
  related eq (set_password env d1 req1) (set_password env d2 req2).
Proof.
  destruct Hsame as (_ & _ & _ & _ & _ & _ & H7 & H8 & _).
  unfold set_password. rewrite <- H7, <- H8.
  apply related_bind; [reflexivity|apply related_invoke|].
  intros r. destruct (is_success r); [apply related_ret|].
  destruct (_ && _); [|apply related_ret].
  apply related_catch.
  - apply related_bind; [reflexivity|apply related_invoke|]. intros _. apply related_ret.
  - intros e. destruct (fallback_handled (exn_cls e)); [apply related_ret|apply related_lift].
Qed.

Lemma related_enable_account :
  related eq (enable_account d1 req1) (enable_account d2 req2).
Proof.
  destruct Hsame as (_ & _ & _ & _ & _ & _ & _ & _ & H9 & _).
  unfold enable_account. rewrite <- H9.
  apply related_bind; [reflexivity|apply related_invoke|].
  intros r. destruct (is_success r); apply related_ret.
Qed.

Lemma related_verify_enabled :
  related eq (verify_enabled d1 req1) (verify_enabled d2 req2).
Proof.
  destruct Hsame as (_ & _ & _ & _ & _ & _ & _ & _ & _ & H10).
  unfold verify_enabled. rewrite <- H10.
  apply related_bind; [reflexivity|apply related_invoke|].
  intros [|e es]; [apply related_ret|].
  apply related_bind; [reflexivity|apply related_lift|]. intros uac.
  destruct (negb _); apply related_ret.
Qed.

Lemma related_add_to_groups (groups : list string) :
  related eq (add_to_groups d1 cfg req1 0 groups) (add_to_groups d2 cfg req2 0 groups).
Proof.
  intros s1 s2.
  destruct (add_to_groups_returns d1 cfg req1 groups 0 s1) as (s1' & ex1 & -> & _).
  destruct (add_to_groups_returns d2 cfg req2 groups 0 s2) as (s2' & ex2 & -> & _).
  reflexivity.
Qed.

Variable R : res outcome -> res outcome -> Prop.
Hypothesis Hrefl : forall r, R r r.
Hypothesis Hcreated :
  R (Ok (created (login req1) (password req1))) (Ok (created (login req2) (password req2))).
Hypothesis Hhandled : forall r1 r2, R r1 r2 -> R (handled r1) (handled r2).

Lemma related_provision :
  related R (provision env d1 self cfg req1) (provision env d2 self cfg req2).
Proof.
  unfold provision.
  apply related_and_then; [exact Hrefl|apply related_check_existing|].
  apply related_and_then; [exact Hrefl|apply related_create_user|].
  apply related_and_then; [exact Hrefl|apply related_set_password|].
  apply related_and_then; [exact Hrefl|apply related_enable_account|].
  apply related_and_then; [exact Hrefl|apply related_verify_enabled|].
  apply related_bind; [intros e; apply Hrefl|apply related_add_to_groups|]. intros _.
  apply related_bind; [intros e; apply Hrefl|apply related_log|]. intros _.
  intros s1 s2. exact Hcreated.
Qed.

Lemma related_ldap_session :
  R (fst (ldap_session env d1 self cfg req1)) (fst (ldap_session env d2 self cfg req2)).
Proof.
  assert (Hbody : related R (try_body env d1 self cfg req1) (try_body env d2 self cfg req2)).
  { unfold try_body. apply related_bind; [intros e; apply Hrefl|apply related_connect|].
    intros _. apply related_provision. }
  unfold ldap_session.
  pose proof (proj1 (catch_on_exception self (try_body env d1 self cfg req1) no_session)) as E1.
  pose proof (proj1 (catch_on_exception self (try_body env d2 self cfg req2) no_session)) as E2.
  destruct (catch (try_body env d1 self cfg req1) (on_exception self) no_session) as [r1 t1].
  destruct (catch (try_body env d2 self cfg req2) (on_exception self) no_session) as [r2 t2].
  simpl in *. rewrite E1, E2. apply Hhandled, Hbody.
Qed.

End Related.

(** The answers of the group step do not reach the result. *)
Lemma create_ad_user_groups_irrelevant (env : environment) (d1 d2 : directory)
    (r : rng) (self : hr_employee) :
  same_but_groups d1 d2 ->
  fst (_create_ad_user_ldap env d1 r self) = fst (_create_ad_user_ldap env d2 r self).
Proof.
  intros Hsame. unfold _create_ad_user_ldap.
  destruct (negb (ldap3_available env)); [reflexivity|].
  destruct (_get_ad_config (params env)) as [cfg|e]; [|reflexivity].
  destruct (negb (Py.nonempty (admin_password cfg))); [reflexivity|].
  destruct (negb (Py.nonempty (ad_server cfg)) || negb (Py.nonempty (domain cfg)));
    [reflexivity|].
  destruct (derive_request cfg self r) as [[early|req]|e]; [reflexivity| |reflexivity].
  apply (related_ldap_session env self cfg d1 d2 req req Hsame eq);
    [reflexivity|reflexivity|intros r1 r2 ->; reflexivity].
Qed.

Lemma same_but_groups_refl (d : directory) : same_but_groups d d.
Proof. repeat split; reflexivity. Qed.

(** The random draws reach the result through the password alone. *)
Lemma create_ad_user_password_free (env : environment) (d : directory)
    (r1 r2 : rng) (self : hr_employee) :
  without_password (fst (_create_ad_user_ldap env d r1 self))
  = without_password (fst (_create_ad_user_ldap env d r2 self)).
Proof.
  unfold _create_ad_user_ldap.
  destruct (negb (ldap3_available env)); [reflexivity|].
  destruct (_get_ad_config (params env)) as [cfg|e]; [|reflexivity].
  destruct (negb (Py.nonempty (admin_password cfg))); [reflexivity|].
  destruct (negb (Py.nonempty (ad_server cfg)) || negb (Py.nonempty (domain cfg)));
    [reflexivity|].
  unfold derive_request.
  destruct (match Py.split_ws_1 _ with [] => _ | _ => _ end) as [last|e];
    simpl; [|reflexivity].
  destruct (negb (Py.nonempty (Py.strip (Py.or_empty (work_email self)))));
    [reflexivity|].
  apply (related_ldap_session env self cfg d d _ _ (same_but_groups_refl d)
           (fun a b => without_password a = without_password b)).
  - reflexivity.
  - reflexivity.
  - intros [[[l1 e1] p1]|x1] [[[l2 e2] p2]|x2] H; simpl in *; congruence.
Qed.

(* ===================================================================== *)
(** * The password step                                                   *)
(* ===================================================================== *)

(** C2, as the claim states it, fails: on a host that is not Windows the
    refusal with code 53 ends the attempt with the generic message that
    prints the raw result, not with the plaintext-channel message. *)
Lemma C2_counterexample :
  result_code unwilling_result = Some 53 /\
  platform linux_env ≠ "win32" /\
  fst (_create_ad_user_ldap linux_env refusing_directory sample_draws john)
    = Ok (failed "Set password failed: {'result': 53, 'description': 'unwillingToPerform'}") /\
  fst (_create_ad_user_ldap linux_env refusing_directory sample_draws john)
    ≠ Ok (failed plaintext_channel_message).
Proof.
  split; [reflexivity|]. split; [discriminate|].
  split; [vm_compute; reflexivity|]. vm_compute. discriminate.
Qed.

(** C2 (amended). When the add succeeds and the password modify fails
    with result code 53: on Windows, if the [net user] fallback fails
    (the tool is missing, it exits with an error, or it times out), the
    attempt fails with the plaintext-channel message; on any other
    platform no fallback exists and the attempt fails with the generic
    message that prints the raw result. *)
Theorem C2_password_refused (env : environment) (d : directory) (r : rng)
    (self : hr_employee) (cfg : ad_config) (ra rp : ldap_result) :
  _get_ad_config (params env) = Ok cfg ->
  calls (snd (_create_ad_user_ldap env d r self)) ≠ [] ->
  connect_returns cfg d = true ->
  on_search_existing d = Ok [] ->
  on_add d = Ok ra -> is_success ra = true ->
  on_set_password d = Ok rp -> is_success rp = false -> result_code rp = Some 53 ->
  (platform env = "win32" ->
   forall e, on_net_user d = Raise e -> fallback_handled (exn_cls e) = true ->
   fst (_create_ad_user_ldap env d r self) = Ok (failed plaintext_channel_message)) /\
  (platform env ≠ "win32" ->
   fst (_create_ad_user_ldap env d r self)
     = Ok (failed ("Set password failed: " +:+ shown rp))).
Proof.
  intros Hcfg Hcalls Hconn Hs Ha Hsa Hp Hsp Hcode.
  destruct (reached_directory env d r self Hcalls) as (cfg' & req & Hcfg' & _ & ->).
  assert (cfg' = cfg) as -> by congruence.
  split.
  - intros Hwin e He Hh. apply ldap_session_returns; [exact Hconn|]. intros s.
    exact (proj1 (provision_password_refused env d self cfg req s ra rp
                    Hs Ha Hsa Hp Hsp Hcode) Hwin e He Hh).
  - intros Hnot. apply ldap_session_returns; [exact Hconn|]. intros s.
    exact (proj2 (provision_password_refused env d self cfg req s ra rp
                    Hs Ha Hsa Hp Hsp Hcode) Hnot).
Qed.

Lemma C2_password_refused_witness :
  fst (_create_ad_user_ldap windows_env refusing_directory sample_draws john)
    = Ok (failed plaintext_channel_message).
Proof.
  assert (Hcfg : _get_ad_config (params windows_env) = Ok sample_config)
    by (vm_compute; reflexivity).
  assert (Hcalls : calls (snd (_create_ad_user_ldap windows_env refusing_directory
                                 sample_draws john)) ≠ [])
    by (vm_compute; discriminate).
  refine (proj1 (C2_password_refused windows_env refusing_directory sample_draws john
                   sample_config success_result unwilling_result
                   Hcfg Hcalls eq_refl eq_refl eq_refl eq_refl eq_refl eq_refl eq_refl)
            eq_refl _ eq_refl eq_refl).
Defined.

(* ===================================================================== *)
(** * The default groups                                                  *)
(* ===================================================================== *)

(** C6. The answers of the directory in the group step (group not
    found, modify rejected, exception raised) never change the result of
    the attempt: two directories that differ in the group step only give
    the same result.  When the add, the password modify, the enabling
    and the verification succeed, that result is the login and the
    password, whatever happens in the group step, and every default
    group is searched for, in spite of the failures of the groups
    before it. *)
Theorem C6_group_failures_not_fatal (env : environment) (d : directory) (r : rng)
    (self : hr_employee) :
  (forall d', same_but_groups d d' ->
     fst (_create_ad_user_ldap env d' r self) = fst (_create_ad_user_ldap env d r self)) /\
  (forall (cfg : ad_config) (ra rp re : ldap_result)
          (e : ldap_entry) (es : list ldap_entry) (uac : Z),
     _get_ad_config (params env) = Ok cfg ->
     calls (snd (_create_ad_user_ldap env d r self)) ≠ [] ->
     connect_returns cfg d = true ->
     on_search_existing d = Ok [] ->
     on_add d = Ok ra -> is_success ra = true ->
     on_set_password d = Ok rp -> is_success rp = true ->
     on_enable d = Ok re -> is_success re = true ->
     on_verify d = Ok (e :: es) -> userAccountControl e = Ok uac -> Z.land uac 2 = 0 ->
     fst (_create_ad_user_ldap env d r self)
       = Ok (created (login_of_email (Py.strip (Py.or_empty (work_email self))))
                     (fst (_generate_ad_password r))) /\
     (forall k g, default_groups cfg !! k = Some g ->
        In (group_search cfg g) (calls (snd (_create_ad_user_ldap env d r self))))).
Proof.
  split.
  { intros d' Hsame. symmetry. apply create_ad_user_groups_irrelevant, Hsame. }
  intros cfg ra rp re e es uac Hcfg Hcalls Hconn Hs Ha Hsa Hp Hsp He Hse Hv Hu Hbit.
  destruct (reached_directory env d r self Hcalls) as (cfg' & req & Hcfg' & Hreq & ->).
  assert (cfg' = cfg) as -> by congruence.
  destruct (derive_request_fields cfg self r req Hreq) as [<- <-].
  split.
  - apply ldap_session_returns; [exact Hconn|]. intros s.
    exact (proj1 (provision_created env d self cfg req s ra rp re e es uac
                    Hs Ha Hsa Hp Hsp He Hse Hv Hu Hbit)).
  - intros k g Hk.
    destruct (connect_ok d cfg no_session Hconn) as [s1 Hs1].
    destruct (ldap_session_connected env d self cfg req s1 Hs1) as (_ & tail & Hc & _).
    rewrite Hc. apply in_or_app. left.
    exact (proj2 (provision_created env d self cfg req s1 ra rp re e es uac
                    Hs Ha Hsa Hp Hsp He Hse Hv Hu Hbit) k g Hk).
Qed.

Lemma C6_group_failures_not_fatal_witness :
  fst (_create_ad_user_ldap groups_env willing_directory sample_draws john)
    = fst (_create_ad_user_ldap groups_env failing_groups_directory sample_draws john) /\
  fst (_create_ad_user_ldap groups_env failing_groups_directory sample_draws john)
    = Ok (created "johndoe" "kM0Bg7%u%7TDn") /\
  In (group_search groups_config "Printers")
     (calls (snd (_create_ad_user_ldap groups_env failing_groups_directory
                    sample_draws john))).
Proof.
  assert (Hcfg : _get_ad_config (params groups_env) = Ok groups_config)
    by (vm_compute; reflexivity).
  assert (Hcalls : calls (snd (_create_ad_user_ldap groups_env failing_groups_directory
                                 sample_draws john)) ≠ [])
    by (vm_compute; discriminate).
  destruct (C6_group_failures_not_fatal groups_env failing_groups_directory sample_draws
              john) as [Hsame Hcreated].
  destruct (Hcreated groups_config success_result success_result success_result
              (entry_of "CN=John Doe,CN=Users,DC=employee,DC=local" 512) [] 512
              Hcfg Hcalls eq_refl eq_refl eq_refl eq_refl eq_refl eq_refl eq_refl eq_refl
              eq_refl eq_refl eq_refl) as [Hres Hgroups].
  split; [|split].
  - apply Hsame. repeat split; reflexivity.
  - exact Hres.
  - apply (Hgroups 2%nat). reflexivity.
Defined.

(* ===================================================================== *)
(** * Reporting                                                           *)
(* ===================================================================== *)

(** Nothing that an attempt writes on the employee depends on the
    random draws, hence on the password: the draws and the answer of the
    mail gateway reach the mails alone. *)
Lemma onboard_employee_password_free (env : environment) (d : directory)
    (r1 r2 : rng) (gw1 gw2 : res unit) (st : store) :
  employee (onboard env {| dir := d; draws := r1; gateway := gw1 |} st)
  = employee (onboard env {| dir := d; draws := r2; gateway := gw2 |} st).
Proof.
  unfold onboard. simpl.
  destruct (_validate_employee_for_ad (employee st)); [reflexivity|].
  pose proof (create_ad_user_password_free env d r1 r2 (employee st)) as H.
  destruct (fst (_create_ad_user_ldap env d r1 (employee st))) as [[[l1 e1] p1]|x1],
           (fst (_create_ad_user_ldap env d r2 (employee st))) as [[[l2 e2] p2]|x2];
    simpl in H; try discriminate.
  - injection H as -> ->. destruct (Py.truthy e2); reflexivity.
  - injection H as ->. reflexivity.
Qed.

(** C7. The success report posts one chatter message that is a function
    of the login and of the work email alone: two runs of it that differ
    only in the generated password leave the same chatter.  And over a
    whole attempt, the chatter and the other fields of the employee are
    the same whatever password the random source yields. *)
Theorem C7_password_not_in_chatter :
  (exists render : option string -> option string -> mail_message,
     forall env gw message login initial_password st,
       message_ids (employee (_log_ad_onboarding_result env gw true message login
                                initial_password st))
       = render login (work_email (employee st)) :: message_ids (employee st)) /\
  (forall env gw message login pw1 pw2 st,
     message_ids (employee (_log_ad_onboarding_result env gw true message login pw1 st))
     = message_ids (employee (_log_ad_onboarding_result env gw true message login pw2 st))) /\
  (forall env d r1 r2 gw1 gw2 st,
     message_ids (employee (onboard env {| dir := d; draws := r1; gateway := gw1 |} st))
     = message_ids (employee (onboard env {| dir := d; draws := r2; gateway := gw2 |} st))).
Proof.
  split; [|split].
  - exists (fun login mail =>
              {| body :=
                   "Active Directory account created successfully.<br/>Username: <strong>"
                     +:+ Py.or_else login "N/A"
                     +:+ "</strong><br/>Credentials have been sent to the employee's email (<strong>"
                     +:+ Py.or_else mail "N/A" +:+ "</strong>).";
                 body_is_markup := true;
                 message_type := "notification";
                 subtype_xmlid := "mail.mt_note" |}).
    intros. reflexivity.
  - intros. reflexivity.
  - intros. f_equal. apply onboard_employee_password_free.
Qed.

(** The chatter and the status after a failure report. *)
Lemma log_failure_posts_one (env : environment) (gw : res unit)
    (message : option string) (st : store) :
  let st' := _log_ad_onboarding_result env gw false message None None st in
  new_messages (employee st) (employee st')
    = [{| body := failure_body message; body_is_markup := false;
          message_type := "notification"; subtype_xmlid := "mail.mt_note" |}] /\
  message_ids (employee st') = new_messages (employee st) (employee st') ++ message_ids (employee st) /\
  ad_sync_status (employee st') = ad_sync_status (employee st) /\
  outbox st' = outbox st.
Proof.
  unfold new_messages. simpl.
  replace (S (length (message_ids (employee st))) - length (message_ids (employee st)))%nat
    with 1%nat by lia.
  repeat split; reflexivity.
Qed.

(** A validation failure is reported in the chatter, once, and leaves
    the sync status as it was. *)
Lemma onboard_validation_failure (env : environment) (a : attempt) (st : store)
    (err : string) :
  _validate_employee_for_ad (employee st) = Some err ->
  let st' := onboard env a st in
  ad_sync_status (employee st') = ad_sync_status (employee st) /\
  new_messages (employee st) (employee st')
    = [{| body := failure_body (Some err); body_is_markup := false;
          message_type := "notification"; subtype_xmlid := "mail.mt_note" |}].
Proof.
  intros Hv. unfold onboard. rewrite Hv.
  destruct (log_failure_posts_one env (gateway a) (Some err) st) as (Hn & _ & Hs & _).
  split; [exact Hs|exact Hn].
Qed.

(** A failure of the directory step, returned with a message or raised,
    sets the sync status to [error] and is reported in the chatter once. *)
Lemma onboard_directory_failure (env : environment) (a : attempt) (st : store) :
  _validate_employee_for_ad (employee st) = None ->
  let run := fst (_create_ad_user_ldap env (dir a) (draws a) (employee st)) in
  let st' := onboard env a st in
  (forall login err pw, run = Ok (login, Some err, pw) -> err ≠ "" ->
     ad_sync_status (employee st') = error /\
     new_messages (employee st) (employee st')
       = [{| body := failure_body (Some err); body_is_markup := false;
             message_type := "notification"; subtype_xmlid := "mail.mt_note" |}]) /\
  (forall e, run = Raise e ->
     ad_sync_status (employee st') = error /\
     new_messages (employee st) (employee st')
       = [{| body := failure_body (Some (exn_str e)); body_is_markup := false;
             message_type := "notification"; subtype_xmlid := "mail.mt_note" |}]).
Proof.
  intros Hv run st'. subst run st'. unfold onboard. rewrite Hv. split.
  - intros login err pw Hrun Hne. rewrite Hrun.
    assert (Ht : Py.truthy (Some err) = true) by (destruct err; [congruence|reflexivity]).
    rewrite Ht.
    destruct (log_failure_posts_one env (gateway a) (Some err)
                (with_employee (write_status error) st)) as (Hn & _ & Hs & _).
    split; [exact Hs|exact Hn].
  - intros e Hrun. rewrite Hrun.
    destruct (log_failure_posts_one env (gateway a) (Some (exn_str e))
                (with_employee (write_status error) st)) as (Hn & _ & Hs & _).
    split; [exact Hs|exact Hn].
Qed.

(** What an attempt writes on the employee does not depend on the mails
    sent before it. *)
Lemma onboard_employee_outbox (env : environment) (a : attempt) (e : hr_employee)
    (o1 o2 : list mail_mail) :
  employee (onboard env a {| employee := e; outbox := o1 |})
  = employee (onboard env a {| employee := e; outbox := o2 |}).
Proof.
  unfold onboard. simpl.
  destruct (_validate_employee_for_ad e); [reflexivity|].
  destruct (fst (_create_ad_user_ldap env (dir a) (draws a) e)) as [[[l er] p]|x];
    [|reflexivity].
  destruct (Py.truthy er); reflexivity.
Qed.

(** The loop over the record set: each employee is onboarded on its own,
    whatever happened to the employees before it. *)
Lemma onboarding_done_each (env : environment) (self : list (hr_employee * attempt))
    (out : list mail_mail) :
  fst (_onboarding_activity_create_ad_done env self out)
  = map (fun ea => employee (onboard env (snd ea) {| employee := fst ea; outbox := [] |}))
        self.
Proof.
  revert out. induction self as [|[e a] rest IH]; intros out; [reflexivity|].
  simpl. specialize (IH (outbox (onboard env a {| employee := e; outbox := out |}))).
  destruct (_onboarding_activity_create_ad_done env rest _) as [es out'].
  simpl in *. rewrite IH. f_equal. apply onboard_employee_outbox.
Qed.

(** C1 at its failing input: the employee has no work email; the failure
    is reported in the chatter once, and the sync status stays [pending]
    where the claim has [error]. *)
Theorem C1_validation_failure_keeps_status :
  let after :=
    fst (_onboarding_activity_create_ad_done linux_env
           [(jane, sample_attempt willing_directory)] []) in
  _validate_employee_for_ad jane
    = Some "Work email is required to create an Active Directory account." /\
  map ad_sync_status after = [pending] /\
  map (fun e => map body (message_ids e)) after
    = [["Active Directory account creation failed: Work email is required to create an Active Directory account."]].
Proof.
  vm_compute. repeat split; reflexivity.
Qed.

(** A failure whose exception prints as the empty string passes the test
    [if error:] and is recorded as a success. *)
Example silent_failure_recorded_as_success :
  let st := {| employee := john; outbox := [] |} in
  let st' := onboard linux_env (sample_attempt silent_directory) st in
  fst (_create_ad_user_ldap linux_env silent_directory sample_draws john)
    = Ok (failed "") /\
  ad_sync_status (employee st') = success.
Proof. vm_compute. split; reflexivity. Qed.

(* ===================================================================== *)
(** * Escaping                                                            *)
(* ===================================================================== *)

Lemma str_app_assoc (a b c : string) : (a +:+ b) +:+ c = a +:+ (b +:+ c).
Proof. induction a as [|x a IH]; [reflexivity|]. rewrite !app_cons, IH. reflexivity. Qed.

Lemma replace_app (c : ascii) (by_ a b : string) :
  Py.replace c by_ (a +:+ b) = Py.replace c by_ a +:+ Py.replace c by_ b.
Proof.
  induction a as [|x a IH]; [reflexivity|].
  rewrite app_cons. simpl. rewrite IH.
  destruct (Ascii.eqb x c); [|reflexivity].
  symmetry. apply str_app_assoc.
Qed.

Lemma five_replacements_cons (c : ascii) (s : string) :
  five_replacements (String c s) = filter_escape_char c +:+ five_replacements s.
Proof.
  unfold five_replacements.
  change (String c s) with (Py.str1 c +:+ s).
  rewrite !replace_app. f_equal.
  destruct c as [[] [] [] [] [] [] [] []]; reflexivity.
Qed.

Lemma escape_filter_one_pass (s : string) :
  _ldap_escape_filter s = escape_filter_pass s.
Proof.
  unfold _ldap_escape_filter. destruct s as [|c s]; [reflexivity|].
  cbn [Py.nonempty]. fold (five_replacements (String c s)).
  generalize (String c s). clear. intros s.
  induction s as [|c s IH]; [reflexivity|].
  rewrite five_replacements_cons, IH. reflexivity.
Qed.

Lemma unescape_escape_char (c : ascii) (rest : string) :
  unescape_filter (filter_escape_char c +:+ rest) = String c (unescape_filter rest).
Proof. destruct c as [[] [] [] [] [] [] [] []]; reflexivity. Qed.

Lemma filter_safe_escape_char (c : ascii) (rest : string) :
  filter_safe (filter_escape_char c +:+ rest) = filter_safe rest.
Proof. destruct c as [[] [] [] [] [] [] [] []]; reflexivity. Qed.


(** X1. The five replacements of [_ldap_escape_filter], made one after
    the other on the whole string, amount to one substitution made
    character by character: what an earlier replacement writes is never
    rewritten by a later one. *)
Theorem X1_escape_filter_one_pass (s : string) :
  _ldap_escape_filter s = escape_filter_pass s.
Proof. apply escape_filter_one_pass. Qed.

(** X2. Reading an escaped filter value back gives the original string,
    so that two strings with the same escaped form are equal. *)
Theorem X2_escape_filter_roundtrip :
  (forall s, unescape_filter (_ldap_escape_filter s) = s) /\
  (forall s1 s2, _ldap_escape_filter s1 = _ldap_escape_filter s2 -> s1 = s2).
Proof.
  assert (Hrt : forall s, unescape_filter (_ldap_escape_filter s) = s).
  { intros s. rewrite escape_filter_one_pass. induction s as [|c s IH]; [reflexivity|].
    simpl. rewrite unescape_escape_char, IH. reflexivity. }
  split; [exact Hrt|].
  intros s1 s2 H. rewrite <- (Hrt s1), <- (Hrt s2), H. reflexivity.
Qed.

Lemma escape_filter_safe (s : string) : filter_safe (_ldap_escape_filter s) = true.
Proof.
  rewrite escape_filter_one_pass. induction s as [|c s IH]; [reflexivity|].
  simpl. rewrite filter_safe_escape_char. exact IH.
Qed.

(** X3. An escaped filter value holds no asterisk, parenthesis or NUL,
    and each of its backslashes opens a two-digit hexadecimal escape. *)
Theorem X3_escape_filter_safe (s : string) :
  filter_safe (_ldap_escape_filter s) = true.
Proof. apply escape_filter_safe. Qed.

Lemma special_backslash (c : ascii) :
  Py.contains c dn_special = false -> Ascii.eqb c "\" = false /\ Ascii.eqb c "," = false.
Proof. destruct c as [[] [] [] [] [] [] [] []]; vm_compute; intros H; try discriminate H; split; reflexivity. Qed.

Lemma unescape_dn_escaped (c : ascii) (rest : string) :
  unescape_dn (String "\" (String c rest)) = String c (unescape_dn rest).
Proof. reflexivity. Qed.

Lemma unescape_dn_plain (c : ascii) (rest : string) :
  Ascii.eqb c "\" = false -> unescape_dn (String c rest) = String c (unescape_dn rest).
Proof. intros H. simpl. rewrite H. reflexivity. Qed.

Lemma first_rdn_escaped (c : ascii) (rest : string) :
  first_rdn (String "\" (String c rest)) = String "\" (String c (first_rdn rest)).
Proof. reflexivity. Qed.

Lemma first_rdn_plain (c : ascii) (rest : string) :
  Ascii.eqb c "\" = false -> Ascii.eqb c "," = false ->
  first_rdn (String c rest) = String c (first_rdn rest).
Proof. intros H1 H2. simpl. rewrite H1, H2. reflexivity. Qed.

Lemma escape_dn_chars_cons (c : ascii) (s : string) :
  escape_dn_chars (String c s)
  = if Py.contains c dn_special then String "\" (String c (escape_dn_chars s))
    else String c (escape_dn_chars s).
Proof. reflexivity. Qed.

Lemma unescape_dn_chars (s : string) : unescape_dn (escape_dn_chars s) = s.
Proof.
  induction s as [|c s IH]; [reflexivity|].
  rewrite escape_dn_chars_cons. destruct (Py.contains c dn_special) eqn:Hc.
  - rewrite unescape_dn_escaped, IH. reflexivity.
  - destruct (special_backslash c Hc) as [Hb _].
    rewrite (unescape_dn_plain _ _ Hb), IH. reflexivity.
Qed.

(** X4. Reading an escaped DN value back (a backslash makes the next
    character literal) gives the original string, so that
    [_ldap_escape_dn] is injective. *)
Theorem X4_escape_dn_roundtrip :
  (forall s, unescape_dn (_ldap_escape_dn s) = s) /\
  (forall s1 s2, _ldap_escape_dn s1 = _ldap_escape_dn s2 -> s1 = s2).
Proof.
  assert (Hrt : forall s, unescape_dn (_ldap_escape_dn s) = s).
  { intros s. unfold _ldap_escape_dn. destruct s as [|c s]; [reflexivity|].
    apply unescape_dn_chars. }
  split; [exact Hrt|].
  intros s1 s2 H. rewrite <- (Hrt s1), <- (Hrt s2), H. reflexivity.
Qed.

Lemma first_rdn_escape (s t : string) :
  first_rdn (escape_dn_chars s +:+ String "," t) = escape_dn_chars s.
Proof.
  induction s as [|c s IH]; [reflexivity|].
  rewrite escape_dn_chars_cons. destruct (Py.contains c dn_special) eqn:Hc.
  - rewrite !app_cons, first_rdn_escaped, IH. reflexivity.
  - destruct (special_backslash c Hc) as [Hb Hcomma].
    rewrite app_cons, (first_rdn_plain _ _ Hb Hcomma), IH. reflexivity.
Qed.

(** X5. Whatever the name of the employee holds (commas, equal signs,
    backslashes), the first relative distinguished name of the DN of the
    new entry is the [CN=] component built from the display name, and
    reading it back gives the display name: the name cannot add a
    component to the DN. *)
Theorem X5_user_dn_first_rdn (cfg : ad_config) (self : hr_employee) (r : rng)
    (req : account_request) :
  derive_request cfg self r = Ok (inr req) ->
  first_rdn (user_dn req) = "CN=" +:+ _ldap_escape_dn (display_name req) /\
  unescape_dn (first_rdn (user_dn req)) = "CN=" +:+ display_name req.
Proof.
  unfold derive_request. intros H.
  destruct (match Py.split_ws_1 _ with [] => _ | _ => _ end) as [last|e];
    simpl in H; [|discriminate].
  destruct (negb (Py.nonempty (Py.strip (Py.or_empty (work_email self)))));
    [discriminate|].
  injection H as <-. cbn [user_dn display_name].
  set (display := _ +:+ " " +:+ last).
  assert (Hd : _ldap_escape_dn display = escape_dn_chars display).
  { unfold _ldap_escape_dn. destruct display; reflexivity. }
  rewrite Hd.
  assert (Hf : first_rdn ("CN=" +:+ escape_dn_chars display +:+ "," +:+ users_ou cfg)
               = "CN=" +:+ escape_dn_chars display).
  { change ("CN=" +:+ escape_dn_chars display +:+ "," +:+ users_ou cfg)
      with (String "C" (String "N" (String "=" (escape_dn_chars display +:+ String "," (users_ou cfg))))).
    rewrite (first_rdn_plain "C") by reflexivity.
    rewrite (first_rdn_plain "N") by reflexivity.
    rewrite (first_rdn_plain "=") by reflexivity.
    rewrite first_rdn_escape. reflexivity. }
  rewrite Hf. split; [reflexivity|].
  change ("CN=" +:+ escape_dn_chars display)
    with (String "C" (String "N" (String "=" (escape_dn_chars display)))).
  rewrite (unescape_dn_plain "C") by reflexivity.
  rewrite (unescape_dn_plain "N") by reflexivity.
  rewrite (unescape_dn_plain "=") by reflexivity.
  rewrite unescape_dn_chars. reflexivity.
Qed.

Lemma X5_user_dn_first_rdn_witness :
  derive_request sample_config comma_employee sample_draws = Ok (inr comma_request) /\
  first_rdn (user_dn comma_request) = "CN=Doe\, John" /\
  unescape_dn (first_rdn (user_dn comma_request)) = "CN=Doe, John".
Proof.
  assert (H : derive_request sample_config comma_employee sample_draws
              = Ok (inr comma_request)) by (vm_compute; reflexivity).
  split; [exact H|].
  exact (X5_user_dn_first_rdn sample_config comma_employee sample_draws comma_request H).
Defined.

(* ===================================================================== *)
(** * What each call of an attempt presupposes                            *)
(* ===================================================================== *)

Section Guard.
Variable env : environment.
Variable d : directory.
Variable self : hr_employee.
Variable cfg : ad_config.
Variable req : account_request.

Ltac guard_cases :=
  unfold guarded; simpl; (split; [|split; [|split; [|split]]]);
  let H := fresh "Hcase" in intros H; try discriminate H.

Lemma guarded_plain (c : call) :
  is_add c = false -> modified_attr c = None -> is_net_user c = false ->
  guarded env d c.
Proof.
  intros H1 H2 H3. unfold guarded. rewrite H1, H2, H3.
  split; [|split; [|split; [|split]]]; intros H; discriminate H.
Qed.

Lemma record_guarded (s : session) (c : call) :
  calls_guarded env d s -> guarded env d c -> Forall (guarded env d) (calls s ++ [c]).
Proof. intros Hs Hc. apply Forall_app. split; [exact Hs|]. constructor; [exact Hc|constructor]. Qed.

Lemma and_then_spec (Pre Post : Prop) (st : Sess (option outcome)) (k : Sess outcome) :
  step_spec env d Pre Post st -> (Post -> tail_spec env d req k) -> Pre -> tail_spec env d req (and_then st k).
Proof.
  intros Hst Hk Hpre s Hs. unfold and_then, bind.
  destruct (Hst Hpre s Hs) as [Hi Hr].
  destruct (st s) as [[[o|]|e] s1]; simpl in *.
  - split; [exact Hi|]. right. exact Hr.
  - apply Hk; assumption.
  - split; [exact Hi|exact Logic.I].
Qed.

Lemma check_existing_spec : step_spec env d True (account_absent d) (check_existing d cfg req).
Proof.
  intros _ s Hs. unfold check_existing, invoke, bind, record_call, lift, ret. simpl.
  assert (Hc : Forall (guarded env d) (calls s ++ [CallSearch (users_ou cfg) (search_filter req) ["distinguishedName"]])).
  { apply record_guarded; [exact Hs|]. apply guarded_plain; reflexivity. }
  destruct (on_search_existing d) as [[|e es]|x] eqn:Hsearch; simpl.
  - split; [exact Hc|exact Hsearch].
  - destruct (distinguishedName e); simpl; split; eauto.
  - split; [exact Hc|exact Logic.I].
Qed.

Lemma create_user_spec :
  step_spec env d (account_absent d) (account_added d) (create_user d self req).
Proof.
  intros Hpre s Hs. unfold create_user, invoke, bind, record_call, lift, ret. simpl.
  assert (Hc : Forall (guarded env d) (calls s ++ [add_request self req])).
  { apply record_guarded; [exact Hs|]. guard_cases. exact Hpre. }
  destruct (on_add d) as [ra|x] eqn:Hadd; simpl; [|split; [exact Hc|exact Logic.I]].
  destruct (is_success ra) eqn:Hok; simpl; split; try exact Hc; [|eauto].
  split; [exact Hpre|eauto].
Qed.

Lemma set_password_spec :
  step_spec env d (account_added d) (password_was_set env d) (set_password env d req).
Proof.
  intros Hpre s Hs. unfold set_password, invoke, bind, catch, record_call, lift, ret. simpl.
  match goal with |- context [calls s ++ [?c]] =>
    assert (Hc : Forall (guarded env d) (calls s ++ [c]))
  end.
  { apply record_guarded; [exact Hs|]. guard_cases. exact Hpre. }
  destruct (on_set_password d) as [rp|x] eqn:Hp; simpl; [|split; [exact Hc|exact Logic.I]].
  destruct (is_success rp) eqn:Hok; simpl.
  { split; [exact Hc|]. split; [exact Hpre|]. left. eauto. }
  destruct (bool_decide (result_code rp = Some 53)) eqn:H53; simpl; [|split; [exact Hc|eauto]].
  destruct (bool_decide (platform env = "win32")) eqn:Hwin; simpl; [|split; [exact Hc|eauto]].
  apply bool_decide_eq_true_1 in H53, Hwin.
  assert (Href : refused_53 env d) by (split; [exact Hwin|eauto]).
  match goal with |- context [(calls s ++ [?c1]) ++ [?c]] =>
    assert (Hn : Forall (guarded env d) ((calls s ++ [c1]) ++ [c]))
  end.
  { apply (record_guarded {| calls := _; logs := logs s; conn := conn s |}); [exact Hc|].
    guard_cases. split; [exact Hpre|exact Href]. }
  destruct (on_net_user d) as [u|x] eqn:Hnet; simpl.
  - split; [exact Hn|]. split; [exact Hpre|]. right. eauto.
  - destruct (fallback_handled (exn_cls x)); simpl; split; try exact Hn; eauto.
Qed.

Lemma enable_account_spec :
  step_spec env d (password_was_set env d) (account_enabled env d) (enable_account d req).
Proof.
  intros Hpre s Hs. unfold enable_account, invoke, bind, record_call, lift, ret. simpl.
  match goal with |- context [calls s ++ [?c]] =>
    assert (Hc : Forall (guarded env d) (calls s ++ [c]))
  end.
  { apply record_guarded; [exact Hs|]. guard_cases. exact Hpre. }
  destruct (on_enable d) as [re|x] eqn:He; simpl; [|split; [exact Hc|exact Logic.I]].
  destruct (is_success re) eqn:Hok; simpl; split; try exact Hc; [|eauto].
  split; [exact Hpre|eauto].
Qed.

Lemma verify_enabled_spec :
  step_spec env d (account_enabled env d) (account_verified env d) (verify_enabled d req).
Proof.
  intros Hpre s Hs. unfold verify_enabled, invoke, bind, record_call, lift, ret. simpl.
  match goal with |- context [calls s ++ [?c]] =>
    assert (Hc : Forall (guarded env d) (calls s ++ [c]))
  end.
  { apply record_guarded; [exact Hs|]. apply guarded_plain; reflexivity. }
  destruct (on_verify d) as [[|e es]|x] eqn:Hv; simpl; [split; [exact Hc|eauto]| |split; [exact Hc|exact Logic.I]].
  destruct (userAccountControl e) as [uac|x] eqn:Hu; simpl; [|split; [exact Hc|exact Logic.I]].
  destruct (Z.land uac 2 =? 0) eqn:Hbit; simpl; split; try exact Hc; [|eauto].
  apply Z.eqb_eq in Hbit. split; [exact Hpre|]. exists e, es, uac. auto.
Qed.

Lemma add_to_group_guarded (i : nat) (g : string) (s : session) :
  account_verified env d -> calls_guarded env d s -> calls_guarded env d (snd (add_to_group d cfg req i g s)).
Proof.
  intros Hpre Hs.
  unfold add_to_group, _find_ad_group_dn, invoke, bind, catch, record_call, lift, ret, log.
  simpl.
  match goal with |- context [calls s ++ [?c]] =>
    assert (Hc : Forall (guarded env d) (calls s ++ [c]))
  end.
  { apply record_guarded; [exact Hs|]. apply guarded_plain; reflexivity. }
  destruct (on_group_search d i) as [[|e es]|x]; simpl; try exact Hc.
  destruct (distinguishedName e) as [dn|x]; simpl; try exact Hc.
  destruct (Py.nonempty dn); simpl; try exact Hc.
  match goal with |- context [(calls s ++ [?c1]) ++ [?c]] =>
    assert (Hm : Forall (guarded env d) ((calls s ++ [c1]) ++ [c]))
  end.
  { apply (record_guarded {| calls := _; logs := logs s; conn := conn s |}); [exact Hc|].
    guard_cases. exact Hpre. }
  destruct (on_group_modify d i) as [rm|x]; simpl; [|exact Hm].
  destruct (is_success rm); simpl; exact Hm.
Qed.

Lemma add_to_groups_guarded (groups : list string) (i : nat) (s : session) :
  account_verified env d -> calls_guarded env d s -> calls_guarded env d (snd (add_to_groups d cfg req i groups s)).
Proof.
  intros Hpre. revert i s. induction groups as [|g gs IH]; intros i s Hs; [exact Hs|].
  simpl. unfold bind.
  pose proof (add_to_group_guarded i g s Hpre Hs) as H1.
  destruct (add_to_group_returns d cfg req i g s) as (s1 & ex & E & _).
  rewrite E in *. simpl in *. apply IH, H1.
Qed.

Lemma provision_spec : tail_spec env d req (provision env d self cfg req).
Proof.
  unfold provision.
  apply (and_then_spec True (account_absent d)); [apply check_existing_spec| |exact Logic.I].
  intros H1. apply (and_then_spec (account_absent d) (account_added d));
    [apply create_user_spec| |exact H1].
  intros H2. apply (and_then_spec (account_added d) (password_was_set env d));
    [apply set_password_spec| |exact H2].
  intros H3. apply (and_then_spec (password_was_set env d) (account_enabled env d));
    [apply enable_account_spec| |exact H3].
  intros H4. apply (and_then_spec (account_enabled env d) (account_verified env d));
    [apply verify_enabled_spec| |exact H4].
  intros H5 s Hs. unfold bind.
  pose proof (add_to_groups_guarded (default_groups cfg) 0 s H5 Hs) as Hg.
  destruct (add_to_groups_returns d cfg req (default_groups cfg) 0 s) as (s1 & ex & E & _).
  rewrite E in *. simpl in *. split; [exact Hg|]. left. auto.
Qed.

Lemma snoc_plain (l : list call) (c : call) :
  is_add c = false -> modified_attr c = None -> is_net_user c = false ->
  Forall (guarded env d) l -> Forall (guarded env d) (l ++ [c]).
Proof.
  intros Ha Hm Hn Hl. apply Forall_app. split; [exact Hl|].
  constructor; [apply guarded_plain; assumption|constructor].
Qed.

Lemma connect_guarded (s : session) :
  calls_guarded env d s -> calls_guarded env d (snd (connect d cfg s)).
Proof.
  intros Hs. unfold calls_guarded in *.
  unfold connect, invoke, bind, record_call, set_conn, lift, ret. simpl.
  destruct (on_connect d) as [[]|x]; simpl; [|apply snoc_plain; auto].
  destruct (is_starttls cfg); simpl; [|apply snoc_plain; auto].
  destruct (on_open d) as [[]|x]; simpl; [|repeat (apply snoc_plain; auto)].
  destruct (on_start_tls d) as [b|x]; simpl; [|repeat (apply snoc_plain; auto)].
  destruct (on_bind d) as [b'|x]; simpl; repeat (apply snoc_plain; auto).
Qed.

(** The whole session: its calls are guarded, it never raises, and it
    returns the login and the password only when every stage succeeded. *)
Lemma ldap_session_spec :
  calls_guarded env d (snd (ldap_session env d self cfg req)) /\
  exists o, fst (ldap_session env d self cfg req) = Ok o /\
    ((o = created (login req) (password req) /\ account_verified env d) \/
     exists msg, o = failed msg).
Proof.
  unfold ldap_session, catch, try_body, bind.
  assert (H0 : calls_guarded env d no_session) by constructor.
  pose proof (connect_guarded no_session H0) as Hc.
  assert (Hfin : forall s, calls_guarded env d s -> calls_guarded env d (finally_unbind s)).
  { intros s Hs. unfold finally_unbind. destruct (conn s) as [[]|]; try exact Hs.
    unfold calls_guarded. simpl. apply snoc_plain; auto. }
  destruct (connect d cfg no_session) as [[[]|x] s1]; simpl in Hc.
  - destruct (provision_spec s1 Hc) as [Hp Hr].
    destruct (provision env d self cfg req s1) as [[o|x] s2]; simpl in *.
    + split; [apply Hfin, Hp|]. exists o. split; [reflexivity|exact Hr].
    + split; [apply Hfin, Hp|]. eexists. split; [reflexivity|]. right. eauto.
  - split; [apply Hfin, Hc|]. eexists. split; [reflexivity|]. right. eauto.
Qed.

End Guard.

Lemma create_ad_user_guarded (env : environment) (d : directory) (r : rng)
    (self : hr_employee) :
  calls_guarded env d (snd (_create_ad_user_ldap env d r self)).
Proof.
  destruct (decide (calls (snd (_create_ad_user_ldap env d r self)) = [])) as [E|Hne].
  - unfold calls_guarded. rewrite E. constructor.
  - destruct (reached_directory env d r self Hne) as (cfg & req & _ & _ & ->).
    apply ldap_session_spec.
Qed.

(** The guard of a call of an attempt. *)
Lemma call_guarded (env : environment) (d : directory) (r : rng)
    (self : hr_employee) (c : call) :
  In c (calls (snd (_create_ad_user_ldap env d r self))) -> guarded env d c.
Proof.
  intros Hin. pose proof (create_ad_user_guarded env d r self) as H.
  unfold calls_guarded in H. rewrite Forall_forall in H.
  apply H, list_elem_of_In, Hin.
Qed.

(** X6. An add request is made only when the existence search returned
    and found no entry: never when it found one, and never when it
    raised. *)
Theorem X6_add_only_when_absent (env : environment) (d : directory) (r : rng)
    (self : hr_employee) (c : call) :
  In c (calls (snd (_create_ad_user_ldap env d r self))) ->
  is_add c = true -> on_search_existing d = Ok [].
Proof.
  intros Hin Hadd. exact (proj1 (call_guarded env d r self c Hin) Hadd).
Qed.

Lemma X6_add_only_when_absent_witness :
  let c := nth 2 (calls (snd (_create_ad_user_ldap linux_env willing_directory
                                sample_draws john))) CallUnbind in
  is_add c = true /\ on_search_existing willing_directory = Ok [].
Proof.
  intros c. split; [reflexivity|].
  apply (X6_add_only_when_absent linux_env willing_directory sample_draws john c).
  - vm_compute. right. right. left. reflexivity.
  - reflexivity.
Defined.

(** X7. The password of the new entry is written only after the add
    succeeded, and the entry is enabled only after its password was set,
    by the modify or, on Windows after a refusal with code 53, by the
    [net user] command. *)
Theorem X7_password_before_enabling (env : environment) (d : directory) (r : rng)
    (self : hr_employee) (c : call) :
  In c (calls (snd (_create_ad_user_ldap env d r self))) ->
  (modified_attr c = Some "unicodePwd" -> account_added d) /\
  (modified_attr c = Some "userAccountControl" -> password_was_set env d).
Proof.
  intros Hin. destruct (call_guarded env d r self c Hin) as (_ & H1 & _ & H2 & _).
  split; assumption.
Qed.

Lemma X7_password_before_enabling_witness :
  let c := nth 4 (calls (snd (_create_ad_user_ldap linux_env willing_directory
                                sample_draws john))) CallUnbind in
  modified_attr c = Some "userAccountControl" /\ password_was_set linux_env willing_directory.
Proof.
  intros c. split; [reflexivity|].
  apply (X7_password_before_enabling linux_env willing_directory sample_draws john c).
  - vm_compute. do 4 right. left. reflexivity.
  - reflexivity.
Defined.

(** X8. The external [net user] command is run only on Windows, after a
    successful add, when the password modify was refused with result
    code 53. *)
Theorem X8_net_user_gated (env : environment) (d : directory) (r : rng)
    (self : hr_employee) (c : call) :
  In c (calls (snd (_create_ad_user_ldap env d r self))) ->
  is_net_user c = true ->
  account_added d /\ refused_53 env d.
Proof.
  intros Hin Hn. destruct (call_guarded env d r self c Hin) as (_ & _ & H & _).
  exact (H Hn).
Qed.

Lemma X8_net_user_gated_witness :
  let c := nth 4 (calls (snd (_create_ad_user_ldap windows_env refusing_directory
                                sample_draws john))) CallUnbind in
  is_net_user c = true /\ refused_53 windows_env refusing_directory.
Proof.
  intros c. split; [reflexivity|].
  apply (X8_net_user_gated windows_env refusing_directory sample_draws john c).
  - vm_compute. do 4 right. left. reflexivity.
  - reflexivity.
Defined.

(** X9. The new account is added to a group only after every earlier
    stage succeeded: no existing entry, add accepted, password set,
    account enabled, and the entry read back without the disabled bit. *)
Theorem X9_membership_after_verification (env : environment) (d : directory) (r : rng)
    (self : hr_employee) (c : call) :
  In c (calls (snd (_create_ad_user_ldap env d r self))) ->
  modified_attr c = Some "member" -> account_verified env d.
Proof.
  intros Hin Hm. destruct (call_guarded env d r self c Hin) as (_ & _ & _ & _ & H).
  exact (H Hm).
Qed.

Lemma X9_membership_after_verification_witness :
  let c := nth 7 (calls (snd (_create_ad_user_ldap linux_env willing_directory
                                sample_draws john))) CallUnbind in
  modified_attr c = Some "member" /\ account_verified linux_env willing_directory.
Proof.
  intros c. split; [reflexivity|].
  apply (X9_membership_after_verification linux_env willing_directory sample_draws john c).
  - vm_compute. do 7 right. left. reflexivity.
  - reflexivity.
Defined.

Lemma get_ad_config_raises (p : gmap string string) (x : exn) :
  _get_ad_config p = Raise x -> exn_cls x = ValueError.
Proof.
  unfold _get_ad_config, py_int. intros H.
  destruct (Py.int (get_param_d p "employee_onboarding.ldaps_port" "636")); simpl in H;
    [|injection H as <-; reflexivity].
  destruct (Py.int (get_param_d p "employee_onboarding.ldap_connect_timeout" "10"));
    simpl in H; [discriminate|injection H as <-; reflexivity].
Qed.

Lemma derive_request_raises (cfg : ad_config) (self : hr_employee) (r : rng) (x : exn) :
  derive_request cfg self r = Raise x -> exn_cls x = IndexError.
Proof.
  unfold derive_request. intros H.
  destruct (Py.split_ws_1 _) as [|f [|l rest]]; simpl in H.
  - injection H as <-. reflexivity.
  - destruct (negb _); discriminate.
  - destruct (negb _); discriminate.
Qed.

(** The shape of what an attempt returns, and what it can raise. *)
Lemma create_ad_user_shape (env : environment) (d : directory) (r : rng)
    (self : hr_employee) :
  match fst (_create_ad_user_ldap env d r self) with
  | Ok o => (exists l p, o = created l p) \/ (exists msg, o = failed msg)
  | Raise x =>
      calls (snd (_create_ad_user_ldap env d r self)) = [] /\
      (exn_cls x = ValueError \/ exn_cls x = IndexError)
  end.
Proof.
  unfold _create_ad_user_ldap.
  destruct (negb (ldap3_available env)); [right; eauto|].
  destruct (_get_ad_config (params env)) as [cfg|x] eqn:Hcfg;
    [|split; [reflexivity|left; eapply get_ad_config_raises, Hcfg]].
  destruct (negb (Py.nonempty (admin_password cfg))); [right; eauto|].
  destruct (negb (Py.nonempty (ad_server cfg)) || negb (Py.nonempty (domain cfg)));
    [right; eauto|].
  destruct (derive_request cfg self r) as [[early|req]|x] eqn:Hreq.
  - simpl. right. unfold derive_request in Hreq.
    destruct (match Py.split_ws_1 _ with [] => _ | _ => _ end); simpl in Hreq; [|discriminate].
    destruct (negb _); [|discriminate]. injection Hreq as <-. eauto.
  - destruct (ldap_session_spec env d self cfg req) as (_ & o & -> & [[-> _]|Hf]);
      [left; eauto|right; exact Hf].
  - split; [reflexivity|right; eapply derive_request_raises, Hreq].
Qed.


(** What a returned login tells about the run. *)
Lemma create_ad_user_success (env : environment) (d : directory) (r : rng)
    (self : hr_employee) (l : string) (e p : option string) :
  fst (_create_ad_user_ldap env d r self) = Ok (Some l, e, p) ->
  account_verified env d /\
  l = login_of_email (Py.strip (Py.or_empty (work_email self))) /\
  e = None /\ p = Some (fst (_generate_ad_password r)).
Proof.
  unfold _create_ad_user_ldap.
  destruct (negb (ldap3_available env)); [discriminate|].
  destruct (_get_ad_config (params env)) as [cfg|x]; [|discriminate].
  destruct (negb (Py.nonempty (admin_password cfg))); [discriminate|].
  destruct (negb (Py.nonempty (ad_server cfg)) || negb (Py.nonempty (domain cfg)));
    [discriminate|].
  destruct (derive_request cfg self r) as [[early|req]|x] eqn:Hreq.
  - simpl. unfold derive_request in Hreq.
    destruct (match Py.split_ws_1 _ with [] => _ | _ => _ end); simpl in Hreq; [|discriminate].
    destruct (negb _); [|discriminate]. injection Hreq as <-. discriminate.
  - destruct (derive_request_fields cfg self r req Hreq) as [Hl Hp].
    destruct (ldap_session_spec env d self cfg req) as (_ & o & -> & [[-> Hv]|[msg ->]]);
      intros H; [|discriminate].
    injection H as <- <- <-. rewrite Hl, Hp. auto.
  - discriminate.
Qed.

(** X11. A login is returned only when every stage of the pipeline
    succeeded: the existence search found nothing, the add, the password
    write and the enabling were accepted, and the entry was read back
    without the disabled bit.  The login is then the one derived from
    the work email and the password the one generated. *)
Theorem X11_success_means_verified (env : environment) (d : directory) (r : rng)
    (self : hr_employee) (l : string) (e p : option string) :
  fst (_create_ad_user_ldap env d r self) = Ok (Some l, e, p) ->
  account_verified env d /\
  l = login_of_email (Py.strip (Py.or_empty (work_email self))) /\
  e = None /\ p = Some (fst (_generate_ad_password r)).
Proof. apply create_ad_user_success. Qed.

Lemma X11_success_means_verified_witness :
  account_verified linux_env willing_directory.
Proof.
  refine (proj1 (X11_success_means_verified linux_env willing_directory sample_draws john
                   "johndoe" None (Some "kM0Bg7%u%7TDn") _)).
  vm_compute. reflexivity.
Defined.

(* ===================================================================== *)
(** * The report of an attempt                                            *)
(* ===================================================================== *)

(** Whatever an attempt meets, it adds one entry to the chatter. *)
Lemma onboard_posts_one (env : environment) (a : attempt) (st : store) :
  let e := employee st in
  let e' := employee (onboard env a st) in
  (exists m, message_ids e' = m :: message_ids e) /\
  emp_id e' = emp_id e /\ name e' = name e /\
  work_email e' = work_email e /\ work_phone e' = work_phone e.
Proof.
  unfold onboard. simpl.
  destruct (_validate_employee_for_ad (employee st)); [simpl; eauto 10|].
  destruct (fst (_create_ad_user_ldap env (dir a) (draws a) (employee st)))
    as [[[l er] p]|x]; [|simpl; eauto 10].
  destruct (Py.truthy er); simpl; eauto 10.
Qed.

(** X12. Every run of the onboarding on an employee adds exactly one
    entry to the chatter of the employee, whatever happens (validation
    failure, any failure or exception of the directory, success), and
    leaves the identifier, the name, the work email and the work phone
    of the employee as they were. *)
Theorem X12_one_message_per_attempt (env : environment) (a : attempt) (st : store) :
  let e := employee st in
  let e' := employee (onboard env a st) in
  (exists m, message_ids e' = m :: message_ids e) /\
  emp_id e' = emp_id e /\ name e' = name e /\
  work_email e' = work_email e /\ work_phone e' = work_phone e.
Proof. apply onboard_posts_one. Qed.

(** X13. A run of the onboarding sends at most one mail, and sends it
    only when the directory attempt returned a login and a password: the
    mail then goes to the work email of the employee and carries the
    password that was returned.  No mail is sent on any failure. *)
Theorem X13_mail_only_on_success (env : environment) (a : attempt) (st : store) :
  exists mails,
    outbox (onboard env a st) = outbox st ++ mails /\
    (mails = [] \/
     exists l pw,
       fst (_create_ad_user_ldap env (dir a) (draws a) (employee st)) = Ok (created l pw) /\
       mails = [credentials_mail (employee st) pw]).
Proof.
  unfold onboard.
  destruct (_validate_employee_for_ad (employee st));
    [exists []; simpl; rewrite app_nil_r; auto|].
  pose proof (create_ad_user_shape env (dir a) (draws a) (employee st)) as Hshape.
  destruct (fst (_create_ad_user_ldap env (dir a) (draws a) (employee st)))
    as [o|x]; [|exists []; simpl; rewrite app_nil_r; auto].
  destruct Hshape as [(l & p & ->)|(msg & ->)].
  - simpl. unfold _log_ad_onboarding_result, _send_ad_credentials_email, send_mail. simpl.
    destruct (Py.nonempty p && Py.nonempty l); simpl;
      [|exists []; rewrite app_nil_r; auto].
    destruct (negb (Py.truthy (work_email (employee st)))); simpl;
      [exists []; rewrite app_nil_r; auto|].
    destruct (negb (mail_template env)); simpl; [exists []; rewrite app_nil_r; auto|].
    destruct (gateway a); simpl; [|exists []; rewrite app_nil_r; auto].
    eexists. split; [reflexivity|]. right. exists l, p. split; reflexivity.
  - unfold failed. destruct (Py.truthy (Some msg)); simpl;
      exists []; rewrite app_nil_r; auto.
Qed.

(** X14. [_onboarding_activity_create_ad_done] treats the employees of a
    record set one by one: what becomes of an employee is what the
    onboarding of this employee alone gives, whatever the other
    employees of the set are, whatever happens to them, and whatever
    mails were sent before. *)
Theorem X14_batch_isolation (env : environment) :
  (forall self out,
     fst (_onboarding_activity_create_ad_done env self out)
     = map (fun ea => employee (onboard env (snd ea) {| employee := fst ea; outbox := [] |}))
           self) /\
  (forall self1 self2 out1 out2 (i : nat),
     self1 !! i = self2 !! i ->
     fst (_onboarding_activity_create_ad_done env self1 out1) !! i
     = fst (_onboarding_activity_create_ad_done env self2 out2) !! i).
Proof.
  split; [apply onboarding_done_each|].
  intros self1 self2 out1 out2 i H.
  rewrite !onboarding_done_each, !list_lookup_fmap, H. reflexivity.
Qed.

Lemma X14_batch_isolation_witness :
  fst (_onboarding_activity_create_ad_done linux_env
         [(jane, sample_attempt willing_directory);
          (john, sample_attempt willing_directory)] []) !! 1%nat
  = fst (_onboarding_activity_create_ad_done linux_env
         [(john, sample_attempt silent_directory);
          (john, sample_attempt willing_directory)] []) !! 1%nat.
Proof.
  apply (proj2 (X14_batch_isolation linux_env)). reflexivity.
Defined.



Lemma contains_app_r (c : ascii) (a b : string) :
  Py.contains c b = true -> Py.contains c (a +:+ b) = true.
Proof.
  intros H. induction a as [|x a IH]; [exact H|].
  rewrite app_cons. simpl. rewrite IH. apply orb_true_r.
Qed.

Lemma nonempty_app_r (a b : string) :
  Py.nonempty b = true -> Py.nonempty (a +:+ b) = true.
Proof. intros H. destruct a; [exact H|reflexivity]. Qed.

Lemma get_param_d_nonempty (p : gmap string string) (key dflt : string) :
  Py.nonempty dflt = true -> Py.nonempty (get_param_d p key dflt) = true.
Proof.
  intros Hd. unfold get_param_d, get_param.
  destruct (p !! key) as [v|]; [|exact Hd].
  destruct (Py.nonempty v) eqn:Hv; [exact Hv|exact Hd].
Qed.

Lemma get_param_nonempty (p : gmap string string) (key v : string) :
  get_param p key = Some v -> Py.nonempty v = true.
Proof.
  unfold get_param. destruct (p !! key) as [w|]; [|discriminate].
  destruct (Py.nonempty w) eqn:Hw; [|discriminate]. intros H. injection H as <-. exact Hw.
Qed.

Lemma dc_of_domain_nonempty (dom : string) : Py.nonempty (dc_of_domain dom) = true.
Proof.
  unfold dc_of_domain. pose proof (split_not_nil "." dom) as Hne.
  destruct (Py.split "." dom) as [|l ls]; [congruence|].
  rewrite map_cons. apply join_nonempty. reflexivity.
Qed.

(** What holds of every configuration that is read. *)
Lemma config_invariants (p : gmap string string) (cfg : ad_config) :
  _get_ad_config p = Ok cfg ->
  Py.nonempty (ad_server cfg) = true /\
  Py.nonempty (domain cfg) = true /\
  Py.contains "@" (admin_user cfg) = true /\
  Py.nonempty (base_dn cfg) = true /\
  Py.nonempty (users_ou cfg) = true.
Proof.
  unfold _get_ad_config. intros H.
  destruct (py_int (get_param_d p "employee_onboarding.ldaps_port" "636")) as [port|e];
    simpl in H; [|discriminate].
  destruct (py_int (get_param_d p "employee_onboarding.ldap_connect_timeout" "10")) as [tmo|e];
    simpl in H; [|discriminate].
  injection H as <-. cbn [ad_server domain admin_user base_dn users_ou].
  split; [apply get_param_d_nonempty; reflexivity|].
  split; [apply get_param_d_nonempty; reflexivity|].
  split; [|split].
  - destruct (Py.contains "@" (get_param_d p "employee_onboarding.admin_user" "administrator"))
      eqn:Hat; [exact Hat|].
    apply contains_app_r. reflexivity.
  - apply dc_of_domain_nonempty.
  - unfold resolve_users_ou.
    destruct (get_param p "employee_onboarding.users_ou") as [ou|] eqn:Hou.
    + eapply get_param_nonempty, Hou.
    + match goal with |- Py.nonempty (if ?b then _ else _) = true => destruct b end.
      * apply nonempty_app_r. reflexivity.
      * reflexivity.
Qed.

(** Past the checks of the configuration, an attempt is the derivation
    of the request followed by the session. *)
Lemma configured_run (env : environment) (cfg : ad_config) (d : directory) (r : rng)
    (self : hr_employee) :
  configured env cfg ->
  _create_ad_user_ldap env d r self
  = match derive_request cfg self r with
    | Raise e => (Raise e, no_session)
    | Ok (inl early) => (Ok early, no_session)
    | Ok (inr req) => ldap_session env d self cfg req
    end.
Proof.
  intros (Hl & Hcfg & Hpw). unfold _create_ad_user_ldap.
  rewrite Hl, Hcfg, Hpw.
  destruct (config_invariants _ _ Hcfg) as (Hs & Hd & _).
  rewrite Hs, Hd. reflexivity.
Qed.

(** X16. A name or a work email made of whitespace passes
    [_validate_employee_for_ad] and fails one step later, before any
    call to the directory.  A blank name raises [IndexError] out of
    [_create_ad_user_ldap] ([name_parts[0]] on an empty list), which the
    onboarding reports with the text of the exception; a blank email is
    refused with the message of [_create_ad_user_ldap].  Both end with
    the status ['error']. *)
Theorem X16_blank_fields_pass_validation (env : environment) (cfg : ad_config)
    (a : attempt) (st : store) (n m : string) :
  configured env cfg ->
  name (employee st) = Some n -> work_email (employee st) = Some m ->
  Py.nonempty n = true -> Py.nonempty m = true ->
  _validate_employee_for_ad (employee st) = None /\
  (Py.strip n = "" ->
   _create_ad_user_ldap env (dir a) (draws a) (employee st)
     = (Raise (Exn IndexError "list index out of range"), no_session) /\
   ad_sync_status (employee (onboard env a st)) = error /\
   message_ids (employee (onboard env a st))
     = failure_message "list index out of range" :: message_ids (employee st)) /\
  (Py.split_ws_1 (Py.strip n) <> [] -> Py.strip m = "" ->
   _create_ad_user_ldap env (dir a) (draws a) (employee st)
     = (Ok (failed "Work email is required for AD account."), no_session) /\
   ad_sync_status (employee (onboard env a st)) = error /\
   message_ids (employee (onboard env a st))
     = failure_message "Work email is required for AD account."
         :: message_ids (employee st)).
Proof.
  intros Hconf Hn Hm Hne Hme.
  assert (Hv : _validate_employee_for_ad (employee st) = None).
  { unfold _validate_employee_for_ad. rewrite Hn, Hm. simpl. rewrite Hne, Hme. reflexivity. }
  split; [exact Hv|]. split.
  - intros Hblank.
    assert (Hrun : _create_ad_user_ldap env (dir a) (draws a) (employee st)
                   = (Raise (Exn IndexError "list index out of range"), no_session)).
    { rewrite (configured_run env cfg _ _ _ Hconf). unfold derive_request.
      rewrite Hn. simpl. rewrite Hblank. reflexivity. }
    split; [exact Hrun|]. unfold onboard. rewrite Hv, Hrun. simpl. split; reflexivity.
  - intros Hword Hblank.
    assert (Hrun : _create_ad_user_ldap env (dir a) (draws a) (employee st)
                   = (Ok (failed "Work email is required for AD account."), no_session)).
    { rewrite (configured_run env cfg _ _ _ Hconf). unfold derive_request.
      rewrite Hn, Hm. simpl. rewrite Hblank.
      destruct (Py.split_ws_1 (Py.strip n)) as [|f [|l rest]]; [congruence| |]; reflexivity. }
    split; [exact Hrun|]. unfold onboard. rewrite Hv, Hrun. simpl. split; reflexivity.
Qed.

Lemma X16_blank_fields_pass_validation_witness :
  _validate_employee_for_ad blank_name_employee = None /\
  _create_ad_user_ldap linux_env willing_directory sample_draws blank_name_employee
    = (Raise (Exn IndexError "list index out of range"), no_session) /\
  ad_sync_status (employee (onboard linux_env (sample_attempt willing_directory)
                              (store_of blank_name_employee))) = error.
Proof.
  assert (Hconf : configured linux_env sample_config)
    by (repeat split; vm_compute; reflexivity).
  destruct (X16_blank_fields_pass_validation linux_env sample_config
              (sample_attempt willing_directory) (store_of blank_name_employee)
              "   " "ann@corp.com" Hconf eq_refl eq_refl eq_refl eq_refl)
    as (Hv & Hname & _).
  destruct (Hname eq_refl) as (Hrun & Hst & _).
  split; [exact Hv|]. split; [exact Hrun|exact Hst].
Defined.

(** X17. When the configured LDAPS port (or its default) is not the
    decimal writing of an integer, reading the configuration raises
    [ValueError], under any TLS mode: the attempt makes no call to the
    directory, the status becomes ['error'] and the chatter shows the
    text of the exception. *)
Theorem X17_unparsable_port (env : environment) (a : attempt) (st : store) :
  ldap3_available env = true ->
  _validate_employee_for_ad (employee st) = None ->
  Py.int (get_param_d (params env) "employee_onboarding.ldaps_port" "636") = None ->
  exists shown,
    let text := "invalid literal for int() with base 10: " +:+ shown in
    _create_ad_user_ldap env (dir a) (draws a) (employee st)
      = (Raise (Exn ValueError text), no_session) /\
    ad_sync_status (employee (onboard env a st)) = error /\
    message_ids (employee (onboard env a st))
      = failure_message text :: message_ids (employee st).
Proof.
  intros Hl Hv Hport.
  exists (Py.repr (get_param_d (params env) "employee_onboarding.ldaps_port" "636")).
  set (text := "invalid literal for int() with base 10: " +:+ _).
  assert (Hrun : _create_ad_user_ldap env (dir a) (draws a) (employee st)
                 = (Raise (Exn ValueError text), no_session)).
  { unfold _create_ad_user_ldap, _get_ad_config, py_int. rewrite Hl. simpl.
    rewrite Hport. reflexivity. }
  split; [exact Hrun|]. unfold onboard. rewrite Hv, Hrun. simpl. split; reflexivity.
Qed.

Lemma X17_unparsable_port_witness :
  calls (snd (_create_ad_user_ldap bad_port_env willing_directory sample_draws john)) = [] /\
  ad_sync_status (employee (onboard bad_port_env (sample_attempt willing_directory)
                              (store_of john))) = error.
Proof.
  destruct (X17_unparsable_port bad_port_env (sample_attempt willing_directory)
              (store_of john) eq_refl eq_refl eq_refl) as (shown & Hrun & Hst & _).
  split; [|exact Hst].
  change (dir (sample_attempt willing_directory)) with willing_directory in Hrun.
  change (draws (sample_attempt willing_directory)) with sample_draws in Hrun.
  change (employee (store_of john)) with john in Hrun.
  rewrite Hrun. reflexivity.
Defined.

(** X18. In every configuration that [_get_ad_config] returns, the
    server and the domain are not empty (so the check of
    [_create_ad_user_ldap] that they are set never fails), the
    administrator login holds an [@], and the base DN and the users OU
    are not empty. *)
Theorem X18_config_invariants (p : gmap string string) (cfg : ad_config) :
  _get_ad_config p = Ok cfg ->
  Py.nonempty (ad_server cfg) = true /\
  Py.nonempty (domain cfg) = true /\
  Py.contains "@" (admin_user cfg) = true /\
  Py.nonempty (base_dn cfg) = true /\
  Py.nonempty (users_ou cfg) = true.
Proof. apply config_invariants. Qed.

Lemma X18_config_invariants_witness :
  Py.nonempty (ad_server c8_config) = true /\
  Py.nonempty (domain c8_config) = true /\
  Py.contains "@" (admin_user c8_config) = true /\
  Py.nonempty (base_dn c8_config) = true /\
  Py.nonempty (users_ou c8_config) = true.
Proof.
  apply (X18_config_invariants c8_params c8_config). vm_compute. reflexivity.
Defined.

Lemma parse_groups_join (names : list string) :
  names <> [] -> Forall clean_group names ->
  parse_groups (Py.join "," names) = names.
Proof.
  intros Hne Hall. unfold parse_groups.
  change ","%string with (Py.str1 ",").
  rewrite split_join; [|exact Hne|].
  - clear Hne. induction Hall as [|s segs (Hn & _ & Hs) _ IH]; [reflexivity|].
    rewrite filter_cons. rewrite Hs.
    destruct (decide (Py.nonempty s = true)) as [_|Hc]; [|congruence].
    rewrite map_cons, Hs. f_equal. exact IH.
  - eapply Forall_impl; [exact Hall|]. intros s (_ & H & _). exact H.
Qed.

(** X19. The default groups of a configuration: [["ABC"]] when the
    parameter is not set; the names themselves when the parameter is
    their list joined by commas (names without comma and without
    surrounding whitespace); and in every case names that are not
    empty. *)
Theorem X19_default_groups (p : gmap string string) (cfg : ad_config) :
  _get_ad_config p = Ok cfg ->
  (get_param p "employee_onboarding.default_groups" = None ->
   default_groups cfg = ["ABC"]) /\
  (forall names, names <> [] -> Forall clean_group names ->
     get_param p "employee_onboarding.default_groups" = Some (Py.join "," names) ->
     default_groups cfg = names) /\
  Forall (fun g => Py.nonempty g = true) (default_groups cfg).
Proof.
  unfold _get_ad_config. intros H.
  destruct (py_int (get_param_d p "employee_onboarding.ldaps_port" "636")) as [port|e];
    simpl in H; [|discriminate].
  destruct (py_int (get_param_d p "employee_onboarding.ldap_connect_timeout" "10")) as [tmo|e];
    simpl in H; [|discriminate].
  injection H as <-. cbn [default_groups]. split; [|split].
  - intros ->. reflexivity.
  - intros names Hne Hall Hp. rewrite Hp. unfold Py.or_else. simpl.
    destruct names as [|n ns]; [congruence|].
    rewrite join_nonempty; [|apply (Forall_inv Hall)].
    apply parse_groups_join; assumption.
  - unfold parse_groups. apply Forall_forall. intros g Hg.
    apply list_elem_of_fmap in Hg as (x & -> & Hx).
    apply list_elem_of_filter in Hx as [Hx _]. exact Hx.
Qed.

Lemma X19_default_groups_witness :
  default_groups two_groups_config = ["Staff"; "VPN"].
Proof.
  assert (Hcfg : _get_ad_config two_groups_params = Ok two_groups_config)
    by (vm_compute; reflexivity).
  apply (proj1 (proj2 (X19_default_groups two_groups_params two_groups_config Hcfg))).
  - discriminate.
  - repeat constructor.
  - vm_compute. reflexivity.
Defined.

(* ===================================================================== *)
(** * Answers that the attempt does not read                              *)
(* ===================================================================== *)

(** X20. Under STARTTLS the answer of [conn.start_tls] is not read: when
    the call returns, the attempt goes on to bind and to provision in
    the same way whether the upgrade of the channel is reported as made
    or not.  Only an exception of [start_tls] stops the attempt. *)
Theorem X20_start_tls_answer_ignored (env : environment) (d : directory) (r : rng)
    (self : hr_employee) (b b' : bool) :
  on_start_tls d = Ok b ->
  _create_ad_user_ldap env (with_start_tls d (Ok b')) r self
  = _create_ad_user_ldap env d r self.
Proof.
  intros Hb. unfold _create_ad_user_ldap.
  destruct (negb (ldap3_available env)); [reflexivity|].
  destruct (_get_ad_config (params env)) as [cfg|x]; [|reflexivity].
  destruct (negb (Py.nonempty (admin_password cfg))); [reflexivity|].
  destruct (negb (Py.nonempty (ad_server cfg)) || negb (Py.nonempty (domain cfg)));
    [reflexivity|].
  destruct (derive_request cfg self r) as [[early|req]|x]; [reflexivity| |reflexivity].
  unfold ldap_session, try_body, catch.
  change (provision env (with_start_tls d (Ok b')) self cfg req)
    with (provision env d self cfg req).
  unfold connect, invoke, bind, record_call, set_conn, lift, ret. simpl. rewrite Hb.
  destruct (on_connect d) as [[]|x]; simpl; [|reflexivity].
  destruct (is_starttls cfg); simpl; [|reflexivity].
  destruct (on_open d) as [[]|x]; simpl; reflexivity.
Qed.

Lemma X20_start_tls_answer_ignored_witness :
  _create_ad_user_ldap starttls_env (with_start_tls willing_directory (Ok false))
    sample_draws john
  = _create_ad_user_ldap starttls_env willing_directory sample_draws john.
Proof.
  apply (X20_start_tls_answer_ignored starttls_env willing_directory sample_draws john
           true false).
  reflexivity.
Defined.

(** X21. Under STARTTLS the answer of [conn.bind] is not read either:
    when the call returns, what the attempt returns is the same whether
    the bind is reported as made or not (the answer decides only whether
    the connection is unbound at the end). *)
Theorem X21_bind_answer_ignored (env : environment) (d : directory) (r : rng)
    (self : hr_employee) (b b' : bool) :
  on_bind d = Ok b ->
  fst (_create_ad_user_ldap env (with_bind d (Ok b')) r self)
  = fst (_create_ad_user_ldap env d r self).
Proof.
  intros Hb. unfold _create_ad_user_ldap.
  destruct (negb (ldap3_available env)); [reflexivity|].
  destruct (_get_ad_config (params env)) as [cfg|x]; [|reflexivity].
  destruct (negb (Py.nonempty (admin_password cfg))); [reflexivity|].
  destruct (negb (Py.nonempty (ad_server cfg)) || negb (Py.nonempty (domain cfg)));
    [reflexivity|].
  destruct (derive_request cfg self r) as [[early|req]|x]; [reflexivity| |reflexivity].
  pose proof (related_provision env self cfg d d req req (same_but_groups_refl d) eq
                (fun _ => eq_refl) eq_refl) as Hrel.
  unfold ldap_session, try_body, catch.
  change (provision env (with_bind d (Ok b')) self cfg req) with (provision env d self cfg req).
  unfold connect, invoke, bind, record_call, set_conn, lift, ret. simpl. rewrite Hb.
  destruct (on_connect d) as [[]|x]; simpl; [|reflexivity].
  destruct (is_starttls cfg); simpl.
  - destruct (on_open d) as [[]|x]; simpl; [|reflexivity].
    destruct (on_start_tls d) as [t|x]; simpl; [|reflexivity].
    match goal with |- fst (let '(_, _) := match provision _ _ _ _ _ ?s1 with _ => _ end in _)
                       = fst (let '(_, _) := match provision _ _ _ _ _ ?s2 with _ => _ end in _) =>
      specialize (Hrel s1 s2);
      destruct (provision env d self cfg req s1) as [[o1|x1] t1];
      destruct (provision env d self cfg req s2) as [[o2|x2] t2]
    end; simpl in *; congruence.
  - reflexivity.
Qed.

Lemma X21_bind_answer_ignored_witness :
  fst (_create_ad_user_ldap starttls_env (with_bind willing_directory (Ok false))
         sample_draws john)
  = fst (_create_ad_user_ldap starttls_env willing_directory sample_draws john).
Proof.
  apply (X21_bind_answer_ignored starttls_env willing_directory sample_draws john
           true false).
  reflexivity.
Defined.

(* ===================================================================== *)
(** * The password and the login                                          *)
(* ===================================================================== *)

Lemma choices_in (pop : list ascii) (k : nat) (r : rng) :
  pop <> [] -> Forall (fun c => In c pop) (fst (choices pop k r)).
Proof.
  intros Hne. revert r. induction k as [|k IH]; intros r; [constructor|].
  simpl. unfold rand_bind at 1. pose proof (choice_in pop r Hne) as Hc.
  destruct (choice pop r) as [c r1]. unfold rand_bind.
  specialize (IH r1). destruct (choices pop k r1) as [cs r2].
  simpl in *. constructor; assumption.
Qed.

Lemma pool_in_alphabet (pool : list ascii) :
  forallb (fun c => existsb (Ascii.eqb c) password_alphabet) pool = true ->
  forall c, In c pool -> In c password_alphabet.
Proof.
  intros Hf c Hc. rewrite forallb_forall in Hf. specialize (Hf c Hc).
  apply existsb_exists in Hf as (x & Hx & Heq). apply Ascii.eqb_eq in Heq. subst. exact Hx.
Qed.

(** X22. Every character of a generated password is a letter, a digit
    or one of [!@#$%], whatever the random draws: in particular the
    password holds no double quote, so the quoted value written to
    [unicodePwd] is well formed, and no whitespace. *)
Theorem X22_password_alphabet (r : rng) :
  Forall (fun c => In c password_alphabet)
         (list_ascii_of_string (fst (_generate_ad_password r))) /\
  Py.contains Py.dquote (fst (_generate_ad_password r)) = false.
Proof.
  assert (Hall : Forall (fun c => In c password_alphabet)
                   (list_ascii_of_string (fst (_generate_ad_password r)))).
  { unfold _generate_ad_password, rand_bind, rand_ret.
    destruct (generate_password_chars r) as [pwd r'] eqn:Hg. cbn [fst].
    rewrite list_ascii_of_string_of_list_ascii.
    assert (Hp : pwd = fst (generate_password_chars r)) by (rewrite Hg; reflexivity).
    subst pwd. clear Hg r'. unfold generate_password_chars.
    unfold rand_bind at 1. pose proof (choice_in ascii_uppercase r) as Hu.
    destruct (choice ascii_uppercase r) as [u r1].
    unfold rand_bind at 1. pose proof (choice_in ascii_lowercase r1) as Hl.
    destruct (choice ascii_lowercase r1) as [l r2].
    unfold rand_bind at 1. pose proof (choice_in py_digits r2) as Hd.
    destruct (choice py_digits r2) as [dg r3].
    unfold rand_bind at 1. pose proof (choice_in symbols r3) as Hs.
    destruct (choice symbols r3) as [sy r4].
    unfold rand_bind at 1. destruct (randint 8 12 r4) as [k r5].
    unfold rand_bind.
    pose proof (choices_in (ascii_letters ++ py_digits ++ symbols) k r5) as Hm.
    destruct (choices _ k r5) as [more r6]. cbn [fst] in *.
    eapply Forall_forall. intros c Hc. apply list_elem_of_In in Hc.
    apply (Permutation_in _ (shuffle_from_perm _ _ _)) in Hc.
    destruct Hc as [<-|[<-|[<-|[<-|Hc]]]].
    - apply (pool_in_alphabet ascii_uppercase); [reflexivity|apply Hu; discriminate].
    - apply (pool_in_alphabet ascii_lowercase); [reflexivity|apply Hl; discriminate].
    - apply (pool_in_alphabet py_digits); [reflexivity|apply Hd; discriminate].
    - apply (pool_in_alphabet symbols); [reflexivity|apply Hs; discriminate].
    - apply (pool_in_alphabet (ascii_letters ++ py_digits ++ symbols)); [reflexivity|].
      assert (Hne : ascii_letters ++ py_digits ++ symbols <> []) by discriminate.
      specialize (Hm Hne). rewrite Forall_forall in Hm. apply Hm, list_elem_of_In, Hc. }
  split; [exact Hall|].
  destruct (Py.contains Py.dquote (fst (_generate_ad_password r))) eqn:Hq; [|reflexivity].
  exfalso. revert Hall Hq. generalize (fst (_generate_ad_password r)). intros s.
  induction s as [|c s IH]; [discriminate|].
  simpl. intros Hall Hq. apply Forall_cons in Hall as [Hc Hs].
  apply orb_true_iff in Hq as [Hq|Hq]; [|exact (IH Hs Hq)].
  apply Ascii.eqb_eq in Hq. subst c. revert Hc. clear. vm_compute.
  intros H. repeat (destruct H as [H|H]; [discriminate H|]). exact H.
Qed.

Lemma split_fields_no_sep (sep : ascii) (s : string) :
  Forall (fun f => Py.contains sep f = false) (Py.split sep s).
Proof.
  induction s as [|c s IH]; [repeat constructor|].
  simpl. destruct (Ascii.eqb c sep) eqn:Hc.
  - constructor; [reflexivity|exact IH].
  - destruct (Py.split sep s) as [|w ws]; [repeat constructor; simpl; rewrite Hc; reflexivity|].
    apply Forall_cons in IH as [Hw Hws]. constructor; [|exact Hws].
    simpl. rewrite Hc, Hw. reflexivity.
Qed.

Lemma lower_char_keeps (c x : ascii) :
  (c = "@" \/ c = ".")%char -> Ascii.eqb (Py.lower_char x) c = Ascii.eqb x c.
Proof.
  intros [-> | ->]; destruct x as [[] [] [] [] [] [] [] []]; reflexivity.
Qed.

Lemma contains_lower (c : ascii) (s : string) :
  (c = "@" \/ c = ".")%char -> Py.contains c (Py.lower s) = Py.contains c s.
Proof.
  intros Hc. induction s as [|x s IH]; [reflexivity|].
  simpl. rewrite (lower_char_keeps c x Hc), IH. reflexivity.
Qed.

Lemma contains_remove (c : ascii) (s : string) :
  Py.contains c (Py.replace "." "" s) = if Ascii.eqb c "." then false else Py.contains c s.
Proof.
  induction s as [|x s IH]; [destruct (Ascii.eqb c "."); reflexivity|].
  simpl. destruct (Ascii.eqb x ".") eqn:Hx.
  - rewrite app_empty_l, IH. apply Ascii.eqb_eq in Hx. subst x.
    destruct (Ascii.eqb c ".") eqn:Hc; [reflexivity|].
    rewrite Ascii.eqb_sym, Hc. reflexivity.
  - simpl. rewrite IH. destruct (Ascii.eqb c ".") eqn:Hc; [|reflexivity].
    apply Ascii.eqb_eq in Hc. subst c. rewrite Hx. reflexivity.
Qed.

Lemma lower_remove (s : string) :
  Py.lower (Py.replace "." "" s) = Py.replace "." "" (Py.lower s).
Proof.
  induction s as [|x s IH]; [reflexivity|].
  simpl. rewrite (lower_char_keeps "." x) by auto.
  destruct (Ascii.eqb x "."); [rewrite !app_empty_l; exact IH|].
  simpl. rewrite IH. reflexivity.
Qed.

(** X23. The login derived from a work email, whatever the email is,
    holds no dot and no [@], and is in lower case (lower-casing it
    again changes nothing). *)
Theorem X23_login_shape (email : string) :
  Py.contains "." (login_of_email email) = false /\
  Py.contains "@" (login_of_email email) = false /\
  Py.lower (login_of_email email) = login_of_email email.
Proof.
  unfold login_of_email. split; [|split].
  - rewrite contains_remove. reflexivity.
  - rewrite contains_remove. simpl. rewrite contains_lower by auto.
    pose proof (split_fields_no_sep "@" email) as H.
    destruct (Py.split "@" email) as [|f fs]; [reflexivity|].
    apply (Forall_inv H).
  - rewrite lower_remove, lower_idem. reflexivity.
Qed.

(* ===================================================================== *)
(** * The override of [message_post]                                      *)
(* ===================================================================== *)

(** X24. [message_post] always posts the message it is given.  It runs
    the onboarding after it exactly when the message names an activity
    type, the "Create AD User" activity type exists, and the two are the
    same: the chatter then gets the report of the attempt on top of the
    message.  Without an activity type, with another one, or when the
    "Create AD User" type is not found, nothing else happens. *)
Theorem X24_message_post_trigger (env : environment) (create_ad_type tid : option Z)
    (m : mail_message) (a : attempt) (st : store) :
  let st' := message_post env create_ad_type tid m a st in
  (tid = None \/ create_ad_type = None \/ tid <> create_ad_type \/ tid = Some 0 ->
   st' = with_employee (post m) st) /\
  (forall t, tid = Some t -> create_ad_type = Some t -> t <> 0 ->
   st' = onboard env a (with_employee (post m) st) /\
   exists report, message_ids (employee st') = report :: m :: message_ids (employee st)).
Proof.
  unfold message_post. split.
  - intros [-> | [-> | [Hne | ->]]].
    + reflexivity.
    + destruct tid; reflexivity.
    + destruct tid as [t|], create_ad_type as [c|]; try reflexivity.
      destruct (Z.eqb_spec t c) as [->|Hc]; [congruence|].
      rewrite andb_false_r. reflexivity.
    + destruct create_ad_type; reflexivity.
  - intros t -> -> Ht. rewrite Z.eqb_refl.
    destruct (Z.eqb_spec t 0) as [->|_]; [congruence|]. simpl.
    split; [reflexivity|].
    destruct (onboard_posts_one env a (with_employee (post m) st)) as [[rep Hrep] _].
    exists rep. exact Hrep.
Qed.

Lemma X24_message_post_trigger_witness :
  message_post linux_env (Some 5) (Some 5) activity_done_message
    (sample_attempt willing_directory) (store_of john)
  = onboard linux_env (sample_attempt willing_directory)
      (with_employee (post activity_done_message) (store_of john)).
Proof.
  refine (proj1 (proj2 (X24_message_post_trigger linux_env (Some 5) (Some 5)
                          activity_done_message (sample_attempt willing_directory)
                          (store_of john)) 5 eq_refl eq_refl _)).
  discriminate.
Defined.

(* ===================================================================== *)
(** * The log of an attempt                                               *)
(* ===================================================================== *)

Section Logged.
Variable env : environment.
Variable d : directory.
Variable self : hr_employee.
Variable cfg : ad_config.
Variable req : account_request.

Lemma and_then_logged (st : Sess (option outcome)) (k : Sess outcome) :
  quiet_step st -> logged self cfg req k -> logged self cfg req (and_then st k).
Proof.
  intros Hst Hk s. unfold and_then, bind. destruct (Hst s) as [Hl Hr].
  destruct (st s) as [[[o|]|e] s1]; simpl in *.
  - left. split; [exact Hr|exact Hl].
  - specialize (Hk s1). rewrite Hl in Hk. exact Hk.
  - exact Hl.
Qed.

Lemma check_existing_quiet : quiet_step (check_existing d cfg req).
Proof.
  intros s. unfold check_existing, invoke, bind, record_call, lift, ret. simpl.
  destruct (on_search_existing d) as [[|e es]|x]; simpl; [auto| |auto].
  destruct (distinguishedName e); simpl; eauto.
Qed.

Lemma create_user_quiet : quiet_step (create_user d self req).
Proof.
  intros s. unfold create_user, invoke, bind, record_call, lift, ret. simpl.
  destruct (on_add d) as [ra|x]; simpl; [|auto].
  destruct (is_success ra); simpl; eauto.
Qed.

Lemma set_password_quiet : quiet_step (set_password env d req).
Proof.
  intros s. unfold set_password, invoke, bind, catch, record_call, lift, ret. simpl.
  destruct (on_set_password d) as [rp|x]; simpl; [|auto].
  destruct (is_success rp); simpl; [auto|].
  destruct (_ && _); simpl; [|eauto].
  destruct (on_net_user d) as [u|x]; simpl; [auto|].
  destruct (fallback_handled (exn_cls x)); simpl; eauto.
Qed.

Lemma enable_account_quiet : quiet_step (enable_account d req).
Proof.
  intros s. unfold enable_account, invoke, bind, record_call, lift, ret. simpl.
  destruct (on_enable d) as [re|x]; simpl; [|auto].
  destruct (is_success re); simpl; eauto.
Qed.

Lemma verify_enabled_quiet : quiet_step (verify_enabled d req).
Proof.
  intros s. unfold verify_enabled, invoke, bind, record_call, lift, ret. simpl.
  destruct (on_verify d) as [[|e es]|x]; simpl; [eauto| |auto].
  destruct (userAccountControl e) as [uac|x]; simpl; [|auto].
  destruct (negb _); simpl; eauto.
Qed.

(** Each default group leaves one record, a success or a warning. *)
Lemma add_to_group_logs (i : nat) (g : string) (s : session) :
  exists rec, logs (snd (add_to_group d cfg req i g s)) = logs s ++ [rec] /\
    group_record rec.
Proof.
  unfold group_record, add_to_group, _find_ad_group_dn, invoke, bind, catch, record_call,
    lift, ret, log.
  simpl. destruct (on_group_search d i) as [[|e es]|x]; simpl; [eauto| |eauto].
  destruct (distinguishedName e) as [dn|x]; simpl; [|eauto].
  destruct (Py.nonempty dn); simpl; [|eauto].
  destruct (on_group_modify d i) as [rm|x]; simpl; [|eauto].
  destruct (is_success rm); simpl; eauto.
Qed.

Lemma add_to_groups_logs (groups : list string) (i : nat) (s : session) :
  exists gl, logs (snd (add_to_groups d cfg req i groups s)) = logs s ++ gl /\
    length gl = length groups /\
    Forall group_record gl.
Proof.
  revert i s. induction groups as [|g gs IH]; intros i s.
  - exists []. simpl. rewrite app_nil_r. auto.
  - simpl. unfold bind.
    destruct (add_to_group_logs i g s) as (rec & Hrec & Hlvl).
    destruct (add_to_group_returns d cfg req i g s) as (s1 & ex & E & _).
    rewrite E in *. simpl in Hrec.
    destruct (IH (S i) s1) as (gl & Hgl & Hlen & Hall).
    exists (rec :: gl). rewrite Hgl, Hrec, <- app_assoc. simpl.
    split; [reflexivity|]. split; [congruence|]. constructor; assumption.
Qed.

Lemma provision_logged : logged self cfg req (provision env d self cfg req).
Proof.
  unfold provision.
  apply and_then_logged; [apply check_existing_quiet|].
  apply and_then_logged; [apply create_user_quiet|].
  apply and_then_logged; [apply set_password_quiet|].
  apply and_then_logged; [apply enable_account_quiet|].
  apply and_then_logged; [apply verify_enabled_quiet|].
  intros s. unfold bind.
  destruct (add_to_groups_logs (default_groups cfg) 0 s) as (gl & Hgl & Hlen & Hall).
  destruct (add_to_groups_returns d cfg req (default_groups cfg) 0 s) as (s1 & ex & E & _).
  rewrite E in *. simpl in *. right. split; [reflexivity|].
  exists gl. rewrite Hgl, <- app_assoc. auto.
Qed.

Lemma connect_quiet (s : session) : logs (snd (connect d cfg s)) = logs s.
Proof.
  unfold connect, invoke, bind, record_call, set_conn, lift, ret. simpl.
  destruct (on_connect d) as [[]|x]; simpl; [|reflexivity].
  destruct (is_starttls cfg); simpl; [|reflexivity].
  destruct (on_open d) as [[]|x]; simpl; [|reflexivity].
  destruct (on_start_tls d) as [b|x]; simpl; [|reflexivity].
  destruct (on_bind d) as [b'|x]; reflexivity.
Qed.

Lemma finally_unbind_logs (s : session) : logs (finally_unbind s) = logs s.
Proof. unfold finally_unbind. destruct (conn s) as [[]|]; reflexivity. Qed.

(** The log of a session. *)
Lemma ldap_session_logged :
  (forall l p, fst (ldap_session env d self cfg req) = Ok (created l p) ->
     exists gl, logs (snd (ldap_session env d self cfg req))
                = gl ++ [created_record l self] /\
       length gl = length (default_groups cfg) /\
       Forall group_record gl) /\
  (forall msg, fst (ldap_session env d self cfg req) = Ok (failed msg) ->
     logs (snd (ldap_session env d self cfg req)) = [] \/
     exists text, logs (snd (ldap_session env d self cfg req)) = [(EXCEPTION, text)]).
Proof.
  unfold ldap_session, catch, try_body, bind.
  pose proof (connect_quiet no_session) as Hc.
  destruct (connect d cfg no_session) as [[[]|x] s1]; simpl in Hc.
  - pose proof (provision_logged s1) as Hp. rewrite Hc in Hp.
    destruct (provision env d self cfg req s1) as [[o|x] s2]; simpl in *.
    + rewrite finally_unbind_logs. split.
      * intros l p H. injection H as ->.
        destruct Hp as [[[msg Hm] _]|[Ho Hgl]]; [discriminate|].
        injection Ho as Hl _. subst l. exact Hgl.
      * intros msg H. injection H as ->.
        destruct Hp as [[_ Hl]|[Ho _]]; [left; exact Hl|discriminate].
    + split.
      * intros l p H. discriminate.
      * intros msg _. right. unfold finally_unbind. simpl.
        destruct (conn s2) as [[]|]; simpl; rewrite Hp; eauto.
  - split.
    + intros l p H. discriminate.
    + intros msg _. right. unfold finally_unbind. simpl.
      destruct (conn s1) as [[]|]; simpl; rewrite Hc; eauto.
Qed.

End Logged.

(** X25. What [_create_ad_user_ldap] writes to the log.  When it
    returns a login: one record for each default group, an [info] or a
    [warning], and then the record of the success.  When it returns an
    error message: either nothing at all (a step of the pipeline was
    refused, or a check failed before the connection), or the one
    record of the exception that was caught. *)
Theorem X25_what_is_logged (env : environment) (d : directory) (r : rng)
    (self : hr_employee) (cfg : ad_config) :
  _get_ad_config (params env) = Ok cfg ->
  (forall l p, fst (_create_ad_user_ldap env d r self) = Ok (created l p) ->
     exists gl, logs (snd (_create_ad_user_ldap env d r self))
                = gl ++ [created_record l self] /\
       length gl = length (default_groups cfg) /\
       Forall group_record gl) /\
  (forall msg, fst (_create_ad_user_ldap env d r self) = Ok (failed msg) ->
     logs (snd (_create_ad_user_ldap env d r self)) = [] \/
     exists text, logs (snd (_create_ad_user_ldap env d r self)) = [(EXCEPTION, text)]).
Proof.
  intros Hcfg. unfold _create_ad_user_ldap. rewrite Hcfg.
  destruct (negb (ldap3_available env)); [split; [discriminate|auto]|].
  destruct (negb (Py.nonempty (admin_password cfg))); [split; [discriminate|auto]|].
  destruct (negb (Py.nonempty (ad_server cfg)) || negb (Py.nonempty (domain cfg)));
    [split; [discriminate|auto]|].
  destruct (derive_request cfg self r) as [[early|req]|x] eqn:Hreq.
  - simpl. split; [|auto]. intros l p H. injection H as ->. unfold derive_request in Hreq.
    destruct (match Py.split_ws_1 _ with [] => _ | _ => _ end); simpl in Hreq; [|discriminate].
    destruct (negb _); discriminate.
  - apply ldap_session_logged.
  - simpl. split; discriminate.
Qed.

Lemma X25_what_is_logged_witness :
  exists gl,
    logs (snd (_create_ad_user_ldap groups_env failing_groups_directory sample_draws john))
    = gl ++ [created_record "johndoe" john] /\
    length gl = 3%nat /\ Forall group_record gl.
Proof.
  assert (Hcfg : _get_ad_config (params groups_env) = Ok groups_config)
    by (vm_compute; reflexivity).
  apply (proj1 (X25_what_is_logged groups_env failing_groups_directory sample_draws john
                  groups_config Hcfg) "johndoe" "kM0Bg7%u%7TDn").
  vm_compute. reflexivity.
Defined.

(* ===================================================================== *)
(** * Where the password goes                                             *)
(* ===================================================================== *)

Section Indistinguishable.

Lemma ind_ret {A} (a : A) : indistinguishable eq (ret a) (ret a).
Proof. intros s1 s2 H. split; [reflexivity|exact H]. Qed.

Lemma ind_lift {A} (r : res A) : indistinguishable eq (lift r) (lift r).
Proof. intros s1 s2 H. split; [reflexivity|exact H]. Qed.

Lemma ind_log (lvl : log_level) (msg : string) :
  indistinguishable eq (log lvl msg) (log lvl msg).
Proof.
  intros s1 s2 H. split; [reflexivity|]. unfold public in *. simpl.
  injection H as Hc Hl Hn. rewrite Hc, Hl, Hn. reflexivity.
Qed.

Lemma ind_record (c1 c2 : call) :
  redact c1 = redact c2 -> indistinguishable eq (record_call c1) (record_call c2).
Proof.
  intros Hr s1 s2 H. split; [reflexivity|]. unfold public in *. simpl.
  injection H as Hc Hl Hn. rewrite !map_app, Hc, Hl, Hn. simpl. rewrite Hr. reflexivity.
Qed.

Lemma ind_set_conn (c : option bool) : indistinguishable eq (set_conn c) (set_conn c).
Proof.
  intros s1 s2 H. split; [reflexivity|]. unfold public in *. simpl.
  injection H as Hc Hl Hn. rewrite Hc, Hl. reflexivity.
Qed.

Lemma ind_bind {A B} (R : res B -> res B -> Prop)
    (m1 m2 : Sess A) (k1 k2 : A -> Sess B) :
  (forall e, R (Raise e) (Raise e)) ->
  indistinguishable eq m1 m2 -> (forall a, indistinguishable R (k1 a) (k2 a)) ->
  indistinguishable R (bind m1 k1) (bind m2 k2).
Proof.
  intros Hrefl Hm Hk s1 s2 Hs. unfold bind. destruct (Hm s1 s2 Hs) as [Hr Hl].
  destruct (m1 s1) as [[a1|e1] s1'], (m2 s2) as [[a2|e2] s2']; simpl in *;
    try discriminate.
  - injection Hr as ->. apply Hk, Hl.
  - injection Hr as ->. split; [apply Hrefl|exact Hl].
Qed.

Lemma ind_catch {A} (m1 m2 : Sess A) (h1 h2 : exn -> Sess A) :
  indistinguishable eq m1 m2 -> (forall e, indistinguishable eq (h1 e) (h2 e)) ->
  indistinguishable eq (catch m1 h1) (catch m2 h2).
Proof.
  intros Hm Hh s1 s2 Hs. unfold catch. destruct (Hm s1 s2 Hs) as [Hr Hl].
  destruct (m1 s1) as [[a1|e1] s1'], (m2 s2) as [[a2|e2] s2']; simpl in *;
    try discriminate.
  - split; assumption.
  - injection Hr as ->. apply Hh, Hl.
Qed.

Lemma ind_invoke {A} (c1 c2 : call) (answer : res A) :
  redact c1 = redact c2 -> indistinguishable eq (invoke c1 answer) (invoke c2 answer).
Proof.
  intros Hr. unfold invoke. apply ind_bind; [reflexivity|apply ind_record, Hr|].
  intros _. apply ind_lift.
Qed.

Lemma ind_and_then (R : res outcome -> res outcome -> Prop)
    (st1 st2 : Sess (option outcome)) (k1 k2 : Sess outcome) :
  (forall r, R r r) ->
  indistinguishable eq st1 st2 -> indistinguishable R k1 k2 ->
  indistinguishable R (and_then st1 k1) (and_then st2 k2).
Proof.
  intros Hrefl Hst Hk. unfold and_then.
  apply ind_bind; [intros e; apply Hrefl|exact Hst|].
  intros [o|]; [|exact Hk]. intros s1 s2 Hs. split; [apply Hrefl|exact Hs].
Qed.

Variable env : environment.
Variable d : directory.
Variable self : hr_employee.
Variable cfg : ad_config.
Variable req : account_request.
Variables p1 p2 : string.

Lemma ind_connect : indistinguishable eq (connect d cfg) (connect d cfg).
Proof.
  unfold connect.
  apply ind_bind; [reflexivity|apply ind_record; reflexivity|]. intros _.
  apply ind_bind; [reflexivity|apply ind_lift|]. intros _.
  apply ind_bind; [reflexivity|apply ind_set_conn|]. intros _.
  destruct (is_starttls cfg); [|apply ind_ret].
  apply ind_bind; [reflexivity|apply ind_invoke; reflexivity|]. intros _.
  apply ind_bind; [reflexivity|apply ind_invoke; reflexivity|]. intros _.
  apply ind_bind; [reflexivity|apply ind_invoke; reflexivity|]. intros b.
  apply ind_set_conn.
Qed.

Lemma ind_check_existing :
  indistinguishable eq (check_existing d cfg (with_password req p1))
                       (check_existing d cfg (with_password req p2)).
Proof.
  unfold check_existing.
  apply ind_bind; [reflexivity|apply ind_invoke; reflexivity|].
  intros [|e es]; [apply ind_ret|].
  apply ind_bind; [reflexivity|apply ind_lift|]. intros dn.
  apply ind_ret.
Qed.

Lemma ind_create_user :
  indistinguishable eq (create_user d self (with_password req p1))
                       (create_user d self (with_password req p2)).
Proof.
  unfold create_user.
  apply ind_bind; [reflexivity|apply ind_invoke; reflexivity|].
  intros r. destruct (is_success r); apply ind_ret.
Qed.

Lemma ind_set_password :
  indistinguishable eq (set_password env d (with_password req p1))
                       (set_password env d (with_password req p2)).
Proof.
  unfold set_password.
  apply ind_bind; [reflexivity|apply ind_invoke; reflexivity|].
  intros r. destruct (is_success r); [apply ind_ret|].
  destruct (_ && _); [|apply ind_ret].
  apply ind_catch.
  - apply ind_bind; [reflexivity|apply ind_invoke; reflexivity|]. intros _.
    apply ind_ret.
  - intros e. destruct (fallback_handled (exn_cls e));
      [apply ind_ret|apply ind_lift].
Qed.

Lemma ind_enable_account :
  indistinguishable eq (enable_account d (with_password req p1))
                       (enable_account d (with_password req p2)).
Proof.
  unfold enable_account.
  apply ind_bind; [reflexivity|apply ind_invoke; reflexivity|].
  intros r. destruct (is_success r); apply ind_ret.
Qed.

Lemma ind_verify_enabled :
  indistinguishable eq (verify_enabled d (with_password req p1))
                       (verify_enabled d (with_password req p2)).
Proof.
  unfold verify_enabled.
  apply ind_bind; [reflexivity|apply ind_invoke; reflexivity|].
  intros [|e es]; [apply ind_ret|].
  apply ind_bind; [reflexivity|apply ind_lift|]. intros uac.
  destruct (negb _); apply ind_ret.
Qed.

Lemma ind_add_to_group (i : nat) (g : string) :
  indistinguishable eq (add_to_group d cfg (with_password req p1) i g)
                       (add_to_group d cfg (with_password req p2) i g).
Proof.
  unfold add_to_group. apply ind_catch.
  - apply ind_bind; [reflexivity| |].
    + unfold _find_ad_group_dn.
      apply ind_bind; [reflexivity|apply ind_invoke; reflexivity|].
      intros [|e es]; [apply ind_ret|].
      apply ind_bind; [reflexivity|apply ind_lift|]. intros dn.
      apply ind_ret.
    + intros group_dn. destruct (Py.truthy group_dn); [|apply ind_log].
      apply ind_bind; [reflexivity|apply ind_invoke; reflexivity|].
      intros r. destruct (is_success r); apply ind_log.
  - intros e. apply ind_log.
Qed.

Lemma ind_add_to_groups (groups : list string) (i : nat) :
  indistinguishable eq (add_to_groups d cfg (with_password req p1) i groups)
                       (add_to_groups d cfg (with_password req p2) i groups).
Proof.
  revert i. induction groups as [|g gs IH]; intros i; simpl; [apply ind_ret|].
  apply ind_bind; [reflexivity|apply ind_add_to_group|].
  intros _. apply IH.
Qed.

Lemma ind_provision :
  indistinguishable same_but_password
    (provision env d self cfg (with_password req p1))
    (provision env d self cfg (with_password req p2)).
Proof.
  unfold provision.
  apply ind_and_then; [reflexivity|apply ind_check_existing|].
  apply ind_and_then; [reflexivity|apply ind_create_user|].
  apply ind_and_then; [reflexivity|apply ind_set_password|].
  apply ind_and_then; [reflexivity|apply ind_enable_account|].
  apply ind_and_then; [reflexivity|apply ind_verify_enabled|].
  apply ind_bind; [reflexivity|apply ind_add_to_groups|]. intros _.
  apply ind_bind; [reflexivity|apply ind_log|]. intros _.
  intros s1 s2 Hs. split; [|exact Hs]. reflexivity.
Qed.

Lemma ind_on_exception (e : exn) :
  indistinguishable eq (on_exception self e) (on_exception self e).
Proof.
  unfold on_exception. apply ind_bind; [reflexivity|apply ind_log|].
  intros _. apply ind_ret.
Qed.

Lemma public_finally_unbind (s1 s2 : session) :
  public s1 = public s2 -> public (finally_unbind s1) = public (finally_unbind s2).
Proof.
  intros H. unfold public in H. injection H as Hc Hl Hn.
  unfold finally_unbind. rewrite Hn.
  destruct (conn s2) as [[]|] eqn:E; unfold public; simpl;
    rewrite ?map_app, Hc, Hl, ?Hn, ?E; reflexivity.
Qed.

(** Two sessions that differ by the password alone look the same. *)
Lemma ldap_session_public :
  public (snd (ldap_session env d self cfg (with_password req p1)))
  = public (snd (ldap_session env d self cfg (with_password req p2))).
Proof.
  assert (Hbody : indistinguishable same_but_password
                    (try_body env d self cfg (with_password req p1))
                    (try_body env d self cfg (with_password req p2))).
  { unfold try_body. apply ind_bind; [reflexivity|apply ind_connect|].
    intros _. apply ind_provision. }
  unfold ldap_session, catch.
  destruct (Hbody no_session no_session eq_refl) as [Hr Hl].
  destruct (try_body env d self cfg (with_password req p1) no_session) as [[o1|x1] t1],
           (try_body env d self cfg (with_password req p2) no_session) as [[o2|x2] t2];
    unfold same_but_password in Hr; simpl in Hr, Hl.
  - apply public_finally_unbind, Hl.
  - destruct o1 as [[? ?] ?]. discriminate.
  - destruct o2 as [[? ?] ?]. discriminate.
  - injection Hr as ->. apply public_finally_unbind.
    apply (proj2 (ind_on_exception x2 t1 t2 Hl)).
Qed.

End Indistinguishable.

(** The random draws reach a request through its password alone. *)
Lemma derive_request_password (cfg : ad_config) (self : hr_employee) (r r0 : rng) :
  derive_request cfg self r
  = match derive_request cfg self r0 with
    | Ok (inr req) => Ok (inr (with_password req (fst (_generate_ad_password r))))
    | other => other
    end.
Proof.
  unfold derive_request.
  destruct (match Py.split_ws_1 _ with [] => _ | _ => _ end) as [last|e];
    simpl; [|reflexivity].
  destruct (negb (Py.nonempty (Py.strip (Py.or_empty (work_email self)))));
    reflexivity.
Qed.

(** Two attempts that differ by the random draws alone look the same. *)
Lemma create_ad_user_public (env : environment) (d : directory) (r1 r2 : rng)
    (self : hr_employee) :
  public (snd (_create_ad_user_ldap env d r1 self))
  = public (snd (_create_ad_user_ldap env d r2 self)).
Proof.
  unfold _create_ad_user_ldap.
  destruct (negb (ldap3_available env)); [reflexivity|].
  destruct (_get_ad_config (params env)) as [cfg|e]; [|reflexivity].
  destruct (negb (Py.nonempty (admin_password cfg))); [reflexivity|].
  destruct (negb (Py.nonempty (ad_server cfg)) || negb (Py.nonempty (domain cfg)));
    [reflexivity|].
  rewrite (derive_request_password cfg self r1 r2).
  rewrite (derive_request_password cfg self r2 r2) at 2.
  destruct (derive_request cfg self r2) as [[early|req]|x]; [reflexivity| |reflexivity].
  apply ldap_session_public.
Qed.

(** X26. What [_create_ad_user_ldap] writes to the log does not depend
    on the random draws, so on the password: the records are made of
    the login, the identifier of the employee, the names of the groups
    and the answers of the directory, and two attempts that differ only
    by their generated password write the same records. *)
Theorem X26_password_never_logged (env : environment) (d : directory) (r1 r2 : rng)
    (self : hr_employee) :
  logs (snd (_create_ad_user_ldap env d r1 self))
  = logs (snd (_create_ad_user_ldap env d r2 self)).
Proof.
  pose proof (create_ad_user_public env d r1 r2 self) as H.
  unfold public in H. injection H as _ Hl _. exact Hl.
Qed.

(** X27. The generated password reaches the directory in two places
    only: the value written to [unicodePwd], and the fourth word of the
    [net user] command.  With these two places blanked, the calls of two
    attempts that differ only by their random draws are the same, one
    by one: no other call, and no other argument, depends on the
    password. *)
Theorem X27_password_confined (env : environment) (d : directory) (r1 r2 : rng)
    (self : hr_employee) :
  map redact (calls (snd (_create_ad_user_ldap env d r1 self)))
  = map redact (calls (snd (_create_ad_user_ldap env d r2 self))).
Proof.
  pose proof (create_ad_user_public env d r1 r2 self) as H.
  unfold public in H. injection H as Hc _ _. exact Hc.
Qed.

(* ===================================================================== *)
(** * What is written on the employee                                     *)
(* ===================================================================== *)

(** X28. What is written on the employee does not depend on the mail:
    the status, the login and the chatter entry (which says that the
    credentials have been sent) are the same whether the mail template
    is found or not and whether the mail gateway accepts the mail or
    raises. *)
Theorem X28_report_ignores_delivery (env : environment) (a : attempt) (st : store)
    (found : bool) (gw : res unit) :
  employee (onboard (with_mail_template env found) (with_gateway a gw) st)
  = employee (onboard env a st).
Proof.
  unfold onboard.
  change (_create_ad_user_ldap (with_mail_template env found) (dir (with_gateway a gw))
            (draws (with_gateway a gw)) (employee st))
    with (_create_ad_user_ldap env (dir a) (draws a) (employee st)).
  destruct (_validate_employee_for_ad (employee st)); [reflexivity|].
  destruct (fst (_create_ad_user_ldap env (dir a) (draws a) (employee st)))
    as [[[l er] p]|x]; [|reflexivity].
  destruct (Py.truthy er); reflexivity.
Qed.

(** X29. After an attempt that returned a login, the status is
    ['success'] and the chatter gets the entry of the success.  The
    login is stored on the employee when it is not empty.  When it is
    empty (the work email holds only dots before the [@]), the stored
    login is left as it was and no mail is sent, although the account
    was created. *)
Theorem X29_username_recorded (env : environment) (a : attempt) (st : store)
    (l p : string) :
  _validate_employee_for_ad (employee st) = None ->
  fst (_create_ad_user_ldap env (dir a) (draws a) (employee st)) = Ok (created l p) ->
  let e' := employee (onboard env a st) in
  ad_sync_status e' = success /\
  ad_username e' = (if Py.nonempty l then Some l else ad_username (employee st)) /\
  message_ids e' = success_message (Some l) (employee st) :: message_ids (employee st) /\
  (Py.nonempty l = false -> outbox (onboard env a st) = outbox st).
Proof.
  intros Hv Hrun. unfold onboard. rewrite Hv, Hrun. simpl.
  split; [reflexivity|]. split; [reflexivity|]. split; [reflexivity|].
  intros ->. rewrite andb_false_r. reflexivity.
Qed.

Lemma X29_username_recorded_witness :
  let st' := onboard linux_env (sample_attempt willing_directory) (store_of dotted_employee) in
  ad_sync_status (employee st') = success /\
  ad_username (employee st') = Some "dmatrix" /\
  outbox st' = [].
Proof.
  intros st'.
  assert (Hrun : fst (_create_ad_user_ldap linux_env willing_directory sample_draws
                        dotted_employee) = Ok (created "" "kM0Bg7%u%7TDn"))
    by (vm_compute; reflexivity).
  destruct (X29_username_recorded linux_env (sample_attempt willing_directory)
              (store_of dotted_employee) "" "kM0Bg7%u%7TDn" eq_refl Hrun)
    as (Hst & Hl & _ & Hout).
  split; [exact Hst|]. split; [exact Hl|]. exact (Hout eq_refl).
Defined.

(* ===================================================================== *)
(** * The filters of the searches                                         *)
(* ===================================================================== *)

Section Escaped.

Variable env : environment.
Variable d : directory.
Variable self : hr_employee.
Variable cfg : ad_config.
Variable req : account_request.

Hypothesis Hfilter :
  search_filter req = "(sAMAccountName=" +:+ _ldap_escape_filter (login req) +:+ ")".

Lemma escaped_invoke {A} (c : call) (answer : res A) :
  search_escaped c -> preserves (all_calls search_escaped) (invoke c answer).
Proof.
  intros Hc. apply (preserves_invoke _ search_escaped (all_calls_record search_escaped)), Hc.
Qed.

Lemma escaped_connect : preserves (all_calls search_escaped) (connect d cfg).
Proof.
  unfold connect.
  apply preserves_bind; [apply all_calls_record; exact I|]. intros _.
  apply preserves_bind; [apply preserves_lift|]. intros _.
  apply preserves_bind; [apply all_calls_set_conn|]. intros _.
  apply preserves_if; [|apply preserves_ret].
  apply preserves_bind; [apply escaped_invoke; exact I|]. intros _.
  apply preserves_bind; [apply escaped_invoke; exact I|]. intros _.
  apply preserves_bind; [apply escaped_invoke; exact I|]. intros b.
  apply all_calls_set_conn.
Qed.

Lemma escaped_check_existing :
  preserves (all_calls search_escaped) (check_existing d cfg req).
Proof.
  unfold check_existing. apply preserves_bind.
  - apply escaped_invoke. right. exists (_ldap_escape_filter (login req)).
    split; [apply escape_filter_safe|left; exact Hfilter].
  - intros [|e es]; [apply preserves_ret|].
    apply preserves_bind; [apply preserves_lift|]. intros dn. apply preserves_ret.
Qed.

Lemma escaped_create_user :
  preserves (all_calls search_escaped) (create_user d self req).
Proof.
  unfold create_user. apply preserves_bind; [apply escaped_invoke; exact I|].
  intros r. apply preserves_if; apply preserves_ret.
Qed.

Lemma escaped_set_password :
  preserves (all_calls search_escaped) (set_password env d req).
Proof.
  unfold set_password. apply preserves_bind; [apply escaped_invoke; exact I|].
  intros r. apply preserves_if; [apply preserves_ret|].
  apply preserves_if; [|apply preserves_ret].
  apply preserves_catch.
  - apply preserves_bind; [|intros _; apply preserves_ret].
    apply escaped_invoke. exact I.
  - intros e. apply preserves_if; [apply preserves_ret|apply preserves_lift].
Qed.

Lemma escaped_enable_account :
  preserves (all_calls search_escaped) (enable_account d req).
Proof.
  unfold enable_account. apply preserves_bind; [apply escaped_invoke; exact I|].
  intros r. apply preserves_if; apply preserves_ret.
Qed.

Lemma escaped_verify_enabled :
  preserves (all_calls search_escaped) (verify_enabled d req).
Proof.
  unfold verify_enabled. apply preserves_bind.
  - apply escaped_invoke. left. reflexivity.
  - intros [|e es]; [apply preserves_ret|].
    apply preserves_bind; [apply preserves_lift|].
    intros uac. apply preserves_if; apply preserves_ret.
Qed.

Lemma escaped_add_to_group (i : nat) (g : string) :
  preserves (all_calls search_escaped) (add_to_group d cfg req i g).
Proof.
  unfold add_to_group. apply preserves_catch; [|intros e; apply all_calls_log].
  apply preserves_bind.
  - unfold _find_ad_group_dn. apply preserves_bind.
    + apply escaped_invoke. right. exists (_ldap_escape_filter g).
      split; [apply escape_filter_safe|right; reflexivity].
    + intros [|e es]; [apply preserves_ret|].
      apply preserves_bind; [apply preserves_lift|]. intros dn. apply preserves_ret.
  - intros group_dn. apply preserves_if; [|apply all_calls_log].
    apply preserves_bind; [apply escaped_invoke; exact I|].
    intros r. apply preserves_if; apply all_calls_log.
Qed.

Lemma escaped_add_to_groups (i : nat) (groups : list string) :
  preserves (all_calls search_escaped) (add_to_groups d cfg req i groups).
Proof.
  revert i. induction groups as [|g gs IH]; intros i; simpl.
  - apply preserves_ret.
  - apply preserves_bind; [apply escaped_add_to_group|]. intros _. apply IH.
Qed.

Lemma escaped_provision :
  preserves (all_calls search_escaped) (provision env d self cfg req).
Proof.
  unfold provision.
  apply preserves_and_then; [apply escaped_check_existing|].
  apply preserves_and_then; [apply escaped_create_user|].
  apply preserves_and_then; [apply escaped_set_password|].
  apply preserves_and_then; [apply escaped_enable_account|].
  apply preserves_and_then; [apply escaped_verify_enabled|].
  apply preserves_bind; [apply escaped_add_to_groups|]. intros _.
  apply preserves_bind; [apply all_calls_log|]. intros _. apply preserves_ret.
Qed.

Lemma ldap_session_escaped :
  Forall search_escaped (calls (snd (ldap_session env d self cfg req))).
Proof.
  assert (H : all_calls search_escaped
                (snd (catch (try_body env d self cfg req) (on_exception self) no_session))).
  { apply preserves_catch.
    - unfold try_body. apply preserves_bind; [apply escaped_connect|].
      intros _. apply escaped_provision.
    - intros e. unfold on_exception. apply preserves_bind; [apply all_calls_log|].
      intros _. apply preserves_ret.
    - constructor. }
  unfold ldap_session.
  destruct (catch (try_body env d self cfg req) (on_exception self) no_session) as [r s].
  simpl in *. unfold all_calls in H. unfold finally_unbind.
  destruct (conn s) as [[]|]; simpl; [|exact H|exact H].
  apply Forall_app. split; [exact H|]. constructor; [exact I|constructor].
Qed.

End Escaped.

(** X30. No value reaches a search filter unescaped.  Every search of
    an attempt has either the fixed filter of the verification, or a
    filter built around one value (the login, or the name of a default
    group) that went through [_ldap_escape_filter]: the value holds no
    parenthesis, no asterisk and no NUL, and each of its backslashes
    opens a hexadecimal escape, whatever the work email and the
    configured group names are. *)
Theorem X30_search_filters_escaped (env : environment) (d : directory) (r : rng)
    (self : hr_employee) :
  Forall search_escaped (calls (snd (_create_ad_user_ldap env d r self))).
Proof.
  destruct (decide (calls (snd (_create_ad_user_ldap env d r self)) = [])) as [E|Hne].
  - rewrite E. constructor.
  - destruct (reached_directory env d r self Hne) as (cfg & req & _ & Hreq & ->).
    apply ldap_session_escaped.
    unfold derive_request in Hreq.
    destruct (match Py.split_ws_1 _ with [] => _ | _ => _ end) as [last|e];
      simpl in Hreq; [|discriminate].
    destruct (negb (Py.nonempty (Py.strip (Py.or_empty (work_email self)))));
      [discriminate|].
    injection Hreq as <-. reflexivity.
Qed.
